(** * TRManus: trading engine, risk gate and position ledger

    Shallow embedding of [src/trading_engine.py] (the pandas engine),
    [src/trading_engine_simple.py] (the list engine) and the routes of
    [src/trading_simple.py] that open and close a trade by hand and list
    the trades; the trading cycle and the performance statistics of both
    robots are part of it.

    Conventions of the embedding:
    - a Python float (or int) that holds a finite number is a rational [Q]
      with exact arithmetic; comparisons on numbers are therefore stated up
      to [Qeq] ([==]).  Rounding, signed zeros and overflow are outside the
      model, and so is a NaN or an infinity in a signal, a request or the
      ledger: the statements about them are about finite numbers;
    - the values pandas produces inside an indicator (NaN in the first
      windows of a rolling mean, the infinite quotient of a division by
      zero) are the extended numbers [fnum];
    - a Python exception is a [Raise e] result; a method of the robot maps a
      state to an outcome and the state it leaves behind, also when it
      raises;
    - trade dicts are mutable objects shared between [active_trades] and
      [trade_history]: they live in a heap and the two lists hold
      references;
    - [logger] calls are left out, except in [validate_trade], where the
      message tells which check rejected the signal. *)

From Stdlib Require Import QArith Qabs Qminmax Lqa ZArith String.
From stdpp Require Import gmap strings list.

Open Scope Q_scope.
Set Warnings "-clear-no-such-hyp".

(** ** Numbers *)

Definition Qltb (a b : Q) : bool := negb (Qle_bool b a).
Definition Qgtb (a b : Q) : bool := Qltb b a.
Definition Qgeb (a b : Q) : bool := Qle_bool b a.

(** Python's [min(a, b)]: the first argument unless the second is smaller. *)
Definition py_min (a b : Q) : Q := if Qltb b a then b else a.

(** ** Exceptions and results *)

Inductive exn : Set :=
| KeyError | TypeError | ValueError | ZeroDivisionError | IndexError.

Inductive result (A : Type) : Type :=
| Ok (a : A)
| Raise (e : exn).
Arguments Ok {A} a.
Arguments Raise {A} e.

#[global] Instance result_ret : MRet result := fun _ a => Ok a.
#[global] Instance result_bind : MBind result := fun _ _ k r =>
  match r with
  | Ok a => k a
  | Raise e => Raise e
  end.

(** Float division: [a / b] raises on a zero divisor. *)
Definition py_div (a b : Q) : result Q :=
  if Qeq_bool b 0 then Raise ZeroDivisionError else Ok (a / b).

(** ** Python values and dicts *)

Inductive pyval : Type :=
| PNone
| PNum (q : Q)
| PStr (s : string).

Abbreviation dict := (gmap string pyval).

(** [a == b] on values. *)
Definition py_eqb (a b : pyval) : bool :=
  match a, b with
  | PNone, PNone => true
  | PNum x, PNum y => Qeq_bool x y
  | PStr s, PStr t => String.eqb s t
  | _, _ => false
  end.

(** Truth value of an object: [None], a zero and the empty string are false. *)
Definition truthy (v : pyval) : bool :=
  match v with
  | PNone => false
  | PNum q => negb (Qeq_bool q 0)
  | PStr s => negb (String.eqb s EmptyString)
  end.

(** An operand of float arithmetic or of an ordering against a float. *)
Definition as_num (v : pyval) : result Q :=
  match v with
  | PNum q => Ok q
  | _ => Raise TypeError
  end.

(** [d[k]] *)
Definition getitem (d : dict) (k : string) : result pyval :=
  match d !! k with
  | Some v => Ok v
  | None => Raise KeyError
  end.

(** [d.get(k, dflt)] and [d.get(k)] *)
Definition dict_get (d : dict) (k : string) (dflt : pyval) : pyval :=
  default dflt (d !! k).

(** [k in d] *)
Definition has_key (d : dict) (k : string) : bool :=
  match d !! k with
  | Some _ => true
  | None => false
  end.

(** ** RiskManager *)

Record RiskManager : Type := mkRiskManager {
  max_risk_per_trade : Q;
  max_daily_loss : Q;
  daily_pnl : Q;
  account_balance : Q
}.

(** [RiskManager.__init__] with its default arguments. *)
Definition RiskManager_init : RiskManager :=
  {| max_risk_per_trade := 0.02;
     max_daily_loss := 0.05;
     daily_pnl := 0;
     account_balance := 10000 |}.

Definition calculate_position_size (rm : RiskManager) (entry_price stop_loss : Q)
  : result Q :=
  let risk_amount := account_balance rm * max_risk_per_trade rm in
  let price_diff := Qabs (entry_price - stop_loss) in
  if Qeq_bool price_diff 0 then Ok 0
  else
    position_size ← py_div risk_amount price_diff;
    Ok (py_min position_size (account_balance rm * 0.1)).

Definition required_fields : list string :=
  ["signal"; "entry_price"; "stop_loss"]%string.

Definition msg_daily_loss : string := "Daily loss limit reached. Trade rejected.".
Definition msg_missing : string := "Signal missing required fields. Trade rejected.".
Definition msg_confidence : string := "Signal confidence too low. Trade rejected.".

(** [validate_trade], with the line it logs (if any) next to its outcome. *)
Definition validate_trade_trace (rm : RiskManager) (signal : dict)
  : option string * result bool :=
  if Qle_bool (daily_pnl rm) (- account_balance rm * max_daily_loss rm) then
    (Some msg_daily_loss, Ok false)
  else if negb (forallb (has_key signal) required_fields) then
    (Some msg_missing, Ok false)
  else
    match as_num (dict_get signal "confidence" (PNum 0)) with
    | Raise e => (None, Raise e)
    | Ok c =>
        if Qltb c 0.6 then (Some msg_confidence, Ok false)
        else (None, Ok true)
    end.

Definition validate_trade (rm : RiskManager) (signal : dict) : result bool :=
  snd (validate_trade_trace rm signal).

(** ** Trades and the robot *)

(** A point in time, as [datetime.now()] gives it ([ForexTradingRobot] stores
    the datetime, [SimpleForexTradingRobot] its ISO rendering). *)
Definition datetime : Type := Z.

(** The trade dict of [execute_trade]; the four keys that [close_trade] adds
    are absent ([None]) until then.  [entry_price] and [stop_loss] went
    through the arithmetic of [calculate_position_size], so they are numbers;
    the other values are whatever the signal held. *)
Record Trade : Type := mkTrade {
  id : nat;
  symbol : pyval;
  strategy : pyval;
  signal_type : pyval;
  entry_price : Q;
  stop_loss : Q;
  take_profit : pyval;
  position_size : Q;
  entry_time : datetime;
  status : string;
  exit_price : option Q;
  exit_time : option datetime;
  pnl : option Q;
  close_reason : option string
}.

Definition opt_eqb {A : Type} (eqb : A -> A -> bool) (a b : option A) : bool :=
  match a, b with
  | Some x, Some y => eqb x y
  | None, None => true
  | _, _ => false
  end.

(** [==] on two trade dicts: same keys, equal values. *)
Definition trade_eqb (a b : Trade) : bool :=
  Nat.eqb (id a) (id b) && py_eqb (symbol a) (symbol b)
  && py_eqb (strategy a) (strategy b) && py_eqb (signal_type a) (signal_type b)
  && Qeq_bool (entry_price a) (entry_price b) && Qeq_bool (stop_loss a) (stop_loss b)
  && py_eqb (take_profit a) (take_profit b)
  && Qeq_bool (position_size a) (position_size b)
  && Z.eqb (entry_time a) (entry_time b) && String.eqb (status a) (status b)
  && opt_eqb Qeq_bool (exit_price a) (exit_price b)
  && opt_eqb Z.eqb (exit_time a) (exit_time b)
  && opt_eqb Qeq_bool (pnl a) (pnl b)
  && opt_eqb String.eqb (close_reason a) (close_reason b).

(** A reference to a trade object: its index in the heap. *)
Abbreviation ref := nat (only parsing).

Record Robot : Type := mkRobot {
  risk_manager : RiskManager;
  heap : list Trade;
  active_trades : list ref;
  trade_history : list ref;
  is_running : bool
}.

(** [ForexTradingRobot.__init__] and [SimpleForexTradingRobot.__init__]. *)
Definition Robot_init : Robot :=
  {| risk_manager := RiskManager_init;
     heap := [];
     active_trades := [];
     trade_history := [];
     is_running := false |}.

(** The two robots differ in the id they give to a new trade. *)
Inductive engine : Set := ForexTradingRobot | SimpleForexTradingRobot.

Definition next_id (e : engine) (s : Robot) : nat :=
  match e with
  | ForexTradingRobot => (length (trade_history s) + 1)%nat
  | SimpleForexTradingRobot =>
      (length (trade_history s) + length (active_trades s) + 1)%nat
  end.

(** The arguments of the call to [calculate_position_size] and the call. *)
Definition signal_position_size (rm : RiskManager) (signal : dict) : result Q :=
  e ← getitem signal "entry_price";
  sl ← getitem signal "stop_loss";
  e ← as_num e;
  sl ← as_num sl;
  calculate_position_size rm e sl.

(** The dict literal of [execute_trade]. *)
Definition make_trade (e : engine) (now : datetime) (signal : dict)
    (size : Q) (s : Robot) : result Trade :=
  sym ← getitem signal "symbol";
  strat ← getitem signal "strategy";
  sig ← getitem signal "signal";
  ep ← getitem signal "entry_price" ≫= as_num;
  sl ← getitem signal "stop_loss" ≫= as_num;
  Ok {| id := next_id e s;
        symbol := sym;
        strategy := strat;
        signal_type := sig;
        entry_price := ep;
        stop_loss := sl;
        take_profit := dict_get signal "take_profit" PNone;
        position_size := size;
        entry_time := now;
        status := "OPEN";
        exit_price := None;
        exit_time := None;
        pnl := None;
        close_reason := None |}.

Definition execute_trade (e : engine) (now : datetime) (signal : dict)
    (s : Robot) : result bool * Robot :=
  match validate_trade (risk_manager s) signal with
  | Raise x => (Raise x, s)
  | Ok false => (Ok false, s)
  | Ok true =>
      match signal_position_size (risk_manager s) signal with
      | Raise x => (Raise x, s)
      | Ok size =>
          if Qle_bool size 0 then (Ok false, s)
          else
            match make_trade e now signal size s with
            | Raise x => (Raise x, s)
            | Ok trade =>
                (Ok true,
                 {| risk_manager := risk_manager s;
                    heap := heap s ++ [trade];
                    active_trades := active_trades s ++ [length (heap s)];
                    trade_history := trade_history s;
                    is_running := is_running s |})
            end
      end
  end.

(** [a is b or a == b] on two objects of the heap, the test of [list.remove]. *)
Definition same_object (h : list Trade) (a b : ref) : bool :=
  Nat.eqb a b ||
  match h !! a, h !! b with
  | Some x, Some y => trade_eqb x y
  | _, _ => false
  end.

(** [l.remove(x)]: drops the first element that is [x] or equals it;
    [None] stands for the [ValueError] of a list without such an element. *)
Fixpoint list_remove (same : ref -> bool) (l : list ref) : option (list ref) :=
  match l with
  | [] => None
  | y :: l' =>
      if same y then Some l'
      else option_map (cons y) (list_remove same l')
  end.

Definition BUY : pyval := PStr "BUY".
Definition SELL : pyval := PStr "SELL".

Definition trade_pnl (trade : Trade) (exit : Q) : Q :=
  if py_eqb (signal_type trade) BUY then
    (exit - entry_price trade) * position_size trade
  else
    (entry_price trade - exit) * position_size trade.

(** The five assignments of [close_trade] to the trade dict. *)
Definition closed (trade : Trade) (exit : Q) (now : datetime) (reason : string)
  : Trade :=
  {| id := id trade;
     symbol := symbol trade;
     strategy := strategy trade;
     signal_type := signal_type trade;
     entry_price := entry_price trade;
     stop_loss := stop_loss trade;
     take_profit := take_profit trade;
     position_size := position_size trade;
     entry_time := entry_time trade;
     status := "CLOSED";
     exit_price := Some exit;
     exit_time := Some now;
     pnl := Some (trade_pnl trade exit);
     close_reason := Some reason |}.

Definition apply_pnl (rm : RiskManager) (p : Q) : RiskManager :=
  {| max_risk_per_trade := max_risk_per_trade rm;
     max_daily_loss := max_daily_loss rm;
     daily_pnl := daily_pnl rm + p;
     account_balance := account_balance rm + p |}.

(** [close_trade(trade, exit_price, reason)].  The trade is an object of the
    heap (a reference outside the heap denotes no object: the lookup of its
    keys then fails and nothing is written).  The writes to the trade and to
    the risk manager stay when [remove] raises. *)
Definition close_trade (now : datetime) (trade : ref) (exit : Q)
    (reason : string) (s : Robot) : result unit * Robot :=
  match heap s !! trade with
  | None => (Raise KeyError, s)
  | Some t =>
      let h := <[trade := closed t exit now reason]> (heap s) in
      let rm := apply_pnl (risk_manager s) (trade_pnl t exit) in
      match list_remove (fun y => same_object h y trade) (active_trades s) with
      | None =>
          (Raise ValueError,
           {| risk_manager := rm; heap := h;
              active_trades := active_trades s;
              trade_history := trade_history s;
              is_running := is_running s |})
      | Some act =>
          (Ok tt,
           {| risk_manager := rm; heap := h;
              active_trades := act;
              trade_history := trade_history s ++ [trade];
              is_running := is_running s |})
      end
  end.

(** The stop-loss test of [monitor_trades]. *)
Definition stop_loss_hit (trade : Trade) (current_price : Q) : bool :=
  (py_eqb (signal_type trade) BUY && Qle_bool current_price (stop_loss trade))
  || (py_eqb (signal_type trade) SELL && Qgeb current_price (stop_loss trade)).

(** The take-profit test: [take_profit] by its truth value first, then the
    comparison of the price with it, which raises on a value that is not a
    number. *)
Definition take_profit_hit (trade : Trade) (current_price : Q) : result bool :=
  if truthy (take_profit trade) then
    if py_eqb (signal_type trade) BUY then
      tp ← as_num (take_profit trade);
      Ok (Qgeb current_price tp)
    else if py_eqb (signal_type trade) SELL then
      tp ← as_num (take_profit trade);
      Ok (Qle_bool current_price tp)
    else Ok false
  else Ok false.

Definition STOP_LOSS : string := "STOP_LOSS".
Definition TAKE_PROFIT : string := "TAKE_PROFIT".
Definition MANUAL_CLOSE : string := "MANUAL_CLOSE".

(** The body of the loop of [monitor_trades] for one trade of the copy. *)
Definition monitor_trade (now : datetime) (current_price : Q) (trade : ref)
    (s : Robot) : result unit * Robot :=
  match heap s !! trade with
  | None => (Raise KeyError, s)
  | Some t =>
      if Qeq_bool current_price 0 then (Ok tt, s)
      else if stop_loss_hit t current_price then
        close_trade now trade current_price STOP_LOSS s
      else
        match take_profit_hit t current_price with
        | Raise x => (Raise x, s)
        | Ok true => close_trade now trade current_price TAKE_PROFIT s
        | Ok false => (Ok tt, s)
        end
  end.

(** The loop over [self.active_trades[:]]; [k] counts the iterations, the
    [k]-th call of [get_real_time_price] returns [feed k] and the clock reads
    [clock k] then. *)
Fixpoint monitor_loop (clock : nat -> datetime) (feed : nat -> Q) (k : nat)
    (copy : list ref) (s : Robot) : result unit * Robot :=
  match copy with
  | [] => (Ok tt, s)
  | trade :: rest =>
      match monitor_trade (clock k) (feed k) trade s with
      | (Raise x, s') => (Raise x, s')
      | (Ok _, s') => monitor_loop clock feed (S k) rest s'
      end
  end.

Definition monitor_trades (clock : nat -> datetime) (feed : nat -> Q)
    (s : Robot) : result unit * Robot :=
  monitor_loop clock feed 0 (active_trades s) s.

(** ** The web routes that open and close trades by hand
    ([src/trading_simple.py], on a [SimpleForexTradingRobot]) *)

Section Routes.
(** [float(s)] on a string: the number it spells, if any. *)
Variable float_of_string : string -> option Q.

(** [float(v)] where it returns a finite number or raises ValueError or
    TypeError.  A value that [float] turns into NaN or an infinity (the
    strings 'nan' and 'inf', the JSON tokens NaN and 1e999) and an integer
    beyond the float range (OverflowError) are not values of this model. *)
Definition py_float (v : pyval) : result Q :=
  match v with
  | PNum q => Ok q
  | PStr s =>
      match float_of_string s with
      | Some q => Ok q
      | None => Raise ValueError
      end
  | PNone => Raise TypeError
  end.

Definition manual_required_fields : list string :=
  ["symbol"; "signal"; "entry_price"; "stop_loss"]%string.

(** The signal dict that [manual_trade] builds from the request. *)
Definition manual_signal (data : dict) : result dict :=
  sym ← getitem data "symbol";
  sig ← getitem data "signal";
  ep ← getitem data "entry_price" ≫= py_float;
  sl ← getitem data "stop_loss" ≫= py_float;
  tp ← (if truthy (dict_get data "take_profit" PNone)
        then q ← py_float (dict_get data "take_profit" (PNum 0)); Ok (PNum q)
        else Ok PNone);
  conf ← py_float (dict_get data "confidence" (PNum 1.0));
  Ok ({[ "symbol" := sym;
         "signal" := sig;
         "entry_price" := PNum ep;
         "stop_loss" := PNum sl;
         "take_profit" := tp;
         "confidence" := PNum conf;
         "strategy" := PStr "Manual";
         "reason" := PStr "Manual trade execution" ]} : dict).

(** [manual_trade] once [request.get_json()] has returned the object
    [data]: the status code of the response and the robot after.  The whole
    route, with the outcomes of [get_json], is [manual_trade_route]. *)
Definition manual_trade (now : datetime) (data : dict) (s : Robot)
  : nat * Robot :=
  if Nat.eqb (size data) 0 then (400%nat, s)
  else if negb (forallb (has_key data) manual_required_fields) then (400%nat, s)
  else
    match manual_signal data with
    | Raise _ => (500%nat, s)
    | Ok signal =>
        match execute_trade SimpleForexTradingRobot now signal s with
        | (Ok true, s') => (200%nat, s')
        | (Ok false, s') => (400%nat, s')
        | (Raise _, s') => (500%nat, s')
        end
    end.
End Routes.

(** The search of [close_trade_manual] through [active_trades]. *)
Definition find_trade (h : list Trade) (trade_id : nat) (l : list ref)
  : option ref :=
  List.find (fun r => match h !! r with
                      | Some t => Nat.eqb (id t) trade_id
                      | None => false
                      end) l.

(** [close_trade_manual(trade_id)], [current_price] being what
    [get_real_time_price] returns for the symbol of the trade. *)
Definition close_trade_manual (now : datetime) (current_price : Q)
    (trade_id : nat) (s : Robot) : nat * Robot :=
  match find_trade (heap s) trade_id (active_trades s) with
  | None => (404%nat, s)
  | Some trade =>
      if Qeq_bool current_price 0 then (500%nat, s)
      else
        match close_trade now trade current_price MANUAL_CLOSE s with
        | (Ok _, s') => (200%nat, s')
        | (Raise _, s') => (500%nat, s')
        end
  end.

(** ** Indicators of the list engine ([SimpleTechnicalIndicators]) *)

(** [l[-n:]] for [n >= 0]: the last [n] elements, and the whole list for
    [n = 0] (as [-0] is [0]) or a short list. *)
Definition last_n {A : Type} (n : nat) (l : list A) : list A :=
  if Nat.eqb n 0 then l else drop (length l - n) l.

(** [sum(l)] *)
Definition py_sum (l : list Q) : Q := foldl Qplus 0 l.

Definition Qnat (n : nat) : Q := inject_Z (Z.of_nat n).

Module SimpleTechnicalIndicators.

(** [sma]: the mean is the exact one; the float quotient of the source is
    within rounding of it, and can leave the range of the prices by that
    much. *)
Definition sma (prices : list Q) (period : nat) : result Q :=
  if Nat.ltb (length prices) period then Ok 0
  else py_div (py_sum (last_n period prices)) (Qnat period).

(** The loop over [range(1, len(prices))]: [prev] is [prices[i-1]], [rest]
    starts at [prices[i]]. *)
Fixpoint gains_losses (prev : Q) (rest : list Q) (gains losses : list Q)
  : list Q * list Q :=
  match rest with
  | [] => (gains, losses)
  | p :: rest' =>
      let change := p - prev in
      if Qgtb change 0 then
        gains_losses p rest' (gains ++ [change]) (losses ++ [0])
      else
        gains_losses p rest' (gains ++ [0]) (losses ++ [Qabs change])
  end.

Definition rsi (prices : list Q) (period : nat) : result Q :=
  if Nat.ltb (length prices) (period + 1) then Ok 50
  else
    let '(gains, losses) :=
      match prices with
      | [] => ([], [])
      | p0 :: rest => gains_losses p0 rest [] []
      end in
    if Nat.ltb (length gains) period then Ok 50
    else
      avg_gain ← py_div (py_sum (last_n period gains)) (Qnat period);
      avg_loss ← py_div (py_sum (last_n period losses)) (Qnat period);
      if Qeq_bool avg_loss 0 then Ok 100
      else
        rs ← py_div avg_gain avg_loss;
        q ← py_div 100 (1 + rs);
        Ok (100 - q).

End SimpleTechnicalIndicators.

(** ** Extended numbers: what a float64 of pandas can hold *)

Inductive fnum : Type :=
| Fin (q : Q)
| PosInf
| NegInf
| NaN.

Definition fneg (a : fnum) : fnum :=
  match a with
  | Fin q => Fin (- q)
  | PosInf => NegInf
  | NegInf => PosInf
  | NaN => NaN
  end.

Definition fadd (a b : fnum) : fnum :=
  match a, b with
  | NaN, _ | _, NaN => NaN
  | PosInf, NegInf | NegInf, PosInf => NaN
  | PosInf, _ | _, PosInf => PosInf
  | NegInf, _ | _, NegInf => NegInf
  | Fin x, Fin y => Fin (x + y)
  end.

Definition fsub (a b : fnum) : fnum := fadd a (fneg b).

(** An infinity of the sign of [q]; NaN for zero. *)
Definition inf_signed (q : Q) (pos : fnum) : fnum :=
  match q ?= 0 with
  | Gt => pos
  | Lt => fneg pos
  | Eq => NaN
  end.

Definition fmul (a b : fnum) : fnum :=
  match a, b with
  | NaN, _ | _, NaN => NaN
  | Fin x, Fin y => Fin (x * y)
  | Fin x, PosInf | PosInf, Fin x => inf_signed x PosInf
  | Fin x, NegInf | NegInf, Fin x => inf_signed x NegInf
  | PosInf, PosInf | NegInf, NegInf => PosInf
  | PosInf, NegInf | NegInf, PosInf => NegInf
  end.

(** Division of float64 in numpy: no exception; [x/0] is an infinity of the
    sign of [x], [0/0] is NaN. *)
Definition fdiv (a b : fnum) : fnum :=
  match a, b with
  | NaN, _ | _, NaN => NaN
  | Fin x, Fin y => if Qeq_bool y 0 then inf_signed x PosInf else Fin (x / y)
  | Fin _, _ => Fin 0
  | PosInf, Fin y => if Qltb y 0 then NegInf else PosInf
  | NegInf, Fin y => if Qltb y 0 then PosInf else NegInf
  | _, _ => NaN
  end.

(** Orderings: false as soon as one side is NaN. *)
Definition fltb (a b : fnum) : bool :=
  match a, b with
  | NaN, _ | _, NaN => false
  | Fin x, Fin y => Qltb x y
  | NegInf, NegInf | PosInf, _ => false
  | NegInf, _ | _, PosInf => true
  | Fin _, NegInf => false
  end.

Definition fleb (a b : fnum) : bool :=
  match a, b with
  | NaN, _ | _, NaN => false
  | Fin x, Fin y => Qle_bool x y
  | NegInf, _ | _, PosInf => true
  | PosInf, _ | _, NegInf => false
  end.

Definition fgtb (a b : fnum) : bool := fltb b a.
Definition fgeb (a b : fnum) : bool := fleb b a.

Definition fsum (l : list fnum) : fnum := foldl fadd (Fin 0) l.

(** A float64 that is put into a signal dict.  The dict values of this
    model are finite numbers: a NaN or an infinity has no counterpart there
    (the strategies below only store values that are finite once their
    length guard has passed). *)
Definition to_py (a : fnum) : pyval :=
  match a with
  | Fin q => PNum q
  | _ => PNone
  end.

(** [s.iloc[-k]] for [k >= 1] *)
Definition iloc_neg {A : Type} (s : list A) (k : nat) : result A :=
  if Nat.ltb (length s) k then Raise IndexError
  else
    match s !! (length s - k)%nat with
    | Some x => Ok x
    | None => Raise IndexError
    end.

(** ** Indicators of the pandas engine ([TechnicalIndicators]) *)

Module TechnicalIndicators.

(** [s.rolling(window=w).agg()]: NaN until the window is full. *)
Definition rolling (w : nat) (agg : list fnum -> fnum) (s : list fnum)
  : list fnum :=
  imap (fun i _ =>
          if Nat.ltb (i + 1) w then NaN
          else agg (take w (drop (i + 1 - w) s))) s.

Definition mean (win : list fnum) : fnum :=
  fdiv (fsum win) (Fin (Qnat (length win))).

Definition sma (data : list fnum) (period : nat) : list fnum :=
  rolling period mean data.

(** [s.diff()] *)
Definition diff (s : list fnum) : list fnum :=
  match s with
  | [] => []
  | _ :: tl => NaN :: zip_with fsub tl s
  end.

(** [s.where(cond, other)] *)
Definition where_ (cond : fnum -> bool) (other : fnum) (s : list fnum)
  : list fnum :=
  map (fun x => if cond x then x else other) s.

(** [gain] and [loss] of [rsi]: the rolling means of the rises and of the
    falls. *)
Definition avg_gain (data : list fnum) (period : nat) : list fnum :=
  let delta := diff data in
  rolling period mean (where_ (fun d => fgtb d (Fin 0)) (Fin 0) delta).

Definition avg_loss (data : list fnum) (period : nat) : list fnum :=
  let delta := diff data in
  rolling period mean
    (map fneg (where_ (fun d => fltb d (Fin 0)) (Fin 0) delta)).

Definition rsi (data : list fnum) (period : nat) : list fnum :=
  let gain := avg_gain data period in
  let loss := avg_loss data period in
  let rs := zip_with fdiv gain loss in
  map (fun x => fsub (Fin 100) (fdiv (Fin 100) (fadd (Fin 1) x))) rs.

Section Bollinger.
(** The square root of numpy on a non-negative finite number. *)
Variable sqrt : Q -> Q.

Definition fsqrt (a : fnum) : fnum :=
  match a with
  | Fin q => if Qltb q 0 then NaN else Fin (sqrt q)
  | PosInf => PosInf
  | _ => NaN
  end.

(** The sample standard deviation of a window (pandas divides by
    [n - 1]). *)
Definition std (win : list fnum) : fnum :=
  let m := mean win in
  fsqrt (fdiv (fsum (map (fun x => fmul (fsub x m) (fsub x m)) win))
              (Fin (Qnat (length win) - 1))).

Definition bollinger_bands (data : list fnum) (period : nat) (std_dev : Q)
  : list fnum * list fnum * list fnum :=
  let sma := sma data period in
  let std := rolling period std data in
  let upper_band := zip_with fadd sma (map (fun x => fmul x (Fin std_dev)) std) in
  let lower_band := zip_with fsub sma (map (fun x => fmul x (Fin std_dev)) std) in
  (upper_band, sma, lower_band).
End Bollinger.

End TechnicalIndicators.

(** ** Strategies *)

Definition HOLD : pyval := PStr "HOLD".

Definition hold_signal (reason : string) : dict :=
  {[ "signal" := HOLD; "confidence" := PNum 0; "reason" := PStr reason ]}.

Definition trade_signal (direction : pyval) (confidence : Q) (reason : string)
    (entry stop take : pyval) : dict :=
  {[ "signal" := direction;
     "confidence" := PNum confidence;
     "reason" := PStr reason;
     "entry_price" := entry;
     "stop_loss" := stop;
     "take_profit" := take ]}.

(** One row of the price frame. *)
Record Bar : Type := mkBar {
  Open : Q;
  High : Q;
  Low : Q;
  Close : Q;
  Volume : Q
}.

(** [data[column]] as a float64 series. *)
Definition column (f : Bar -> Q) (data : list Bar) : list fnum :=
  map (fun b => Fin (f b)) data.

(** [s.max()] and [s.min()] on a series without NaN, as the columns of a
    frame are here: NaN on an empty series. *)
Definition series_max (s : list fnum) : fnum :=
  match s with
  | [] => NaN
  | x :: tl => foldl (fun m y => if fgtb y m then y else m) x tl
  end.

Definition series_min (s : list fnum) : fnum :=
  match s with
  | [] => NaN
  | x :: tl => foldl (fun m y => if fltb y m then y else m) x tl
  end.

(** In the strategies that print a number into their reason, [fmt n x] is
    [x] printed with [n] decimals (the f-string [{x:.nf}]); [sqrt] is the
    square root behind [rolling(...).std()]. *)

Module TrendFollowingStrategy.

Definition short_ma_period : nat := 10.
Definition long_ma_period : nat := 30.

Definition generate_signal (data : list Bar) : result dict :=
  if Nat.ltb (length data) long_ma_period then Ok (hold_signal "Insufficient data")
  else
    let close_prices := column Close data in
    let short_ma := TechnicalIndicators.sma close_prices short_ma_period in
    let long_ma := TechnicalIndicators.sma close_prices long_ma_period in
    current_short ← iloc_neg short_ma 1;
    current_long ← iloc_neg long_ma 1;
    prev_short ← iloc_neg short_ma 2;
    prev_long ← iloc_neg long_ma 2;
    if fleb prev_short prev_long && fgtb current_short current_long then
      last ← iloc_neg close_prices 1;
      Ok (trade_signal BUY 0.7 "Golden cross detected"
            (to_py last)
            (to_py (fmul last (Fin 0.98)))
            (to_py (fmul last (Fin 1.04))))
    else if fgeb prev_short prev_long && fltb current_short current_long then
      last ← iloc_neg close_prices 1;
      Ok (trade_signal SELL 0.7 "Death cross detected"
            (to_py last)
            (to_py (fmul last (Fin 1.02)))
            (to_py (fmul last (Fin 0.96))))
    else Ok (hold_signal "No clear trend signal").

End TrendFollowingStrategy.

Module MeanReversionStrategy.
Section WithExternals.
Variable fmt : nat -> fnum -> string.
Variable sqrt : Q -> Q.

Definition rsi_period : nat := 14.
Definition bb_period : nat := 20.
Definition rsi_oversold : Q := 30.
Definition rsi_overbought : Q := 70.

Definition generate_signal (data : list Bar) : result dict :=
  if Nat.ltb (length data) (Nat.max rsi_period bb_period) then
    Ok (hold_signal "Insufficient data")
  else
    let close_prices := column Close data in
    let rsi := TechnicalIndicators.rsi close_prices rsi_period in
    let '(upper_bb, middle_bb, lower_bb) :=
      TechnicalIndicators.bollinger_bands sqrt close_prices bb_period 2 in
    current_rsi ← iloc_neg rsi 1;
    current_price ← iloc_neg close_prices 1;
    current_upper ← iloc_neg upper_bb 1;
    current_lower ← iloc_neg lower_bb 1;
    if fltb current_rsi (Fin rsi_oversold) && fltb current_price current_lower then
      middle ← iloc_neg middle_bb 1;
      Ok (trade_signal BUY 0.8
            ("Oversold: RSI=" ++ fmt 2 current_rsi ++ ", Price below lower BB")
            (to_py current_price)
            (to_py (fmul current_price (Fin 0.97)))
            (to_py middle))
    else if fgtb current_rsi (Fin rsi_overbought)
            && fgtb current_price current_upper then
      middle ← iloc_neg middle_bb 1;
      Ok (trade_signal SELL 0.8
            ("Overbought: RSI=" ++ fmt 2 current_rsi ++ ", Price above upper BB")
            (to_py current_price)
            (to_py (fmul current_price (Fin 1.03)))
            (to_py middle))
    else Ok (hold_signal "No mean reversion signal").

End WithExternals.
End MeanReversionStrategy.

Module BreakoutStrategy.
Section WithExternals.
Variable fmt : nat -> fnum -> string.

Definition lookback_period : nat := 20.

Definition generate_signal (data : list Bar) : result dict :=
  if Nat.ltb (length data) lookback_period then
    Ok (hold_signal "Insufficient data")
  else
    let recent_data := last_n lookback_period data in
    let resistance := series_max (column High recent_data) in
    let support := series_min (column Low recent_data) in
    current_price ← iloc_neg (column Close data) 1;
    if fgtb current_price (fmul resistance (Fin 1.001)) then
      Ok (trade_signal BUY 0.75
            ("Breakout above resistance at " ++ fmt 5 resistance)
            (to_py current_price)
            (to_py (fmul resistance (Fin 0.999)))
            (to_py (fadd current_price
                      (fmul (fsub current_price resistance) (Fin 2)))))
    else if fltb current_price (fmul support (Fin 0.999)) then
      Ok (trade_signal SELL 0.75
            ("Breakdown below support at " ++ fmt 5 support)
            (to_py current_price)
            (to_py (fmul support (Fin 1.001)))
            (to_py (fsub current_price
                      (fmul (fsub support current_price) (Fin 2)))))
    else Ok (hold_signal "No breakout signal").

End WithExternals.
End BreakoutStrategy.

Module SimpleTrendFollowingStrategy.

Definition short_ma_period : nat := 5.
Definition long_ma_period : nat := 15.

Definition generate_signal (prices : list Q)
  : result dict :=
  if Nat.ltb (length prices) long_ma_period then
    Ok (hold_signal "Insufficient data")
  else
    short_ma ← SimpleTechnicalIndicators.sma prices short_ma_period;
    long_ma ← SimpleTechnicalIndicators.sma prices long_ma_period;
    current_price ← iloc_neg prices 1;
    if Qgtb short_ma long_ma && Qgtb current_price short_ma then
      Ok (trade_signal BUY 0.7 "Short MA above Long MA"
            (PNum current_price)
            (PNum (current_price * 0.98))
            (PNum (current_price * 1.04)))
    else if Qltb short_ma long_ma && Qltb current_price short_ma then
      Ok (trade_signal SELL 0.7 "Short MA below Long MA"
            (PNum current_price)
            (PNum (current_price * 1.02))
            (PNum (current_price * 0.96)))
    else Ok (hold_signal "No clear trend signal").

End SimpleTrendFollowingStrategy.

Module SimpleMeanReversionStrategy.
Section WithExternals.
Variable fmt : nat -> fnum -> string.

Definition rsi_period : nat := 14.
Definition rsi_oversold : Q := 30.
Definition rsi_overbought : Q := 70.

Definition generate_signal (prices : list Q)
  : result dict :=
  if Nat.ltb (length prices) (rsi_period + 1) then
    Ok (hold_signal "Insufficient data")
  else
    rsi ← SimpleTechnicalIndicators.rsi prices rsi_period;
    current_price ← iloc_neg prices 1;
    if Qltb rsi rsi_oversold then
      Ok (trade_signal BUY 0.8 ("Oversold: RSI=" ++ fmt 2 (Fin rsi))
            (PNum current_price)
            (PNum (current_price * 0.97))
            (PNum (current_price * 1.03)))
    else if Qgtb rsi rsi_overbought then
      Ok (trade_signal SELL 0.8 ("Overbought: RSI=" ++ fmt 2 (Fin rsi))
            (PNum current_price)
            (PNum (current_price * 1.03))
            (PNum (current_price * 0.97)))
    else Ok (hold_signal "No mean reversion signal").

End WithExternals.
End SimpleMeanReversionStrategy.

(** * Vocabulary of the specification *)

(** The three conditions under which [validateTrade] rejects. *)
Definition daily_loss_tripped (rm : RiskManager) : Prop :=
  daily_pnl rm <= - account_balance rm * max_daily_loss rm.

Definition lacks_required_field (signal : dict) : Prop :=
  exists k, k ∈ required_fields /\ signal !! k = None.

(** The confidence of a signal, 0 when it has none. *)
Definition confidence_of (signal : dict) : pyval :=
  dict_get signal "confidence" (PNum 0).

Definition numeric_confidence (signal : dict) : Prop :=
  exists c, confidence_of signal = PNum c.

Definition low_confidence (signal : dict) : Prop :=
  exists c, confidence_of signal = PNum c /\ c < 0.6.


(** * Sample inputs *)

(** A complete signal on EURUSD, entry 1.1000 and stop 1.0950. *)
Definition sample_signal (direction : pyval) (confidence : Q) (take : pyval)
  : dict :=
  <["symbol" := PStr "EURUSD"]>
    (<["strategy" := PStr "Manual"]>
       (trade_signal direction confidence "sample"
          (PNum 1.1000) (PNum 1.0950) take)).

(** A risk manager whose daily loss has reached 5% of the balance. *)
Definition tripped_manager : RiskManager :=
  {| max_risk_per_trade := 0.02;
     max_daily_loss := 0.05;
     daily_pnl := -500;
     account_balance := 10000 |}.


(** * Runs of the robot and its invariant *)

(** The two operations that change the ledger. *)
Inductive op : Type :=
| Execute (now : datetime) (signal : dict)
| CloseTrade (now : datetime) (trade : ref) (exit : Q) (reason : string).

(** The state an operation leaves, whatever its outcome. *)
Definition step (e : engine) (s : Robot) (o : op) : Robot :=
  match o with
  | Execute now signal => snd (execute_trade e now signal s)
  | CloseTrade now trade exit reason => snd (close_trade now trade exit reason s)
  end.

Definition run (e : engine) (ops : list op) : Robot :=
  foldl (step e) Robot_init ops.

(** A trade as [execute_trade] makes it. *)
Definition is_open (t : Trade) : Prop :=
  status t = "OPEN"%string /\ exit_price t = None /\ exit_time t = None /\
  pnl t = None /\ close_reason t = None.

Definition is_closed (t : Trade) : Prop := status t = "CLOSED"%string.

(** The ledger invariant: every trade object is in exactly one of the two
    lists and once; the open ones are in [active_trades], the closed ones in
    [trade_history]. *)
Record wf (s : Robot) : Prop := mkWf {
  wf_nodup : NoDup (active_trades s ++ trade_history s);
  wf_active : forall r, r ∈ active_trades s ->
              exists t, heap s !! r = Some t /\ is_open t;
  wf_history : forall r, r ∈ trade_history s ->
               exists t, heap s !! r = Some t /\ is_closed t;
  wf_all : forall r, (r < length (heap s))%nat ->
           r ∈ active_trades s ++ trade_history s
}.

(** The exit conditions of the specification. *)
Definition stop_condition (t : Trade) (price : Q) : Prop :=
  (signal_type t = BUY /\ price <= stop_loss t) \/
  (signal_type t = SELL /\ stop_loss t <= price).

Definition take_profit_condition (t : Trade) (price : Q) : Prop :=
  exists tp, take_profit t = PNum tp /\ ~ tp == 0 /\
    ((signal_type t = BUY /\ tp <= price) \/
     (signal_type t = SELL /\ price <= tp)).

(** No string in [take_profit]. *)
Definition take_profit_typed (t : Trade) : Prop :=
  forall x, take_profit t <> PStr x.

(** What one call of [monitor_trades] must have done to the trade at
    [trade], which was [t] before, when the price fetched for it was
    [price] at time [now]; [s'] is the robot after the call. *)
Definition monitored (trade : ref) (t : Trade) (price : Q) (now : datetime)
    (s' : Robot) : Prop :=
  let kept := (trade ∈ active_trades s') /\ (trade ∉ trade_history s') /\
              heap s' !! trade = Some t in
  let closed_with reason :=
    (trade ∉ active_trades s') /\ (trade ∈ trade_history s') /\
    heap s' !! trade = Some (closed t price now reason) in
  (price == 0 -> kept) /\
  (~ price == 0 -> stop_condition t price -> closed_with STOP_LOSS) /\
  (~ price == 0 -> ~ stop_condition t price -> take_profit_condition t price ->
     closed_with TAKE_PROFIT) /\
  (~ price == 0 -> ~ stop_condition t price -> ~ take_profit_condition t price ->
     kept).


(** A robot with a balance of 1000, on which the sample signal is sized at
    100 units (10% of the balance), and the same robot with that trade
    open. *)
Definition small_robot : Robot :=
  {| risk_manager :=
       {| max_risk_per_trade := 0.02; max_daily_loss := 0.05;
          daily_pnl := 0; account_balance := 1000 |};
     heap := [];
     active_trades := [];
     trade_history := [];
     is_running := false |}.

Definition small_robot_open (direction : pyval) (take : pyval) : Robot :=
  snd (execute_trade SimpleForexTradingRobot 0%Z
         (sample_signal direction 0.9 take) small_robot).


(** The trade that [small_robot_open] holds. *)
Definition sample_trade (direction : pyval) (take : pyval) : Trade :=
  {| id := 1;
     symbol := PStr "EURUSD";
     strategy := PStr "Manual";
     signal_type := direction;
     entry_price := 1.1000;
     stop_loss := 1.0950;
     take_profit := take;
     position_size := 1000 * 0.1;
     entry_time := 0%Z;
     status := "OPEN";
     exit_price := None;
     exit_time := None;
     pnl := None;
     close_reason := None |}.


(** Ids follow the order of creation: the trade object number [r] has id
    [r + 1]. *)
Definition ids_by_ref (s : Robot) : Prop :=
  forall r t, heap s !! r = Some t -> id t = S r.


(** A take-profit that is [None] or zero. *)
Definition no_take_profit (t : Trade) : Prop :=
  take_profit t = PNone \/ exists q, take_profit t = PNum q /\ q == 0.

(** What the web application does to its robot (a
    [SimpleForexTradingRobot]): the trading cycle monitors the open trades
    and executes signals, the two routes open and close trades by hand. *)
Inductive request : Type :=
| ReqMonitor (clock : nat -> datetime) (feed : nat -> Q)
| ReqExecute (now : datetime) (signal : dict)
| ReqManualTrade (now : datetime) (data : dict)
| ReqCloseManual (now : datetime) (current_price : Q) (trade_id : nat).

Definition serve (float_of_string : string -> option Q) (s : Robot)
    (q : request) : Robot :=
  match q with
  | ReqMonitor clock feed => snd (monitor_trades clock feed s)
  | ReqExecute now signal =>
      snd (execute_trade SimpleForexTradingRobot now signal s)
  | ReqManualTrade now data => snd (manual_trade float_of_string now data s)
  | ReqCloseManual now current_price trade_id =>
      snd (close_trade_manual now current_price trade_id s)
  end.

(** The trade object [r] exists, has no take-profit, and is open or was
    closed by its stop-loss or by hand. *)
Definition never_took_profit (r : ref) (s : Robot) : Prop :=
  exists t, heap s !! r = Some t /\ no_take_profit t /\
            (close_reason t = None \/ close_reason t = Some STOP_LOSS \/
             close_reason t = Some MANUAL_CLOSE).


(** A manual-trade request without a take-profit: the key is missing, or
    its value is null or zero. *)
Definition request_without_take_profit (data : dict) : Prop :=
  data !! "take_profit"%string = None \/
  data !! "take_profit"%string = Some PNone \/
  exists q, data !! "take_profit"%string = Some (PNum q) /\ q == 0.

(** The body of a manual BUY on EURUSD with the given take-profit. *)
Definition sample_request (take : pyval) : dict :=
  {[ "symbol" := PStr "EURUSD";
     "signal" := BUY;
     "entry_price" := PNum 1.1000;
     "stop_loss" := PNum 1.0950;
     "take_profit" := take ]}.


(** The vocabulary of the RSI: the deltas of a series, the average loss
    over its trailing [period] deltas, a strictly increasing series. *)
Definition deltas (prices : list Q) : list Q :=
  zip_with (fun a b => b - a) prices (tail prices).

Definition average_loss (prices : list Q) (period : nat) : Q :=
  py_sum (map (fun d => Qmax (- d) 0) (last_n period (deltas prices)))
  / Qnat period.

Definition strictly_increasing (prices : list Q) : Prop :=
  forall i a b, prices !! i = Some a -> prices !! S i = Some b -> a < b.

(** What the loop of [SimpleTechnicalIndicators.rsi] appends to [gains] and
    to [losses] for one change. *)
Definition gain_of (change : Q) : Q := if Qgtb change 0 then change else 0.
Definition loss_of (change : Q) : Q := if Qgtb change 0 then 0 else Qabs change.

(** Equality of extended numbers, up to the equality of rationals. *)
Definition feq (a b : fnum) : Prop :=
  match a, b with
  | Fin x, Fin y => x == y
  | PosInf, PosInf | NegInf, NegInf | NaN, NaN => True
  | _, _ => False
  end.

(** The value of the pandas RSI where the rolling gain is [gain] and the
    rolling loss is [loss]. *)
Definition rsi_value (gain loss : fnum) : fnum :=
  fsub (Fin 100) (fdiv (Fin 100) (fadd (Fin 1) (fdiv gain loss))).

(** The changes that the pandas RSI averages: row 0 has no previous row
    ([diff] is NaN there and [where] puts 0), row [j] holds
    [prices[j] - prices[j-1]]. *)
Definition changes (prices : list Q) : list Q :=
  match prices with
  | [] => []
  | _ :: _ => 0 :: deltas prices
  end.

(** The [period] changes that end at row [i]. *)
Definition trailing_changes (prices : list Q) (period i : nat) : list Q :=
  take period (drop (i + 1 - period) (changes prices)).

(** The average gain and the average loss over these changes: a rise counts
    as a gain, a fall as a loss, and the other changes as 0. *)
Definition rolling_gain (prices : list Q) (period i : nat) : Q :=
  py_sum (map (fun d => Qmax d 0) (trailing_changes prices period i))
  / Qnat period.

Definition rolling_loss (prices : list Q) (period i : nat) : Q :=
  py_sum (map (fun d => Qmax (- d) 0) (trailing_changes prices period i))
  / Qnat period.


(** Fifteen rising closes, and the same as a float64 series. *)
Definition rising_prices : list Q :=
  map (fun n => Qnat n) (seq 1 15).

Definition rising_series : list fnum := map Fin rising_prices.


(** The vocabulary of the strategies: a frame whose prices are all strictly
    positive, and a signal whose stop is on the losing side of its entry. *)
Definition positive_bars (data : list Bar) : Prop :=
  Forall (fun b => 0 < Open b /\ 0 < High b /\ 0 < Low b /\ 0 < Close b) data.

Definition stop_on_losing_side (sig : dict) : Prop :=
  (sig !! "signal"%string = Some BUY ->
     exists e s, sig !! "entry_price"%string = Some (PNum e) /\
                 sig !! "stop_loss"%string = Some (PNum s) /\ s < e) /\
  (sig !! "signal"%string = Some SELL ->
     exists e s, sig !! "entry_price"%string = Some (PNum e) /\
                 sig !! "stop_loss"%string = Some (PNum s) /\ e < s) /\
  (sig !! "signal"%string = Some BUY \/ sig !! "signal"%string = Some SELL \/
   sig !! "signal"%string = Some HOLD).

(** A HOLD for lack of data: no direction, confidence 0, a reason, and no
    price level. *)
Definition insufficient_data (sig : dict) : Prop :=
  sig !! "signal"%string = Some HOLD /\
  sig !! "confidence"%string = Some (PNum 0) /\
  sig !! "reason"%string = Some (PStr "Insufficient data") /\
  sig !! "entry_price"%string = None /\
  sig !! "stop_loss"%string = None /\
  sig !! "take_profit"%string = None.

(** A bar whose four prices are all [p]. *)
Definition flat_bar (p : Q) : Bar :=
  {| Open := p; High := p; Low := p; Close := p; Volume := 0 |}.

(** Thirty bars at 10 and one at 11: the short average crosses above the
    long one on the last bar; the mirror image with one bar at 9. *)
Definition golden_cross : list Bar :=
  map flat_bar (replicate 30 10 ++ [11]).

Definition death_cross : list Bar :=
  map flat_bar (replicate 30 10 ++ [9]).


(** A frame of bars as a market makes them: every low is positive and
    every close lies between the low and the high of its bar. *)
Definition consistent_bars (data : list Bar) : Prop :=
  Forall (fun b => 0 < Low b /\ Low b <= Close b /\ Close b <= High b) data.


(** ** Performance statistics
    ([get_performance_stats], the same in both engines) *)

(** [t['pnl']] for every trade of the list, in order; the key is missing
    on a trade that was never closed. *)
Fixpoint trade_pnls (h : list Trade) (l : list ref) : result (list Q) :=
  match l with
  | [] => Ok []
  | r :: l' =>
      match h !! r with
      | None => Raise KeyError
      | Some t =>
          match pnl t with
          | None => Raise KeyError
          | Some p => ps ← trade_pnls h l'; Ok (p :: ps)
          end
      end
  end.

(** The dict of statistics. *)
Module PerformanceStats.
Record t : Type := mk {
  total_trades : Z;
  winning_trades : Z;
  losing_trades : Z;
  win_rate : Q;
  total_pnl : Q;
  account_balance : Q;
  active_trades : Z
}.
End PerformanceStats.

(** What [get_performance_stats] returns: the dict with the single key
    [message], or the statistics. *)
Inductive performance : Type :=
| Message (message : string)
| Stats (stats : PerformanceStats.t).

Section Performance.
(** [round(x, 2)] *)
Variable round2 : Q -> Q.

Definition get_performance_stats (s : Robot) : result performance :=
  match trade_history s with
  | [] => Ok (Message "No trades executed yet")
  | _ :: _ =>
      let total_trades := Z.of_nat (length (trade_history s)) in
      pnls ← trade_pnls (heap s) (trade_history s);
      let winning_trades :=
        Z.of_nat (length (List.filter (fun p => Qgtb p 0) pnls)) in
      let losing_trades := (total_trades - winning_trades)%Z in
      let total_pnl := py_sum pnls in
      win_rate ← (if (0 <? total_trades)%Z then
                    r ← py_div (inject_Z winning_trades) (inject_Z total_trades);
                    Ok (r * 100)
                  else Ok 0);
      Ok (Stats
            {| PerformanceStats.total_trades := total_trades;
               PerformanceStats.winning_trades := winning_trades;
               PerformanceStats.losing_trades := losing_trades;
               PerformanceStats.win_rate := round2 win_rate;
               PerformanceStats.total_pnl := round2 total_pnl;
               PerformanceStats.account_balance :=
                 round2 (account_balance (risk_manager s));
               PerformanceStats.active_trades :=
                 Z.of_nat (length (active_trades s)) |})
  end.
End Performance.

(** A closed trade carries the four exit keys: the price it was closed at,
    the time, the P/L of that price and one of the three reasons. *)
Definition settled (t : Trade) : Prop :=
  exists exit,
    exit_price t = Some exit /\ pnl t = Some (trade_pnl t exit) /\
    exit_time t <> None /\
    (close_reason t = Some STOP_LOSS \/ close_reason t = Some TAKE_PROFIT \/
     close_reason t = Some MANUAL_CLOSE).

(** The books balance: every trade of the history is settled; the balance
    is the initial one to which the P/L of the history were added one after
    the other, in the order of the history; [daily_pnl] is these P/L added
    up from 0 in the same order; the two risk limits are the initial
    ones. *)
Definition books (s : Robot) : Prop :=
  (forall r, r ∈ trade_history s ->
     exists t, heap s !! r = Some t /\ settled t) /\
  max_risk_per_trade (risk_manager s) = max_risk_per_trade RiskManager_init /\
  max_daily_loss (risk_manager s) = max_daily_loss RiskManager_init /\
  exists pnls,
    trade_pnls (heap s) (trade_history s) = Ok pnls /\
    account_balance (risk_manager s)
      = foldl Qplus (account_balance RiskManager_init) pnls /\
    daily_pnl (risk_manager s) = py_sum pnls.


(** The small robot after its trade was closed by hand at 1.1100. *)
Definition small_robot_closed : Robot :=
  snd (close_trade 9%Z 0%nat 1.1100 MANUAL_CLOSE (small_robot_open BUY PNone)).


(** ** The trading cycle
    ([analyze_market] and [run_trading_cycle], the same in both engines up
    to the strategies, the currency pairs and the kind of market data) *)

Section Cycle.
(** The market data of the engine: a frame of bars for [ForexTradingRobot],
    a list of prices for [SimpleForexTradingRobot]. *)
Variable Data : Type.
Variable e : engine.
(** [self.strategies]: the name of each strategy and its
    [generate_signal]. *)
Variable strategies : list (string * (Data -> result dict)).
(** [data.empty], resp. [not prices] *)
Variable is_empty : Data -> bool.
(** What the data provider returns for a symbol during the cycle. *)
Variable get_data : string -> Data.
(** The clock readings: when the [j]-th signal of a symbol is stamped and
    when it is executed. *)
Variable stamped_at : string -> nat -> datetime.
Variable executed_at : string -> nat -> datetime.

(** The three keys that [analyze_market] adds to a signal; the datetime
    object is represented by the number of its instant (no code reads that
    key). *)
Definition stamp (name symbol : string) (now : datetime) (signal : dict)
  : dict :=
  <["timestamp" := PNum (inject_Z now)]>
    (<["symbol" := PStr symbol]> (<["strategy" := PStr name]> signal)).

(** The loop of [analyze_market] over the strategies. *)
Fixpoint analyze_loop (symbol : string) (data : Data) (j : nat)
    (rest : list (string * (Data -> result dict))) : result (list dict) :=
  match rest with
  | [] => Ok []
  | (name, generate_signal) :: rest' =>
      signal ← generate_signal data;
      signals ← analyze_loop symbol data (S j) rest';
      Ok (stamp name symbol (stamped_at symbol j) signal :: signals)
  end.

Definition analyze_market (symbol : string) : result (list dict) :=
  let data := get_data symbol in
  if is_empty data then Ok [] else analyze_loop symbol data 0 strategies.

(** The inner loop of [run_trading_cycle]: the signals of one symbol. *)
Fixpoint execute_signals (symbol : string) (j : nat) (signals : list dict)
    (s : Robot) : result unit * Robot :=
  match signals with
  | [] => (Ok tt, s)
  | signal :: rest =>
      match getitem signal "signal" with
      | Raise x => (Raise x, s)
      | Ok v =>
          if py_eqb v BUY || py_eqb v SELL then
            match execute_trade e (executed_at symbol j) signal s with
            | (Raise x, s') => (Raise x, s')
            | (Ok _, s') => execute_signals symbol (S j) rest s'
            end
          else execute_signals symbol (S j) rest s
      end
  end.

(** The outer loop, over the currency pairs. *)
Fixpoint cycle_loop (symbols : list string) (s : Robot)
  : result unit * Robot :=
  match symbols with
  | [] => (Ok tt, s)
  | symbol :: rest =>
      match analyze_market symbol with
      | Raise x => (Raise x, s)
      | Ok signals =>
          match execute_signals symbol 0 signals s with
          | (Raise x, s') => (Raise x, s')
          | (Ok _, s') => cycle_loop rest s'
          end
      end
  end.

Definition run_trading_cycle (currency_pairs : list string)
    (clock : nat -> datetime) (feed : nat -> Q) (s : Robot)
  : result unit * Robot :=
  match monitor_trades clock feed s with
  | (Raise x, s') => (Raise x, s')
  | (Ok _, s') => cycle_loop currency_pairs s'
  end.
End Cycle.

(** [data_provider.currency_pairs] *)
Definition currency_pairs (e : engine) : list string :=
  match e with
  | ForexTradingRobot =>
      ["EURUSD=X"; "GBPUSD=X"; "USDJPY=X"; "USDCHF=X";
       "AUDUSD=X"; "USDCAD=X"; "NZDUSD=X"]%string
  | SimpleForexTradingRobot =>
      ["EURUSD"; "GBPUSD"; "USDJPY"; "USDCHF";
       "AUDUSD"; "USDCAD"; "NZDUSD"]%string
  end.

(** [self.strategies] of the two robots. *)
Definition ForexTradingRobot_strategies (fmt : nat -> fnum -> string)
    (sqrt : Q -> Q) : list (string * (list Bar -> result dict)) :=
  [("Trend Following"%string, TrendFollowingStrategy.generate_signal);
   ("Mean Reversion"%string, MeanReversionStrategy.generate_signal fmt sqrt);
   ("Breakout"%string, BreakoutStrategy.generate_signal fmt)].

Definition SimpleForexTradingRobot_strategies (fmt : nat -> fnum -> string)
  : list (string * (list Q -> result dict)) :=
  [("Simple Trend Following"%string,
    SimpleTrendFollowingStrategy.generate_signal);
   ("Simple Mean Reversion"%string,
    SimpleMeanReversionStrategy.generate_signal fmt)].

(** [data.empty] on a frame and [not prices] on a list. *)
Definition no_rows {A : Type} (data : list A) : bool :=
  match data with
  | [] => true
  | _ :: _ => false
  end.

(** The two shapes of the signals that the strategies build. *)
Definition strategy_signal (sig : dict) : Prop :=
  (exists reason, sig = hold_signal reason) \/
  (exists dir c reason e sl take,
     sig = trade_signal dir c reason (PNum e) (PNum sl) take /\
     (dir = BUY \/ dir = SELL) /\ forall x, take <> PStr x).

(** [s'] is [s] with the open trades [news] added, and nothing else
    changed. *)
Definition opens (s s' : Robot) (news : list Trade) : Prop :=
  heap s' = heap s ++ news /\
  active_trades s' = active_trades s ++ seq (length (heap s)) (length news) /\
  trade_history s' = trade_history s /\
  risk_manager s' = risk_manager s /\
  is_running s' = is_running s.

(** The trade [t] is the execution of a BUY or SELL signal that one of the
    strategies gave on the data of one of the symbols, sized by the risk
    manager [rm]. *)
Definition cycle_trade {Data : Type}
    (strategies : list (string * (Data -> result dict)))
    (get_data : string -> Data) (symbols : list string) (rm : RiskManager)
    (t : Trade) : Prop :=
  exists sym name generate_signal sig,
    sym ∈ symbols /\ (name, generate_signal) ∈ strategies /\
    generate_signal (get_data sym) = Ok sig /\
    symbol t = PStr sym /\ strategy t = PStr name /\
    sig !! "signal"%string = Some (signal_type t) /\
    (signal_type t = BUY \/ signal_type t = SELL) /\
    sig !! "entry_price"%string = Some (PNum (entry_price t)) /\
    sig !! "stop_loss"%string = Some (PNum (stop_loss t)) /\
    take_profit t = dict_get sig "take_profit" PNone /\
    take_profit_typed t /\
    is_open t /\ ~ entry_price t == stop_loss t /\
    0 < position_size t /\ position_size t <= account_balance rm * 0.1.

(** No trade of the robot, open or closed, holds a string as take-profit. *)
Definition typed_heap (s : Robot) : Prop :=
  forall r t, heap s !! r = Some t -> take_profit_typed t.

(** What the outside world gives to one cycle: the market data of each
    symbol, the clock readings, and the real-time price of each iteration
    of [monitor_trades]. *)
Record market (Data : Type) : Type := mkMarket {
  market_data : string -> Data;
  market_stamped_at : string -> nat -> datetime;
  market_executed_at : string -> nat -> datetime;
  market_clock : nat -> datetime;
  market_feed : nat -> Q
}.
Arguments market_data {Data} m.
Arguments market_stamped_at {Data} m.
Arguments market_executed_at {Data} m.
Arguments market_clock {Data} m.
Arguments market_feed {Data} m.

(** [run_trading_cycle] of each robot. *)
Definition ForexTradingRobot_cycle (fmt : nat -> fnum -> string)
    (sqrt : Q -> Q) (m : market (list Bar)) (s : Robot)
  : result unit * Robot :=
  run_trading_cycle (list Bar) ForexTradingRobot
    (ForexTradingRobot_strategies fmt sqrt) no_rows
    (market_data m) (market_stamped_at m) (market_executed_at m)
    (currency_pairs ForexTradingRobot) (market_clock m) (market_feed m) s.

Definition SimpleForexTradingRobot_cycle (fmt : nat -> fnum -> string)
    (m : market (list Q)) (s : Robot) : result unit * Robot :=
  run_trading_cycle (list Q) SimpleForexTradingRobot
    (SimpleForexTradingRobot_strategies fmt) no_rows
    (market_data m) (market_stamped_at m) (market_executed_at m)
    (currency_pairs SimpleForexTradingRobot) (market_clock m) (market_feed m) s.

(** A market whose prices stand still at 1. *)
Definition flat_market : market (list Q) :=
  {| market_data := fun _ => repeat 1 50;
     market_stamped_at := fun _ _ => 0%Z;
     market_executed_at := fun _ _ => 0%Z;
     market_clock := fun _ => 0%Z;
     market_feed := fun _ => 1 |}.


(** What happens to the robot of the web application: a cycle of the
    trading loop, or one of the two requests that change the ledger. *)
Inductive event : Type :=
| EvCycle (m : market (list Q))
| EvManualTrade (now : datetime) (data : dict)
| EvCloseManual (now : datetime) (current_price : Q) (trade_id : nat).

Definition handle (fmt : nat -> fnum -> string)
    (float_of_string : string -> option Q) (s : Robot) (ev : event) : Robot :=
  match ev with
  | EvCycle m => snd (SimpleForexTradingRobot_cycle fmt m s)
  | EvManualTrade now data => snd (manual_trade float_of_string now data s)
  | EvCloseManual now current_price trade_id =>
      snd (close_trade_manual now current_price trade_id s)
  end.


(** The take-profit of a BUY is above its entry, that of a SELL below. *)
Definition take_on_winning_side (sig : dict) : Prop :=
  (sig !! "signal"%string = Some BUY ->
     exists e tp, sig !! "entry_price"%string = Some (PNum e) /\
                  sig !! "take_profit"%string = Some (PNum tp) /\ e < tp) /\
  (sig !! "signal"%string = Some SELL ->
     exists e tp, sig !! "entry_price"%string = Some (PNum e) /\
                  sig !! "take_profit"%string = Some (PNum tp) /\ tp < e).

(** ** The trade list of the web application
    ([get_trades], [src/trading_simple.py]) *)

Section Trades.
(** [str.lower] *)
Variable lower : string -> string.

(** [t.get('status', '')] on the trade object at [r]. *)
Definition status_of (h : list Trade) (r : ref) : string :=
  match h !! r with
  | Some t => status t
  | None => EmptyString
  end.

(** [get_trades], for the query parameters [limit] (an int after parsing)
    and [status]: the trades of the response and its [total_count]. *)
Definition get_trades (limit : Z) (status_arg : string) (s : Robot)
  : list ref * nat :=
  let trades := trade_history s in
  let trades :=
    if negb (String.eqb status_arg "all") then
      List.filter (fun r => String.eqb (lower (status_of (heap s) r))
                                       (lower status_arg)) trades
    else trades in
  let trades :=
    if (0 <? limit)%Z then last_n (Z.to_nat limit) trades else trades in
  (trades, length (trade_history s)).
End Trades.

(** What [request.get_json()] does with the body of a request: it raises
    when the body is not JSON (an empty body is not), returns [None] for the
    JSON value [null], and returns the dict for a JSON object.  (Bodies that
    are a JSON array, string, number or boolean are not followed.) *)
Inductive body : Type :=
| NotJson
| JsonNull
| JsonObject (data : dict).

(** The whole route [manual_trade]: [get_json] is inside the [try], so its
    exception is answered 500 like any other. *)
Definition manual_trade_route (float_of_string : string -> option Q)
    (now : datetime) (b : body) (s : Robot) : nat * Robot :=
  match b with
  | NotJson => (500%nat, s)
  | JsonNull => (400%nat, s)
  | JsonObject data => manual_trade float_of_string now data s
  end.

(** The trade [t] with another direction. *)
Definition with_direction (d : pyval) (t : Trade) : Trade :=
  {| id := id t;
     symbol := symbol t;
     strategy := strategy t;
     signal_type := d;
     entry_price := entry_price t;
     stop_loss := stop_loss t;
     take_profit := take_profit t;
     position_size := position_size t;
     entry_time := entry_time t;
     status := status t;
     exit_price := exit_price t;
     exit_time := exit_time t;
     pnl := pnl t;
     close_reason := close_reason t |}.

(** * Properties *)

(** ** Numbers *)

Lemma Qltb_lt (a b : Q) : Qltb a b = true <-> a < b.
Proof.
  unfold Qltb. rewrite negb_true_iff. split; intros H.
  - apply Qnot_le_lt. intros Hle. apply Qle_bool_iff in Hle. congruence.
  - destruct (Qle_bool b a) eqn:E; [|reflexivity].
    apply Qle_bool_iff in E. lra.
Qed.

Lemma Qltb_ge (a b : Q) : Qltb a b = false <-> b <= a.
Proof.
  unfold Qltb. rewrite negb_false_iff. apply Qle_bool_iff.
Qed.

Lemma Qle_bool_false (a b : Q) : Qle_bool a b = false <-> b < a.
Proof.
  rewrite <- Qltb_lt. unfold Qltb. now rewrite negb_true_iff.
Qed.

Lemma Qeq_bool_false (a b : Q) : Qeq_bool a b = false <-> ~ a == b.
Proof.
  split; intros H.
  - intros E. apply Qeq_bool_iff in E. congruence.
  - destruct (Qeq_bool a b) eqn:E; [|reflexivity].
    apply Qeq_bool_iff in E. contradiction.
Qed.

Lemma py_min_Qmin (a b : Q) : py_min a b == Qmin a b.
Proof.
  unfold py_min. destruct (Qltb b a) eqn:E.
  - apply Qltb_lt in E. rewrite Q.min_r; lra.
  - apply Qltb_ge in E. rewrite Q.min_l; lra.
Qed.

Lemma Qgeb_ge (a b : Q) : Qgeb a b = true <-> b <= a.
Proof. unfold Qgeb. apply Qle_bool_iff. Qed.

Lemma Qabs_zero_iff (a b : Q) : Qabs (a - b) == 0 <-> a == b.
Proof.
  split; intros H.
  - revert H. apply Qabs_case; intros; lra.
  - assert (E : a - b == 0) by lra. rewrite E. reflexivity.
Qed.

(** ** Risk manager *)

Section RiskManagerFacts.
Variable rm : RiskManager.

Lemma calculate_position_size_equal (entry stop : Q) :
  entry == stop -> calculate_position_size rm entry stop = Ok 0.
Proof.
  intros H. unfold calculate_position_size.
  apply Qabs_zero_iff in H. apply Qeq_bool_iff in H. now rewrite H.
Qed.

Lemma calculate_position_size_differ (entry stop : Q) :
  ~ entry == stop ->
  calculate_position_size rm entry stop =
    Ok (py_min (account_balance rm * max_risk_per_trade rm / Qabs (entry - stop))
               (account_balance rm * 0.1)).
Proof.
  intros H. unfold calculate_position_size, py_div.
  assert (E : Qeq_bool (Qabs (entry - stop)) 0 = false).
  { apply Qeq_bool_false. now rewrite Qabs_zero_iff. }
  now rewrite E.
Qed.

Lemma py_min_le_r (a b : Q) : py_min a b <= b.
Proof. rewrite py_min_Qmin. apply Q.le_min_r. Qed.
End RiskManagerFacts.

(** C3. [calculate_position_size] never raises; it returns 0 when the entry
    equals the stop, and otherwise the smaller of
    [account_balance * max_risk_per_trade / |entry - stop|] and
    [account_balance * 0.10], hence at most 10% of the balance (the 0 of the
    first case is within that bound too unless the balance is negative); with
    a balance of 10000, entry 1.2000 and stop 1.1900 it returns 1000. *)
Theorem calculate_position_size_spec (rm : RiskManager) (entry stop : Q) :
  (exists size, calculate_position_size rm entry stop = Ok size) /\
  (entry == stop -> calculate_position_size rm entry stop = Ok 0) /\
  (~ entry == stop ->
     exists size,
       calculate_position_size rm entry stop = Ok size /\
       size == Qmin (account_balance rm * max_risk_per_trade rm / Qabs (entry - stop))
                    (account_balance rm * 0.10) /\
       size <= account_balance rm * 0.10) /\
  (0 <= account_balance rm ->
     forall size, calculate_position_size rm entry stop = Ok size ->
     size <= account_balance rm * 0.10) /\
  (exists size,
     calculate_position_size RiskManager_init 1.2000 1.1900 = Ok size /\
     size == 1000).
Proof.
  assert (E10 : account_balance rm * 0.1 == account_balance rm * 0.10) by lra.
  split_and!.
  - destruct (Qeq_dec entry stop) as [E|E].
    + exists 0. now apply calculate_position_size_equal.
    + eexists. now apply calculate_position_size_differ.
  - apply calculate_position_size_equal.
  - intros E. eexists. split; [now apply calculate_position_size_differ|].
    split.
    + rewrite py_min_Qmin. now rewrite E10.
    + rewrite <- E10. apply py_min_le_r.
  - intros Hb size Hs. destruct (Qeq_dec entry stop) as [E|E].
    + rewrite (calculate_position_size_equal rm entry stop E) in Hs.
      injection Hs as <-. lra.
    + rewrite (calculate_position_size_differ rm entry stop E) in Hs.
      injection Hs as <-. rewrite <- E10. apply py_min_le_r.
  - eexists. split; [reflexivity|]. reflexivity.
Qed.

Lemma calculate_position_size_spec_witness :
  calculate_position_size RiskManager_init 1.1000 1.1000 = Ok 0 /\
  (exists size,
     calculate_position_size RiskManager_init 1.2000 1.1900 = Ok size /\
     size == Qmin (10000 * 0.02 / Qabs (1.2000 - 1.1900)) (10000 * 0.10) /\
     size <= 10000 * 0.10) /\
  (forall size,
     calculate_position_size RiskManager_init 1.1000 1.0950 = Ok size ->
     size <= 10000 * 0.10).
Proof.
  assert (H : ~ 1.2000 == 1.1900) by (intros E; discriminate E).
  split_and!.
  - apply (calculate_position_size_spec RiskManager_init 1.1000 1.1000).
    reflexivity.
  - exact (proj1 (proj2 (proj2
             (calculate_position_size_spec RiskManager_init 1.2000 1.1900))) H).
  - apply (calculate_position_size_spec RiskManager_init 1.1000 1.0950).
    intros E; discriminate E.
Defined.

Section ValidateFacts.
Variable rm : RiskManager.
Variable signal : dict.

Lemma has_all_required_iff :
  forallb (has_key signal) required_fields = true <->
  ~ lacks_required_field signal.
Proof.
  rewrite forallb_forall. unfold lacks_required_field, has_key. split.
  - intros H (k & Hin & Hk). apply list_elem_of_In in Hin.
    specialize (H k Hin). now rewrite Hk in H.
  - intros H k Hin. destruct (signal !! k) eqn:E; [reflexivity|].
    exfalso. apply H. exists k. split; [now apply list_elem_of_In | exact E].
Qed.

Lemma validate_tripped :
  daily_loss_tripped rm ->
  validate_trade_trace rm signal = (Some msg_daily_loss, Ok false).
Proof.
  unfold daily_loss_tripped, validate_trade_trace. intros H.
  apply Qle_bool_iff in H. now rewrite H.
Qed.

Lemma validate_missing :
  ~ daily_loss_tripped rm -> lacks_required_field signal ->
  validate_trade_trace rm signal = (Some msg_missing, Ok false).
Proof.
  unfold daily_loss_tripped, validate_trade_trace. intros Ha Hb.
  destruct (Qle_bool _ _) eqn:E; [apply Qle_bool_iff in E; contradiction|].
  destruct (forallb _ _) eqn:F; [|reflexivity].
  apply has_all_required_iff in F. contradiction.
Qed.

Lemma validate_complete (c : Q) :
  ~ daily_loss_tripped rm -> ~ lacks_required_field signal ->
  confidence_of signal = PNum c ->
  validate_trade_trace rm signal =
    if Qltb c 0.6 then (Some msg_confidence, Ok false) else (None, Ok true).
Proof.
  unfold daily_loss_tripped, validate_trade_trace, confidence_of.
  intros Ha Hb Hc.
  destruct (Qle_bool _ _) eqn:E; [apply Qle_bool_iff in E; contradiction|].
  apply has_all_required_iff in Hb. rewrite Hb, Hc. reflexivity.
Qed.
End ValidateFacts.

Lemma daily_loss_tripped_dec (rm : RiskManager) :
  daily_loss_tripped rm \/ ~ daily_loss_tripped rm.
Proof.
  unfold daily_loss_tripped.
  destruct (Qlt_le_dec (- account_balance rm * max_daily_loss rm) (daily_pnl rm));
    [right; lra | now left].
Qed.

Lemma lacks_required_field_dec (signal : dict) :
  lacks_required_field signal \/ ~ lacks_required_field signal.
Proof.
  destruct (forallb (has_key signal) required_fields) eqn:F.
  - right. now apply has_all_required_iff.
  - left. apply not_true_iff_false in F.
    rewrite has_all_required_iff in F.
    unfold lacks_required_field, required_fields in *.
    destruct (signal !! "signal"%string) eqn:E1;
      [|exists "signal"%string; split; [set_solver|exact E1]].
    destruct (signal !! "entry_price"%string) eqn:E2;
      [|exists "entry_price"%string; split; [set_solver|exact E2]].
    destruct (signal !! "stop_loss"%string) eqn:E3;
      [|exists "stop_loss"%string; split; [set_solver|exact E3]].
    exfalso. apply F. intros (k & Hin & Hk).
    repeat (apply elem_of_cons in Hin; destruct Hin as [->|Hin]; [congruence|]).
    now apply elem_of_nil in Hin.
Qed.

(** C4. [validate_trade] checks, in this order, (a) the daily loss limit,
    (b) the presence of 'signal', 'entry_price' and 'stop_loss', (c) a
    confidence of at least 0.6; the first check that fails returns False (and
    logs its own message) without raising; on a signal whose confidence is a
    number or absent it returns True exactly when none of (a)-(c) holds.  A
    confidence below 0.6 is always rejected, and so is every signal once
    [daily_pnl <= -account_balance * 0.05]. *)
Theorem validate_trade_spec (rm : RiskManager) (signal : dict) :
  (daily_loss_tripped rm ->
     validate_trade_trace rm signal = (Some msg_daily_loss, Ok false)) /\
  (~ daily_loss_tripped rm -> lacks_required_field signal ->
     validate_trade_trace rm signal = (Some msg_missing, Ok false)) /\
  (~ daily_loss_tripped rm -> ~ lacks_required_field signal ->
   low_confidence signal ->
     validate_trade_trace rm signal = (Some msg_confidence, Ok false)) /\
  (numeric_confidence signal ->
     (validate_trade rm signal = Ok true <->
      ~ daily_loss_tripped rm /\ ~ lacks_required_field signal /\
      ~ low_confidence signal)) /\
  (low_confidence signal -> validate_trade rm signal = Ok false) /\
  (max_daily_loss rm == 0.05 ->
   daily_pnl rm <= - account_balance rm * 0.05 ->
     validate_trade rm signal = Ok false).
Proof.
  assert (Hlow : forall c, confidence_of signal = PNum c -> c < 0.6 ->
                 ~ daily_loss_tripped rm -> ~ lacks_required_field signal ->
                 validate_trade_trace rm signal = (Some msg_confidence, Ok false)).
  { intros c Hc Hlt Ha Hb. rewrite (validate_complete rm signal c Ha Hb Hc).
    apply Qltb_lt in Hlt. now rewrite Hlt. }
  pose proof (daily_loss_tripped_dec rm) as Da.
  pose proof (lacks_required_field_dec signal) as Db.
  repeat apply conj.
  - apply validate_tripped.
  - apply validate_missing.
  - intros Ha Hb (c & Hc & Hlt). eauto.
  - intros (c & Hc). unfold validate_trade. split.
    + intros H. destruct Da as [Ha|Ha].
      { rewrite (validate_tripped rm signal Ha) in H. discriminate. }
      destruct Db as [Hb|Hb].
      { rewrite (validate_missing rm signal Ha Hb) in H. discriminate. }
      repeat split; try assumption.
      intros (c' & Hc' & Hlt). rewrite (Hlow c' Hc' Hlt Ha Hb) in H. discriminate.
    + intros (Ha & Hb & Hn). rewrite (validate_complete rm signal c Ha Hb Hc).
      destruct (Qltb c 0.6) eqn:E; [|reflexivity].
      exfalso. apply Hn. exists c. split; [exact Hc|now apply Qltb_lt].
  - intros (c & Hc & Hlt). unfold validate_trade.
    destruct Da as [Ha|Ha]; [now rewrite (validate_tripped rm signal Ha)|].
    destruct Db as [Hb|Hb]; [now rewrite (validate_missing rm signal Ha Hb)|].
    now rewrite (Hlow c Hc Hlt Ha Hb).
  - intros Hm Hle. unfold validate_trade. rewrite validate_tripped; [reflexivity|].
    unfold daily_loss_tripped. rewrite Hm. exact Hle.
Qed.

Lemma sample_signal_complete (direction : pyval) (c : Q) (take : pyval) :
  ~ lacks_required_field (sample_signal direction c take).
Proof.
  intros (k & Hin & Hk). unfold required_fields in Hin.
  repeat (apply elem_of_cons in Hin; destruct Hin as [->|Hin];
          [vm_compute in Hk; discriminate|]).
  now apply elem_of_nil in Hin.
Qed.

Lemma manager_init_not_tripped : ~ daily_loss_tripped RiskManager_init.
Proof. intros H. vm_compute in H. now apply H. Qed.

Lemma validate_trade_spec_witness :
  validate_trade_trace tripped_manager (sample_signal BUY 0.9 PNone)
    = (Some msg_daily_loss, Ok false) /\
  validate_trade_trace RiskManager_init (hold_signal "Insufficient data")
    = (Some msg_missing, Ok false) /\
  validate_trade_trace RiskManager_init (sample_signal BUY 0.5 PNone)
    = (Some msg_confidence, Ok false) /\
  validate_trade RiskManager_init (sample_signal BUY 0.7 PNone) = Ok true /\
  validate_trade tripped_manager (sample_signal BUY 0.5 PNone) = Ok false /\
  validate_trade tripped_manager (sample_signal SELL 1 PNone) = Ok false.
Proof.
  assert (Ht : daily_loss_tripped tripped_manager) by (intros H; discriminate H).
  assert (Hm : lacks_required_field (hold_signal "Insufficient data")).
  { exists "entry_price"%string. split; [set_solver | reflexivity]. }
  assert (Hl : low_confidence (sample_signal BUY 0.5 PNone)).
  { exists 0.5. split; reflexivity. }
  assert (Hn : numeric_confidence (sample_signal BUY 0.7 PNone)).
  { exists 0.7. reflexivity. }
  assert (Hh : ~ low_confidence (sample_signal BUY 0.7 PNone)).
  { intros (c & Hc & Hlt). vm_compute in Hc. injection Hc as <-. discriminate Hlt. }
  repeat apply conj.
  - exact (proj1 (validate_trade_spec tripped_manager _) Ht).
  - exact (proj1 (proj2 (validate_trade_spec RiskManager_init _))
             manager_init_not_tripped Hm).
  - exact (proj1 (proj2 (proj2 (validate_trade_spec RiskManager_init _)))
             manager_init_not_tripped (sample_signal_complete _ _ _) Hl).
  - apply (proj1 (proj2 (proj2 (proj2 (validate_trade_spec RiskManager_init _)))) Hn).
    repeat split; [exact manager_init_not_tripped
                  | apply sample_signal_complete | exact Hh].
  - exact (proj1 (proj2 (proj2 (proj2 (proj2 (validate_trade_spec tripped_manager _)))))
             Hl).
  - apply (proj2 (proj2 (proj2 (proj2 (proj2 (validate_trade_spec tripped_manager _)))))).
    + reflexivity.
    + intros H; discriminate H.
Defined.

(** ** The ledger *)

Lemma trade_eqb_status (a b : Trade) :
  trade_eqb a b = true -> status a = status b.
Proof.
  unfold trade_eqb. rewrite !andb_true_iff.
  intros H. decompose [and] H. now apply String.eqb_eq.
Qed.

Lemma list_remove_none (same : ref -> bool) (l : list ref) :
  (forall y, y ∈ l -> same y = false) -> list_remove same l = None.
Proof.
  induction l as [|y l IH]; intros H; [reflexivity|]. simpl.
  rewrite (H y) by set_solver. rewrite IH; [reflexivity|].
  intros z Hz. apply H. set_solver.
Qed.

Lemma list_remove_first (same : ref -> bool) (l1 l2 : list ref) (r : ref) :
  (forall y, y ∈ l1 -> same y = false) -> same r = true ->
  list_remove same (l1 ++ r :: l2) = Some (l1 ++ l2).
Proof.
  induction l1 as [|y l1 IH]; intros H Hr; simpl.
  - now rewrite Hr.
  - rewrite (H y) by set_solver. rewrite IH; [reflexivity| |exact Hr].
    intros z Hz. apply H. set_solver.
Qed.

Lemma list_remove_some (same : ref -> bool) (l l' : list ref) :
  list_remove same l = Some l' ->
  exists l1 r l2, l = l1 ++ r :: l2 /\ l' = l1 ++ l2 /\ same r = true /\
                  forall y, y ∈ l1 -> same y = false.
Proof.
  revert l'. induction l as [|y l IH]; intros l' H; simpl in H; [discriminate|].
  destruct (same y) eqn:E.
  - injection H as <-. exists [], y, l. repeat split; [exact E|]. set_solver.
  - destruct (list_remove same l) as [l0|] eqn:F; [|discriminate].
    injection H as <-. destruct (IH l0 eq_refl) as (l1 & r & l2 & -> & -> & Hr & Hn).
    exists (y :: l1), r, l2. repeat split; [exact Hr|].
    intros z Hz. apply elem_of_cons in Hz as [->|Hz]; [exact E | now apply Hn].
Qed.

Section CloseFacts.
Variables (s : Robot) (now : datetime) (trade : ref) (exit : Q)
          (reason : string) (t : Trade).
Hypothesis Hwf : wf s.
Hypothesis Ht : heap s !! trade = Some t.

Let h' := <[trade := closed t exit now reason]> (heap s).

Lemma closed_lookup : h' !! trade = Some (closed t exit now reason).
Proof.
  unfold h'. apply list_lookup_insert_eq. now apply lookup_lt_Some in Ht.
Qed.

Lemma same_object_other (y : ref) :
  y ∈ active_trades s -> y <> trade -> same_object h' y trade = false.
Proof.
  intros Hy Hne. unfold same_object.
  destruct (Nat.eqb_spec y trade) as [|_]; [contradiction|]. simpl.
  destruct (wf_active s Hwf y Hy) as (ty & Hty & Hopen & _).
  rewrite closed_lookup. unfold h'.
  rewrite list_lookup_insert_ne by congruence. rewrite Hty.
  destruct (trade_eqb ty _) eqn:E; [|reflexivity].
  apply trade_eqb_status in E. simpl in E. congruence.
Qed.

Lemma same_object_self : same_object h' trade trade = true.
Proof. unfold same_object. now rewrite Nat.eqb_refl. Qed.

(** Closing an open trade: [remove] finds the trade itself. *)
Lemma close_trade_active (l1 l2 : list ref) :
  active_trades s = l1 ++ trade :: l2 ->
  close_trade now trade exit reason s =
    (Ok tt,
     {| risk_manager := apply_pnl (risk_manager s) (trade_pnl t exit);
        heap := h';
        active_trades := l1 ++ l2;
        trade_history := trade_history s ++ [trade];
        is_running := is_running s |}).
Proof.
  intros Hact. unfold close_trade. rewrite Ht. fold h'.
  rewrite Hact, list_remove_first; [reflexivity| |apply same_object_self].
  intros y Hy. apply same_object_other.
  - rewrite Hact. set_solver.
  - intros ->. pose proof (wf_nodup s Hwf) as Hnd. rewrite Hact in Hnd.
    apply NoDup_app in Hnd as (Hnd & _ & _).
    apply NoDup_app in Hnd as (_ & Hnd & _).
    apply (Hnd trade Hy). set_solver.
Qed.

(** Closing a trade that is not open: the writes happen, [remove] raises. *)
Lemma close_trade_inactive :
  trade ∉ active_trades s ->
  close_trade now trade exit reason s =
    (Raise ValueError,
     {| risk_manager := apply_pnl (risk_manager s) (trade_pnl t exit);
        heap := h';
        active_trades := active_trades s;
        trade_history := trade_history s;
        is_running := is_running s |}).
Proof.
  intros Hni. unfold close_trade. rewrite Ht. fold h'.
  rewrite list_remove_none; [reflexivity|].
  intros y Hy. apply same_object_other; [exact Hy|]. intros ->. contradiction.
Qed.
End CloseFacts.

Lemma make_trade_inv (e : engine) (now : datetime) (signal : dict) (size : Q)
    (s : Robot) (t : Trade) :
  make_trade e now signal size s = Ok t ->
  is_open t /\ id t = next_id e s /\ position_size t = size /\
  entry_time t = now /\
  take_profit t = dict_get signal "take_profit" PNone /\
  signal !! "signal"%string = Some (signal_type t) /\
  signal !! "entry_price"%string = Some (PNum (entry_price t)) /\
  signal !! "stop_loss"%string = Some (PNum (stop_loss t)).
Proof.
  unfold make_trade, getitem, mbind, result_bind, as_num.
  destruct (signal !! "symbol"%string); [|discriminate].
  destruct (signal !! "strategy"%string); [|discriminate].
  destruct (signal !! "signal"%string); [|discriminate].
  destruct (signal !! "entry_price"%string) as [[]|]; try discriminate.
  destruct (signal !! "stop_loss"%string) as [[]|]; try discriminate.
  intros [= <-]. unfold is_open. simpl. repeat split.
Qed.

(** The three ways [execute_trade] can end. *)
Lemma execute_trade_cases (e : engine) (now : datetime) (signal : dict)
    (s : Robot) :
  (exists x, execute_trade e now signal s = (Raise x, s)) \/
  execute_trade e now signal s = (Ok false, s) \/
  (exists size t,
     validate_trade (risk_manager s) signal = Ok true /\
     signal_position_size (risk_manager s) signal = Ok size /\
     0 < size /\
     make_trade e now signal size s = Ok t /\
     execute_trade e now signal s =
       (Ok true,
        {| risk_manager := risk_manager s;
           heap := heap s ++ [t];
           active_trades := active_trades s ++ [length (heap s)];
           trade_history := trade_history s;
           is_running := is_running s |})).
Proof.
  unfold execute_trade.
  destruct (validate_trade _ _) as [[]|x]; [|now right; left|left; eauto].
  destruct (signal_position_size _ _) as [size|x]; [|left; eauto].
  destruct (Qle_bool size 0) eqn:E; [now right; left|].
  destruct (make_trade _ _ _ _ _) as [t|x] eqn:M; [|left; eauto].
  right; right. exists size, t. apply Qle_bool_false in E. auto.
Qed.

Lemma wf_init : wf Robot_init.
Proof.
  split; simpl.
  - constructor.
  - intros r Hr. now apply elem_of_nil in Hr.
  - intros r Hr. now apply elem_of_nil in Hr.
  - intros r Hr. lia.
Qed.

Lemma wf_ref_lt (s : Robot) (r : ref) :
  wf s -> r ∈ active_trades s ++ trade_history s -> (r < length (heap s))%nat.
Proof.
  intros Hwf Hr. apply elem_of_app in Hr as [Hr|Hr].
  - destruct (wf_active s Hwf r Hr) as (t & Ht & _). now apply lookup_lt_Some in Ht.
  - destruct (wf_history s Hwf r Hr) as (t & Ht & _). now apply lookup_lt_Some in Ht.
Qed.

Lemma wf_execute (e : engine) (now : datetime) (signal : dict) (s : Robot) :
  wf s -> wf (snd (execute_trade e now signal s)).
Proof.
  intros Hwf.
  destruct (execute_trade_cases e now signal s)
    as [(x & ->)|[->|(size & t & _ & _ & _ & Hm & ->)]]; try exact Hwf.
  apply make_trade_inv in Hm as (Hopen & _).
  assert (Hfresh : length (heap s) ∉ active_trades s ++ trade_history s).
  { intros Hin. apply (wf_ref_lt s _ Hwf) in Hin. lia. }
  split; simpl.
  - rewrite <- app_assoc. apply NoDup_app. pose proof (wf_nodup s Hwf) as Hnd.
    apply NoDup_app in Hnd as (Ha & Hd & Hh). repeat split.
    + exact Ha.
    + intros x Hx Hx'. apply elem_of_app in Hx' as [Hx'|Hx'].
      * apply list_elem_of_singleton in Hx' as ->. apply Hfresh. set_solver.
      * now apply (Hd x).
    + apply NoDup_app. repeat split; [apply NoDup_singleton| |exact Hh].
      intros x Hx Hx'. apply list_elem_of_singleton in Hx as ->.
      apply Hfresh. set_solver.
  - intros r Hr. apply elem_of_app in Hr as [Hr|Hr].
    + destruct (wf_active s Hwf r Hr) as (t' & Ht' & Ho). exists t'.
      split; [|exact Ho]. rewrite lookup_app_l; [exact Ht'|].
      now apply lookup_lt_Some in Ht'.
    + apply list_elem_of_singleton in Hr as ->. exists t. split; [|exact Hopen].
      rewrite lookup_app_r by lia. now rewrite Nat.sub_diag.
  - intros r Hr. destruct (wf_history s Hwf r Hr) as (t' & Ht' & Hc). exists t'.
    split; [|exact Hc]. rewrite lookup_app_l; [exact Ht'|].
    now apply lookup_lt_Some in Ht'.
  - intros r Hr. rewrite length_app in Hr. simpl in Hr.
    destruct (decide (r = length (heap s))) as [->|Hne]; [set_solver|].
    assert (Hlt : (r < length (heap s))%nat) by lia.
    pose proof (wf_all s Hwf r Hlt). set_solver.
Qed.

Lemma wf_close (now : datetime) (trade : ref) (exit : Q) (reason : string)
    (s : Robot) :
  wf s -> wf (snd (close_trade now trade exit reason s)).
Proof.
  intros Hwf. destruct (heap s !! trade) as [t|] eqn:Ht.
  2:{ unfold close_trade. now rewrite Ht. }
  pose proof (wf_nodup s Hwf) as Hnd.
  assert (Hlen : (trade < length (heap s))%nat) by now apply lookup_lt_Some in Ht.
  destruct (decide (trade ∈ active_trades s)) as [Hin|Hni].
  - apply list_elem_of_split in Hin as (l1 & l2 & Hact).
    rewrite (close_trade_active s now trade exit reason t Hwf Ht l1 l2 Hact).
    rewrite Hact in Hnd.
    assert (Hperm : (l1 ++ l2) ++ trade_history s ++ [trade]
                    ≡ₚ (l1 ++ trade :: l2) ++ trade_history s).
    { rewrite <- !app_assoc. simpl. apply Permutation_app_head.
      symmetry. rewrite app_assoc. apply Permutation_cons_append. }
    assert (Hne : forall y, y ∈ (l1 ++ l2) ++ trade_history s -> y <> trade).
    { intros y Hy ->. rewrite <- Hperm in Hnd. rewrite app_assoc in Hnd.
      apply NoDup_app in Hnd as (_ & Hd & _). apply (Hd trade Hy). set_solver. }
    split; simpl.
    + now rewrite Hperm.
    + intros r Hr. destruct (wf_active s Hwf r) as (t' & Ht' & Ho).
      { rewrite Hact. set_solver. }
      exists t'. split; [|exact Ho].
      rewrite list_lookup_insert_ne; [exact Ht'|].
      intros ->. apply (Hne r); [set_solver|reflexivity].
    + intros r Hr. apply elem_of_app in Hr as [Hr|Hr].
      * destruct (wf_history s Hwf r Hr) as (t' & Ht' & Hc).
        exists t'. split; [|exact Hc].
        rewrite list_lookup_insert_ne; [exact Ht'|].
        intros ->. apply (Hne r); [set_solver|reflexivity].
      * apply list_elem_of_singleton in Hr as ->. eexists.
        split; [now apply list_lookup_insert_eq|reflexivity].
    + intros r Hr. rewrite length_insert in Hr. apply (wf_all s Hwf) in Hr.
      rewrite Hperm. rewrite Hact in Hr. exact Hr.
  - rewrite (close_trade_inactive s now trade exit reason t Hwf Ht Hni).
    split; simpl.
    + exact Hnd.
    + intros r Hr. destruct (wf_active s Hwf r Hr) as (t' & Ht' & Ho).
      exists t'. split; [|exact Ho].
      rewrite list_lookup_insert_ne; [exact Ht'|]. intros ->. contradiction.
    + intros r Hr. destruct (decide (r = trade)) as [->|Hne].
      * eexists. split; [now apply list_lookup_insert_eq|reflexivity].
      * destruct (wf_history s Hwf r Hr) as (t' & Ht' & Hc).
        exists t'. split; [|exact Hc].
        rewrite list_lookup_insert_ne; [exact Ht'|]. congruence.
    + intros r Hr. rewrite length_insert in Hr. now apply (wf_all s Hwf).
Qed.

Lemma wf_step (e : engine) (s : Robot) (o : op) : wf s -> wf (step e s o).
Proof. destruct o; [apply wf_execute | apply wf_close]. Qed.

Lemma wf_run (e : engine) (ops : list op) : wf (run e ops).
Proof.
  unfold run. generalize wf_init. generalize Robot_init.
  induction ops as [|o ops IH]; intros s Hs; simpl; [exact Hs|].
  apply IH. now apply wf_step.
Qed.

(** C9. A call of [execute_trade] that returns False, because
    [validate_trade] rejected the signal or because the position size is not
    positive, leaves the robot as it was: [active_trades], [trade_history],
    [account_balance] and [daily_pnl] are unchanged and no trade is
    inserted. *)
Theorem execute_trade_rejection_atomic (e : engine) (now : datetime)
    (signal : dict) (s : Robot) :
  (validate_trade (risk_manager s) signal = Ok false ->
     execute_trade e now signal s = (Ok false, s)) /\
  (forall size,
     validate_trade (risk_manager s) signal = Ok true ->
     signal_position_size (risk_manager s) signal = Ok size ->
     size <= 0 ->
     execute_trade e now signal s = (Ok false, s)) /\
  (forall s', execute_trade e now signal s = (Ok false, s') ->
     s' = s /\
     active_trades s' = active_trades s /\
     trade_history s' = trade_history s /\
     heap s' = heap s /\
     account_balance (risk_manager s') = account_balance (risk_manager s) /\
     daily_pnl (risk_manager s') = daily_pnl (risk_manager s)).
Proof.
  repeat apply conj.
  - intros H. unfold execute_trade. now rewrite H.
  - intros size Hv Hs Hle. unfold execute_trade. rewrite Hv, Hs.
    apply Qle_bool_iff in Hle. now rewrite Hle.
  - intros s' H.
    destruct (execute_trade_cases e now signal s)
      as [(x & E)|[E|(size & t & _ & _ & _ & _ & E)]];
      rewrite E in H; try discriminate.
    injection H as <-. repeat split.
Qed.

Lemma execute_trade_rejection_atomic_witness :
  execute_trade ForexTradingRobot 0%Z (sample_signal BUY 0.5 PNone) Robot_init
    = (Ok false, Robot_init) /\
  execute_trade SimpleForexTradingRobot 0%Z
    (<["stop_loss" := PNum 1.1000]> (sample_signal BUY 0.9 PNone)) Robot_init
    = (Ok false, Robot_init) /\
  snd (execute_trade ForexTradingRobot 0%Z (hold_signal "No breakout signal")
         Robot_init) = Robot_init.
Proof.
  repeat apply conj.
  - apply (proj1 (execute_trade_rejection_atomic _ _ _ _)). reflexivity.
  - apply (proj1 (proj2 (execute_trade_rejection_atomic _ _ _ _)) 0).
    + reflexivity.
    + reflexivity.
    + apply Qle_refl.
  - assert (H : execute_trade ForexTradingRobot 0%Z
                 (hold_signal "No breakout signal") Robot_init
               = (Ok false,
                  snd (execute_trade ForexTradingRobot 0%Z
                         (hold_signal "No breakout signal") Robot_init)))
      by reflexivity.
    exact (proj1 (proj2 (proj2 (execute_trade_rejection_atomic
                                  ForexTradingRobot 0%Z
                                  (hold_signal "No breakout signal")
                                  Robot_init)) _ H)).
Defined.

Lemma trade_pnl_buy (t : Trade) (exit : Q) :
  signal_type t = BUY ->
  trade_pnl t exit = (exit - entry_price t) * position_size t.
Proof. intros H. unfold trade_pnl. now rewrite H. Qed.

Lemma trade_pnl_sell (t : Trade) (exit : Q) :
  signal_type t = SELL ->
  trade_pnl t exit = (entry_price t - exit) * position_size t.
Proof. intros H. unfold trade_pnl. now rewrite H. Qed.

(** C2. Closing an open trade computes
    [pnl = (exit - entry_price) * position_size] for a BUY and
    [(entry_price - exit) * position_size] for a SELL, writes [exit_price],
    [exit_time], [pnl] and [close_reason] to the trade and sets its status to
    CLOSED, takes it out of [active_trades], appends it once to
    [trade_history] and adds the pnl once to [account_balance] and to
    [daily_pnl].  A BUY of 100 units entered at 1.1000 and closed at 1.0940
    realises -0.60 and lowers the balance by 0.60. *)
Theorem close_trade_spec (s : Robot) (now : datetime) (trade : ref) (exit : Q)
    (reason : string) (t : Trade) :
  wf s -> trade ∈ active_trades s -> heap s !! trade = Some t ->
  (signal_type t = BUY ->
     trade_pnl t exit = (exit - entry_price t) * position_size t) /\
  (signal_type t = SELL ->
     trade_pnl t exit = (entry_price t - exit) * position_size t) /\
  exists s' t',
    close_trade now trade exit reason s = (Ok tt, s') /\
    heap s' !! trade = Some t' /\
    t' = closed t exit now reason /\
    exit_price t' = Some exit /\ exit_time t' = Some now /\
    pnl t' = Some (trade_pnl t exit) /\ close_reason t' = Some reason /\
    status t' = "CLOSED"%string /\
    (forall r, r <> trade -> heap s' !! r = heap s !! r) /\
    (trade ∉ active_trades s') /\
    (forall r, r <> trade -> r ∈ active_trades s' <-> r ∈ active_trades s) /\
    trade_history s' = trade_history s ++ [trade] /\
    (trade ∉ trade_history s) /\
    account_balance (risk_manager s')
      = account_balance (risk_manager s) + trade_pnl t exit /\
    daily_pnl (risk_manager s')
      = daily_pnl (risk_manager s) + trade_pnl t exit /\
    wf s' /\
    (signal_type t = BUY -> entry_price t == 1.1000 ->
     position_size t == 100 -> exit == 1.0940 ->
       trade_pnl t exit == -0.60 /\
       account_balance (risk_manager s')
         == account_balance (risk_manager s) - 0.60).
Proof.
  intros Hwf Hin Ht. split; [apply trade_pnl_buy|]. split; [apply trade_pnl_sell|].
  pose proof (wf_close now trade exit reason s Hwf) as Hwf'.
  pose proof (wf_nodup s Hwf) as Hnd.
  destruct (list_elem_of_split _ _ Hin) as (l1 & l2 & Hact).
  rewrite (close_trade_active s now trade exit reason t Hwf Ht l1 l2 Hact) in *.
  simpl in Hwf'. rewrite Hact in Hnd.
  apply NoDup_app in Hnd as (Hna & Hd & _).
  apply NoDup_app in Hna as (_ & Hd1 & Hn2). apply NoDup_cons in Hn2 as (Hn2 & _).
  assert (Hl1 : trade ∉ l1) by (intros H; apply (Hd1 trade H); set_solver).
  eexists _, _. split; [reflexivity|]. simpl.
  split; [apply (closed_lookup s now trade exit reason t Ht)|].
  split_and!; simpl; try reflexivity.
  - intros r Hr. now rewrite list_lookup_insert_ne by congruence.
  - set_solver.
  - intros r Hr. rewrite Hact. set_solver.
  - apply Hd. set_solver.
  - exact Hwf'.
  - intros Hb He Hp Hx.
    assert (E : trade_pnl t exit == -0.60).
    { rewrite (trade_pnl_buy t exit Hb). rewrite He, Hp, Hx. reflexivity. }
    split; [exact E|]. rewrite E. reflexivity.
Qed.

Lemma wf_small_robot_open (direction take : pyval) :
  wf (small_robot_open direction take).
Proof.
  apply wf_execute. split; simpl.
  - constructor.
  - intros r Hr. now apply elem_of_nil in Hr.
  - intros r Hr. now apply elem_of_nil in Hr.
  - intros r Hr. lia.
Qed.

Lemma close_trade_spec_witness :
  exists s',
    close_trade 5%Z 0%nat 1.0940 STOP_LOSS (small_robot_open BUY PNone)
      = (Ok tt, s') /\
    active_trades s' = [] /\
    trade_history s' = [0%nat] /\
    (status <$> heap s' !! 0%nat) = Some "CLOSED"%string /\
    account_balance (risk_manager s') == 1000 - 0.60.
Proof.
  assert (Hin : 0%nat ∈ active_trades (small_robot_open BUY PNone))
    by (apply list_elem_of_singleton; reflexivity).
  assert (Ht : heap (small_robot_open BUY PNone) !! 0%nat
               = Some (sample_trade BUY PNone)) by reflexivity.
  destruct (close_trade_spec (small_robot_open BUY PNone) 5%Z 0%nat 1.0940
              STOP_LOSS (sample_trade BUY PNone)
              (wf_small_robot_open BUY PNone) Hin Ht)
    as (_ & _ & s' & t' & Hc & Hh & Ht' & _ & _ & _ & _ & Hst & _ & Hna & Hact
        & Hhist & _ & _ & _ & _ & Hscen).
  exists s'. split; [exact Hc|]. split.
  { destruct (active_trades s') as [|r l] eqn:E; [reflexivity|].
    exfalso. destruct (decide (r = 0%nat)) as [->|Hne].
    - apply Hna. apply list_elem_of_here.
    - assert (Hr : r ∈ r :: l) by apply list_elem_of_here.
      apply (Hact r Hne) in Hr. apply list_elem_of_singleton in Hr. contradiction. }
  split; [exact Hhist|]. split; [rewrite Hh; simpl; now rewrite Hst|].
  destruct Hscen as (_ & Hb); [reflexivity..|]. exact Hb.
Defined.

(** ** Trade ids *)

Lemma wf_length (s : Robot) :
  wf s -> length (active_trades s ++ trade_history s) = length (heap s).
Proof.
  intros Hwf.
  assert (Hp : active_trades s ++ trade_history s ≡ₚ seq 0 (length (heap s))).
  { apply NoDup_Permutation; [apply (wf_nodup s Hwf) | apply NoDup_seq |].
    intros r. rewrite elem_of_seq. split.
    - intros Hr. apply (wf_ref_lt s r Hwf) in Hr. lia.
    - intros [_ Hr]. now apply (wf_all s Hwf). }
  rewrite Hp. apply length_seq.
Qed.

Lemma next_id_simple (s : Robot) :
  wf s -> next_id SimpleForexTradingRobot s = S (length (heap s)).
Proof.
  intros Hwf. simpl. rewrite <- (wf_length s Hwf), length_app. lia.
Qed.

Lemma ids_execute_simple (now : datetime) (signal : dict) (s : Robot) :
  wf s -> ids_by_ref s ->
  ids_by_ref (snd (execute_trade SimpleForexTradingRobot now signal s)).
Proof.
  intros Hwf Hids.
  destruct (execute_trade_cases SimpleForexTradingRobot now signal s)
    as [(x & ->)|[->|(size & t & _ & _ & _ & Hm & ->)]]; try exact Hids.
  apply make_trade_inv in Hm as (_ & Hid & _).
  rewrite (next_id_simple s Hwf) in Hid.
  intros r t' Hr. simpl in Hr.
  destruct (decide (r < length (heap s))%nat) as [Hlt|Hge].
  - rewrite lookup_app_l in Hr by exact Hlt. now apply Hids.
  - rewrite lookup_app_r in Hr by lia.
    destruct (r - length (heap s))%nat as [|n] eqn:E; simpl in Hr;
      [|now rewrite lookup_nil in Hr].
    injection Hr as <-. rewrite Hid. lia.
Qed.

Lemma close_trade_heap (now : datetime) (trade : ref) (exit : Q)
    (reason : string) (s : Robot) :
  heap (snd (close_trade now trade exit reason s)) = heap s \/
  exists t, heap s !! trade = Some t /\
    heap (snd (close_trade now trade exit reason s))
      = <[trade := closed t exit now reason]> (heap s).
Proof.
  unfold close_trade. destruct (heap s !! trade) as [t|]; [|now left].
  right. exists t. split; [reflexivity|].
  now destruct (list_remove _ _).
Qed.

Lemma ids_close (now : datetime) (trade : ref) (exit : Q) (reason : string)
    (s : Robot) :
  ids_by_ref s -> ids_by_ref (snd (close_trade now trade exit reason s)).
Proof.
  intros Hids r t' Hr.
  destruct (close_trade_heap now trade exit reason s) as [E|(t & Ht & E)];
    rewrite E in Hr; [now apply Hids|].
  destruct (decide (r = trade)) as [->|Hne].
  - rewrite list_lookup_insert_eq in Hr by now apply lookup_lt_Some in Ht.
    injection Hr as <-. simpl. now apply Hids.
  - rewrite list_lookup_insert_ne in Hr by congruence. now apply Hids.
Qed.

Lemma ids_run_simple (ops : list op) :
  ids_by_ref (run SimpleForexTradingRobot ops).
Proof.
  unfold run.
  assert (H0 : ids_by_ref Robot_init)
    by (intros r t Hr; simpl in Hr; now rewrite lookup_nil in Hr).
  generalize wf_init H0. generalize Robot_init.
  induction ops as [|o ops IH]; intros s Hwf Hids; simpl; [exact Hids|].
  apply IH; [now apply wf_step|].
  destruct o; simpl; [now apply ids_execute_simple | now apply ids_close].
Qed.

(** The id scheme of [SimpleForexTradingRobot.execute_trade]
    ([len(trade_history) + len(active_trades) + 1]) does give unique and
    increasing ids: after any run, two trade objects have different ids, a
    new trade has an id above all earlier ones, and an operation never
    changes the id of an existing trade. *)
Lemma SimpleForexTradingRobot_ids_unique (ops : list op) :
  let s := run SimpleForexTradingRobot ops in
  (forall r1 r2 t1 t2,
     heap s !! r1 = Some t1 -> heap s !! r2 = Some t2 -> r1 <> r2 ->
     id t1 <> id t2) /\
  (forall now signal s',
     execute_trade SimpleForexTradingRobot now signal s = (Ok true, s') ->
     exists t, heap s' = heap s ++ [t] /\
               active_trades s' = active_trades s ++ [length (heap s)] /\
               forall r t0, heap s !! r = Some t0 -> (id t0 < id t)%nat) /\
  (forall o r t,
     heap s !! r = Some t ->
     exists t', heap (step SimpleForexTradingRobot s o) !! r = Some t' /\
                id t' = id t).
Proof.
  intros s. pose proof (ids_run_simple ops) as Hids.
  pose proof (wf_run SimpleForexTradingRobot ops) as Hwf. fold s in Hids, Hwf.
  split_and!.
  - intros r1 r2 t1 t2 H1 H2 Hne.
    rewrite (Hids r1 t1 H1), (Hids r2 t2 H2). lia.
  - intros now signal s' He.
    destruct (execute_trade_cases SimpleForexTradingRobot now signal s)
      as [(x & E)|[E|(size & t & _ & _ & _ & Hm & E)]];
      rewrite E in He; try discriminate.
    injection He as <-. exists t. simpl. split_and!; try reflexivity.
    intros r t0 Hr. apply make_trade_inv in Hm as (_ & Hid & _).
    rewrite (next_id_simple s Hwf) in Hid. rewrite Hid, (Hids r t0 Hr).
    apply lookup_lt_Some in Hr. lia.
  - intros o r t Hr.
    assert (Hids' : ids_by_ref (step SimpleForexTradingRobot s o)).
    { destruct o; simpl; [now apply ids_execute_simple | now apply ids_close]. }
    assert (Hlt : (r < length (heap (step SimpleForexTradingRobot s o)))%nat).
    { apply lookup_lt_Some in Hr. destruct o; simpl.
      - destruct (execute_trade_cases SimpleForexTradingRobot now signal s)
          as [(x & ->)|[->|(size & t' & _ & _ & _ & _ & ->)]]; simpl; try exact Hr.
        rewrite length_app. lia.
      - destruct (close_trade_heap now trade exit reason s) as [->|(t' & _ & ->)];
          [exact Hr|]. now rewrite length_insert. }
    apply lookup_lt_is_Some in Hlt as (t' & Ht'). exists t'.
    split; [exact Ht'|]. now rewrite (Hids' r t' Ht'), (Hids r t Hr).
Qed.

(** C1 (not met by [ForexTradingRobot]). Its id is
    [len(trade_history) + 1], which does not count the open trades: two
    trades opened in a row from a fresh robot are both open and both have
    id 1. *)
Theorem ForexTradingRobot_ids_collide :
  let s := run ForexTradingRobot
             [Execute 0%Z (sample_signal BUY 0.9 PNone);
              Execute 1%Z (sample_signal SELL 0.9 PNone)] in
  active_trades s = [0%nat; 1%nat] /\
  trade_history s = [] /\
  (id <$> heap s !! 0%nat) = Some 1%nat /\
  (id <$> heap s !! 1%nat) = Some 1%nat.
Proof. repeat split. Qed.

(** ** Monitoring *)

Lemma py_eqb_str (v : pyval) (x : string) :
  py_eqb v (PStr x) = true <-> v = PStr x.
Proof.
  destruct v as [|q|y]; simpl; try (split; [discriminate|discriminate]).
  rewrite String.eqb_eq. split; [now intros ->|now intros [= ->]].
Qed.

Lemma stop_loss_hit_iff (t : Trade) (price : Q) :
  stop_loss_hit t price = true <-> stop_condition t price.
Proof.
  unfold stop_loss_hit, stop_condition, Qgeb, BUY, SELL.
  rewrite orb_true_iff, !andb_true_iff, !py_eqb_str, !Qle_bool_iff. reflexivity.
Qed.

Lemma BUY_not_SELL : BUY <> SELL.
Proof. discriminate. Qed.

Lemma take_profit_hit_typed (t : Trade) (price : Q) :
  take_profit_typed t ->
  exists b, take_profit_hit t price = Ok b /\
            (b = true <-> take_profit_condition t price).
Proof.
  intros Hty. unfold take_profit_hit, take_profit_condition.
  destruct (take_profit t) as [|q|x] eqn:Etp; simpl.
  - exists false. split; [reflexivity|].
    split; [discriminate|]. now intros (tp & H & _).
  - destruct (Qeq_bool q 0) eqn:Ez; simpl.
    + exists false. split; [reflexivity|]. split; [discriminate|].
      intros (tp & [= <-] & Hnz & _). apply Qeq_bool_iff in Ez. contradiction.
    + apply Qeq_bool_false in Ez.
      destruct (py_eqb (signal_type t) BUY) eqn:Eb.
      * apply py_eqb_str in Eb. exists (Qgeb price q). split; [reflexivity|].
        rewrite Qgeb_ge. split.
        -- intros H. exists q. auto.
        -- intros (tp & [= <-] & _ & [[_ H]|[Hs _]]); [exact H|].
           rewrite Eb in Hs. now apply BUY_not_SELL in Hs.
      * assert (Hnb : signal_type t <> BUY).
        { intros H. apply py_eqb_str in H. fold BUY in H. congruence. }
        destruct (py_eqb (signal_type t) SELL) eqn:Es.
        -- apply py_eqb_str in Es. exists (Qle_bool price q).
           split; [reflexivity|]. rewrite Qle_bool_iff. split.
           ++ intros H. exists q. auto.
           ++ intros (tp & [= <-] & _ & [[Hb _]|[_ H]]); [contradiction|exact H].
        -- assert (Hns : signal_type t <> SELL).
           { intros H. apply py_eqb_str in H. fold SELL in H. congruence. }
           exists false. split; [reflexivity|]. split; [discriminate|].
           intros (tp & _ & _ & [[Hb _]|[Hs _]]); contradiction.
  - now destruct (Hty x).
Qed.

(** What closing an open trade leaves of the rest of the ledger. *)
Lemma close_trade_frame (s : Robot) (now : datetime) (trade : ref) (exit : Q)
    (reason : string) (t : Trade) :
  wf s -> trade ∈ active_trades s -> heap s !! trade = Some t ->
  exists s',
    close_trade now trade exit reason s = (Ok tt, s') /\ wf s' /\
    heap s' !! trade = Some (closed t exit now reason) /\
    (trade ∉ active_trades s') /\
    trade_history s' = trade_history s ++ [trade] /\
    (forall r, r <> trade ->
       heap s' !! r = heap s !! r /\
       (r ∈ active_trades s' <-> r ∈ active_trades s)).
Proof.
  intros Hwf Hin Ht.
  pose proof (wf_close now trade exit reason s Hwf) as Hwf'.
  pose proof (wf_nodup s Hwf) as Hnd.
  destruct (list_elem_of_split _ _ Hin) as (l1 & l2 & Hact).
  rewrite (close_trade_active s now trade exit reason t Hwf Ht l1 l2 Hact) in *.
  simpl in Hwf'. rewrite Hact in Hnd.
  apply NoDup_app in Hnd as (Hna & _ & _).
  apply NoDup_app in Hna as (_ & Hd1 & Hn2). apply NoDup_cons in Hn2 as (Hn2 & _).
  assert (Hl1 : trade ∉ l1) by (intros H; apply (Hd1 trade H); set_solver).
  eexists. split; [reflexivity|]. simpl. split_and!.
  - exact Hwf'.
  - apply (closed_lookup s now trade exit reason t Ht).
  - set_solver.
  - reflexivity.
  - intros r Hr. split; [now rewrite list_lookup_insert_ne by congruence|].
    rewrite Hact. set_solver.
Qed.

Lemma active_not_history (s : Robot) (r : ref) :
  wf s -> r ∈ active_trades s -> r ∉ trade_history s.
Proof.
  intros Hwf Hr. pose proof (wf_nodup s Hwf) as Hnd.
  apply NoDup_app in Hnd as (_ & Hd & _). now apply Hd.
Qed.

(** One iteration of the loop on an open trade. *)
Lemma monitor_trade_step (s : Robot) (now : datetime) (price : Q) (trade : ref)
    (t : Trade) :
  wf s -> trade ∈ active_trades s -> heap s !! trade = Some t ->
  take_profit_typed t ->
  exists s' l,
    monitor_trade now price trade s = (Ok tt, s') /\ wf s' /\
    trade_history s' = trade_history s ++ l /\ l `sublist_of` [trade] /\
    (forall r, r <> trade ->
       heap s' !! r = heap s !! r /\
       (r ∈ active_trades s' <-> r ∈ active_trades s)) /\
    monitored trade t price now s'.
Proof.
  intros Hwf Hin Ht Hty. unfold monitor_trade. rewrite Ht.
  pose proof (active_not_history s trade Hwf Hin) as Hnh.
  assert (Hkeep : exists s' l,
            (Ok tt, s) = (Ok tt, s') /\ wf s' /\
            trade_history s' = trade_history s ++ l /\ l `sublist_of` [trade] /\
            (forall r, r <> trade ->
               heap s' !! r = heap s !! r /\
               (r ∈ active_trades s' <-> r ∈ active_trades s)) /\
            (trade ∈ active_trades s') /\ (trade ∉ trade_history s') /\
            heap s' !! trade = Some t).
  { exists s, []. rewrite app_nil_r. split_and!; auto. apply sublist_nil_l. }
  assert (Hclose : forall reason, exists s' l,
            close_trade now trade price reason s = (Ok tt, s') /\ wf s' /\
            trade_history s' = trade_history s ++ l /\ l `sublist_of` [trade] /\
            (forall r, r <> trade ->
               heap s' !! r = heap s !! r /\
               (r ∈ active_trades s' <-> r ∈ active_trades s)) /\
            (trade ∉ active_trades s') /\ (trade ∈ trade_history s') /\
            heap s' !! trade = Some (closed t price now reason)).
  { intros reason.
    destruct (close_trade_frame s now trade price reason t Hwf Hin Ht)
      as (s' & Hc & Hwf' & Hh & Hna & Hhist & Hfr).
    exists s', [trade]. split_and!; auto. rewrite Hhist. set_solver. }
  destruct (Qeq_bool price 0) eqn:Ez.
  { apply Qeq_bool_iff in Ez.
    destruct Hkeep as (s' & l & E & Hwf' & Hh & Hl & Hfr & Hk).
    exists s', l. split_and!; auto. unfold monitored. split_and!; auto;
      intros Hnz; contradiction. }
  apply Qeq_bool_false in Ez.
  destruct (stop_loss_hit t price) eqn:Es.
  { apply stop_loss_hit_iff in Es.
    destruct (Hclose STOP_LOSS) as (s' & l & E & Hwf' & Hh & Hl & Hfr & Hk).
    exists s', l. split_and!; auto. unfold monitored. split_and!; auto;
      intros; contradiction. }
  assert (Hns : ~ stop_condition t price).
  { intros H. apply stop_loss_hit_iff in H. congruence. }
  destruct (take_profit_hit_typed t price Hty) as (b & -> & Hb).
  destruct b.
  - assert (Htp : take_profit_condition t price) by now apply Hb.
    destruct (Hclose TAKE_PROFIT) as (s' & l & E & Hwf' & Hh & Hl & Hfr & Hk).
    exists s', l. split_and!; auto. unfold monitored. split_and!; auto;
      intros; contradiction.
  - assert (Hntp : ~ take_profit_condition t price).
    { intros H. apply Hb in H. discriminate. }
    destruct Hkeep as (s' & l & E & Hwf' & Hh & Hl & Hfr & Hk).
    exists s', l. split_and!; auto. unfold monitored. split_and!; auto;
      intros; contradiction.
Qed.

Lemma monitored_transfer (trade : ref) (t : Trade) (price : Q) (now : datetime)
    (s1 s2 : Robot) :
  heap s2 !! trade = heap s1 !! trade ->
  (trade ∈ active_trades s2 <-> trade ∈ active_trades s1) ->
  (trade ∈ trade_history s2 <-> trade ∈ trade_history s1) ->
  monitored trade t price now s1 -> monitored trade t price now s2.
Proof.
  intros Hh Ha Hi. unfold monitored. rewrite Hh, Ha, Hi. exact (fun H => H).
Qed.

(** The loop on a part [rest] of the copy whose trades are all still open. *)
Lemma monitor_loop_spec (clock : nat -> datetime) (feed : nat -> Q)
    (rest : list ref) :
  forall (k : nat) (s : Robot),
  wf s -> NoDup rest ->
  (forall r, r ∈ rest -> r ∈ active_trades s) ->
  (forall r t, r ∈ rest -> heap s !! r = Some t -> take_profit_typed t) ->
  exists s' l,
    monitor_loop clock feed k rest s = (Ok tt, s') /\ wf s' /\
    trade_history s' = trade_history s ++ l /\ l `sublist_of` rest /\
    (forall r, r ∉ rest ->
       heap s' !! r = heap s !! r /\
       (r ∈ active_trades s' <-> r ∈ active_trades s)) /\
    (forall j r t,
       rest !! j = Some r -> heap s !! r = Some t ->
       monitored r t (feed (k + j)%nat) (clock (k + j)%nat) s').
Proof.
  induction rest as [|trade rest IH]; intros k s Hwf Hnd Hact Hty.
  - exists s, []. simpl. rewrite app_nil_r. split_and!; auto.
    intros j r t Hj. now rewrite lookup_nil in Hj.
  - apply NoDup_cons in Hnd as (Hnin & Hnd).
    destruct (wf_active s Hwf trade) as (t & Ht & _); [apply Hact; set_solver|].
    destruct (monitor_trade_step s (clock k) (feed k) trade t Hwf)
      as (s1 & l1 & E1 & Hwf1 & Hh1 & Hl1 & Hfr1 & Hm1);
      [apply Hact; set_solver | exact Ht | apply (Hty trade); [set_solver|exact Ht] |].
    destruct (IH (S k) s1 Hwf1 Hnd) as (s' & l & E & Hwf' & Hh & Hl & Hfr & Hm).
    { intros r Hr. apply Hfr1; [intros ->; contradiction|]. apply Hact. set_solver. }
    { intros r t' Hr Hr'. apply (Hty r); [set_solver|].
      rewrite <- Hr'. symmetry. apply Hfr1. intros ->. contradiction. }
    exists s', (l1 ++ l). simpl. rewrite E1. split_and!.
    + exact E.
    + exact Hwf'.
    + now rewrite Hh, Hh1, app_assoc.
    + change (trade :: rest) with ([trade] ++ rest). now apply sublist_app.
    + intros r Hr. apply not_elem_of_cons in Hr as (Hne & Hr).
      destruct (Hfr r Hr) as (H1 & H2). destruct (Hfr1 r Hne) as (H3 & H4).
      split; [congruence|]. now rewrite H2.
    + intros [|j] r t' Hj Hr; simpl in Hj.
      * injection Hj as <-. rewrite Ht in Hr. injection Hr as <-.
        rewrite Nat.add_0_r. destruct (Hfr trade Hnin) as (H1 & H2).
        apply (monitored_transfer trade t _ _ s1 s'); [exact H1|exact H2| |exact Hm1].
        rewrite Hh. rewrite elem_of_app. split; [|now left].
        intros [H|H]; [exact H|]. exfalso. apply Hnin.
        apply (elem_of_sublist l rest trade H Hl).
      * replace (k + S j)%nat with (S k + j)%nat by lia.
        apply Hm; [exact Hj|]. rewrite <- Hr. apply Hfr1.
        intros ->. apply Hnin. now apply list_elem_of_lookup_2 in Hj.
Qed.

Lemma wf_monitor_trade (now : datetime) (price : Q) (trade : ref) (s : Robot) :
  wf s -> wf (snd (monitor_trade now price trade s)).
Proof.
  intros Hwf. unfold monitor_trade.
  destruct (heap s !! trade) as [t|]; [|exact Hwf].
  destruct (Qeq_bool price 0); [exact Hwf|].
  destruct (stop_loss_hit t price); [now apply wf_close|].
  destruct (take_profit_hit t price) as [[]|x]; try exact Hwf.
  now apply wf_close.
Qed.

(** The invariant survives a call of [monitor_trades], also one that
    raises. *)
Lemma wf_monitor_trades (clock : nat -> datetime) (feed : nat -> Q) (s : Robot) :
  wf s -> wf (snd (monitor_trades clock feed s)).
Proof.
  unfold monitor_trades. generalize 0%nat. generalize (active_trades s) at 1.
  intros copy. revert s. induction copy as [|trade copy IH]; intros s k Hwf;
    simpl; [exact Hwf|].
  pose proof (wf_monitor_trade (clock k) (feed k) trade s Hwf) as H.
  destruct (monitor_trade (clock k) (feed k) trade s) as [[u|x] s1]; simpl in H.
  - now apply IH.
  - exact H.
Qed.

(** C6. One call of [monitor_trades] on a ledger whose open trades hold no
    string as take-profit returns normally and, for every open trade and the
    price fetched for it: a price of 0 (the value that stands for "no
    price") leaves the trade open and untouched; otherwise a met stop-loss
    condition closes it with reason STOP_LOSS, also when the take-profit
    condition is met too; otherwise a take-profit that is set and met closes
    it with reason TAKE_PROFIT; otherwise it stays open.  The history grows
    by trades of the copy in its order, each at most once. *)
Theorem monitor_trades_spec (clock : nat -> datetime) (feed : nat -> Q)
    (s : Robot) :
  wf s ->
  (forall r t, r ∈ active_trades s -> heap s !! r = Some t ->
     take_profit_typed t) ->
  exists s' l,
    monitor_trades clock feed s = (Ok tt, s') /\
    (forall k r t,
       active_trades s !! k = Some r -> heap s !! r = Some t ->
       monitored r t (feed k) (clock k) s') /\
    trade_history s' = trade_history s ++ l /\
    l `sublist_of` active_trades s /\
    NoDup (trade_history s') /\
    wf s'.
Proof.
  intros Hwf Hty. pose proof (wf_nodup s Hwf) as Hnd.
  apply NoDup_app in Hnd as (Hnd & _ & _).
  destruct (monitor_loop_spec clock feed (active_trades s) 0 s Hwf Hnd)
    as (s' & l & E & Hwf' & Hh & Hl & _ & Hm); [auto|exact Hty|].
  exists s', l. split_and!; auto.
  pose proof (wf_nodup s' Hwf') as Hnd'.
  now apply NoDup_app in Hnd' as (_ & _ & Hnd').
Qed.

Lemma monitor_trades_spec_witness :
  take_profit_condition (sample_trade BUY (PNum 1.0900)) 1.0920 /\
  exists s',
    monitor_trades (fun _ => 7%Z) (fun _ => 1.0920)
      (small_robot_open BUY (PNum 1.0900)) = (Ok tt, s') /\
    heap s' !! 0%nat
      = Some (closed (sample_trade BUY (PNum 1.0900)) 1.0920 7%Z STOP_LOSS) /\
    trade_history s' = [0%nat].
Proof.
  pose (s := small_robot_open BUY (PNum 1.0900)).
  pose (t := sample_trade BUY (PNum 1.0900)).
  assert (Htp : take_profit_condition t 1.0920).
  { exists 1.0900. split; [reflexivity|]. split; [intros H; discriminate H|].
    left. split; [reflexivity|]. intros H; discriminate H. }
  assert (Hstop : stop_condition t 1.0920).
  { left. split; [reflexivity|]. intros H; discriminate H. }
  assert (Hty : forall r t', r ∈ active_trades s -> heap s !! r = Some t' ->
                             take_profit_typed t').
  { intros r t' Hr Ht'. apply list_elem_of_singleton in Hr as ->.
    injection Ht' as <-. intros x H. discriminate H. }
  split; [exact Htp|].
  destruct (monitor_trades_spec (fun _ => 7%Z) (fun _ => 1.0920) s
              (wf_small_robot_open BUY (PNum 1.0900)) Hty)
    as (s' & l & E & Hm & Hh & Hl & _ & _).
  exists s'. split; [exact E|].
  destruct (Hm 0%nat 0%nat t eq_refl eq_refl) as (_ & Hs & _).
  destruct Hs as (_ & Hin & Hheap); [intros H; discriminate H|exact Hstop|].
  split; [exact Hheap|].
  simpl in Hh. rewrite Hh in *.
  apply sublist_cons_r in Hl as [Hl|(l' & -> & Hl)].
  - apply sublist_nil_r in Hl as ->. now apply elem_of_nil in Hin.
  - now apply sublist_nil_r in Hl as ->.
Defined.

(** ** Trades without a take-profit *)

Lemma no_take_profit_falsy (t : Trade) :
  no_take_profit t -> truthy (take_profit t) = false.
Proof.
  intros [->|(q & -> & Hq)]; [reflexivity|]. simpl.
  apply Qeq_bool_iff in Hq. now rewrite Hq.
Qed.

Lemma close_trade_never_took_profit (now : datetime) (trade : ref) (exit : Q)
    (reason : string) (s : Robot) (r : ref) :
  reason = STOP_LOSS \/ reason = MANUAL_CLOSE \/ trade <> r ->
  never_took_profit r s ->
  never_took_profit r (snd (close_trade now trade exit reason s)).
Proof.
  intros Hreason (t & Ht & Hno & Hcr). unfold never_took_profit.
  destruct (close_trade_heap now trade exit reason s) as [->|(t0 & Ht0 & ->)];
    [eauto|].
  destruct (decide (trade = r)) as [->|Hne].
  - rewrite list_lookup_insert_eq by now apply lookup_lt_Some in Ht.
    rewrite Ht in Ht0. injection Ht0 as <-.
    eexists. split; [reflexivity|]. simpl. split; [exact Hno|].
    destruct Hreason as [->|[->|H]]; [auto|auto|contradiction].
  - rewrite list_lookup_insert_ne by exact Hne. eauto.
Qed.

Lemma monitor_trade_never_took_profit (now : datetime) (price : Q)
    (trade : ref) (s : Robot) (r : ref) :
  never_took_profit r s ->
  never_took_profit r (snd (monitor_trade now price trade s)).
Proof.
  intros Hn. unfold monitor_trade.
  destruct (heap s !! trade) as [t0|] eqn:Ht0; [|exact Hn].
  destruct (Qeq_bool price 0); [exact Hn|].
  destruct (stop_loss_hit t0 price).
  { apply close_trade_never_took_profit; auto. }
  destruct (decide (trade = r)) as [->|Hne].
  - destruct Hn as (t & Ht & Hno & Hcr). rewrite Ht in Ht0. injection Ht0 as <-.
    unfold take_profit_hit. rewrite (no_take_profit_falsy t Hno).
    exists t. auto.
  - destruct (take_profit_hit t0 price) as [[]|x]; try exact Hn.
    apply close_trade_never_took_profit; auto.
Qed.

Lemma monitor_loop_never_took_profit (clock : nat -> datetime) (feed : nat -> Q)
    (r : ref) (copy : list ref) :
  forall k s,
  never_took_profit r s ->
  never_took_profit r (snd (monitor_loop clock feed k copy s)).
Proof.
  induction copy as [|trade copy IH]; intros k s Hn; simpl; [exact Hn|].
  pose proof (monitor_trade_never_took_profit (clock k) (feed k) trade s r Hn) as H.
  destruct (monitor_trade (clock k) (feed k) trade s) as [[u|x] s1]; simpl in H.
  - now apply IH.
  - exact H.
Qed.

Lemma execute_trade_never_took_profit (e : engine) (now : datetime)
    (signal : dict) (s : Robot) (r : ref) :
  never_took_profit r s ->
  never_took_profit r (snd (execute_trade e now signal s)).
Proof.
  intros Hn.
  destruct (execute_trade_cases e now signal s)
    as [(x & ->)|[->|(size & t & _ & _ & _ & _ & ->)]]; try exact Hn.
  destruct Hn as (t0 & Ht0 & H). exists t0. split; [|exact H]. simpl.
  rewrite lookup_app_l; [exact Ht0|]. now apply lookup_lt_Some in Ht0.
Qed.

Lemma serve_never_took_profit (float_of_string : string -> option Q)
    (s : Robot) (q : request) (r : ref) :
  never_took_profit r s -> never_took_profit r (serve float_of_string s q).
Proof.
  intros Hn. destruct q as [clock feed|now signal|now data|now price trade_id];
    simpl.
  - now apply monitor_loop_never_took_profit.
  - now apply execute_trade_never_took_profit.
  - unfold manual_trade.
    destruct (Nat.eqb (size data) 0); [exact Hn|].
    destruct (negb _); [exact Hn|].
    destruct (manual_signal float_of_string data) as [signal|x]; [|exact Hn].
    pose proof (execute_trade_never_took_profit SimpleForexTradingRobot now
                  signal s r Hn) as H.
    now destruct (execute_trade _ _ _ _) as [[[]|x] s1].
  - unfold close_trade_manual.
    destruct (find_trade _ _ _) as [trade|]; [|exact Hn].
    destruct (Qeq_bool price 0); [exact Hn|].
    pose proof (close_trade_never_took_profit now trade price MANUAL_CLOSE s r
                  (or_intror (or_introl eq_refl)) Hn) as H.
    now destruct (close_trade _ _ _ _ _) as [[u|x] s1].
Qed.

(** Every state the web application reaches satisfies the ledger
    invariant. *)
Lemma wf_serve (float_of_string : string -> option Q) (s : Robot) (q : request) :
  wf s -> wf (serve float_of_string s q).
Proof.
  intros Hwf. destruct q as [clock feed|now signal|now data|now price trade_id];
    simpl.
  - now apply wf_monitor_trades.
  - now apply wf_execute.
  - unfold manual_trade.
    destruct (Nat.eqb (size data) 0); [exact Hwf|].
    destruct (negb _); [exact Hwf|].
    destruct (manual_signal float_of_string data) as [signal|x]; [|exact Hwf].
    pose proof (wf_execute SimpleForexTradingRobot now signal s Hwf) as H.
    now destruct (execute_trade _ _ _ _) as [[[]|x] s1].
  - unfold close_trade_manual.
    destruct (find_trade _ _ _) as [trade|]; [|exact Hwf].
    destruct (Qeq_bool price 0); [exact Hwf|].
    pose proof (wf_close now trade price MANUAL_CLOSE s Hwf) as H.
    now destruct (close_trade _ _ _ _ _) as [[u|x] s1].
Qed.

Lemma request_without_take_profit_falsy (data : dict) :
  request_without_take_profit data ->
  truthy (dict_get data "take_profit" PNone) = false.
Proof.
  unfold dict_get. intros [->|[->|(q & -> & Hq)]]; try reflexivity.
  simpl. apply Qeq_bool_iff in Hq. now rewrite Hq.
Qed.

Lemma manual_signal_take_profit (float_of_string : string -> option Q)
    (data signal : dict) :
  manual_signal float_of_string data = Ok signal ->
  truthy (dict_get data "take_profit" PNone) = false ->
  dict_get signal "take_profit" PNone = PNone.
Proof.
  unfold manual_signal, mbind, result_bind. intros H Hf. rewrite Hf in H.
  destruct (getitem data "symbol"); [|discriminate].
  destruct (getitem data "signal"); [|discriminate].
  destruct (getitem data "entry_price") as [v|]; [|discriminate].
  destruct (py_float float_of_string v); [|discriminate].
  destruct (getitem data "stop_loss") as [w|]; [|discriminate].
  destruct (py_float float_of_string w); [|discriminate].
  destruct (py_float float_of_string _); [|discriminate].
  injection H as <-. reflexivity.
Qed.

Lemma manual_trade_opened (float_of_string : string -> option Q)
    (now : datetime) (data : dict) (s s' : Robot) :
  manual_trade float_of_string now data s = (200%nat, s') ->
  exists signal size t,
    manual_signal float_of_string data = Ok signal /\
    make_trade SimpleForexTradingRobot now signal size s = Ok t /\
    heap s' = heap s ++ [t] /\
    active_trades s' = active_trades s ++ [length (heap s)].
Proof.
  unfold manual_trade. destruct (Nat.eqb (size data) 0); [discriminate|].
  destruct (negb _); [discriminate|].
  destruct (manual_signal float_of_string data) as [signal|x]; [|discriminate].
  destruct (execute_trade_cases SimpleForexTradingRobot now signal s)
    as [(x & ->)|[->|(size & t & _ & _ & _ & Hm & ->)]]; try discriminate.
  intros [= <-]. exists signal, size, t. auto.
Qed.

(** C10. [monitor_trades] tests [take_profit] by its truth value, so it
    never closes with reason TAKE_PROFIT a trade whose take-profit is [None]
    or 0, whatever the prices.  A manual trade submitted without a
    take-profit, or with a zero one, is opened with [take_profit = None];
    under any sequence of trading cycles and manual requests it stays open
    or is closed with reason STOP_LOSS or MANUAL_CLOSE. *)
Theorem no_take_profit_never_hit (float_of_string : string -> option Q) :
  (forall clock feed s r t,
     heap s !! r = Some t -> no_take_profit t -> close_reason t = None ->
     exists t',
       heap (snd (monitor_trades clock feed s)) !! r = Some t' /\
       close_reason t' <> Some TAKE_PROFIT) /\
  (forall now data s s',
     manual_trade float_of_string now data s = (200%nat, s') ->
     request_without_take_profit data ->
     exists t,
       heap s' !! length (heap s) = Some t /\
       (length (heap s) ∈ active_trades s') /\
       take_profit t = PNone /\ close_reason t = None /\
       forall reqs,
         exists t',
           heap (foldl (serve float_of_string) s' reqs) !! length (heap s)
             = Some t' /\
           (close_reason t' = None \/ close_reason t' = Some STOP_LOSS \/
            close_reason t' = Some MANUAL_CLOSE)).
Proof.
  split.
  - intros clock feed s r t Ht Hno Hcr.
    destruct (monitor_loop_never_took_profit clock feed r (active_trades s) 0 s)
      as (t' & Ht' & _ & Hcr').
    { exists t. auto. }
    exists t'. split; [exact Ht'|].
    destruct Hcr' as [->|[->| ->]]; discriminate.
  - intros now data s s' Hm Hreq.
    destruct (manual_trade_opened float_of_string now data s s' Hm)
      as (signal & size & t & Hsig & Hmk & Hheap & Hact).
    apply request_without_take_profit_falsy in Hreq.
    pose proof (manual_signal_take_profit float_of_string data signal Hsig Hreq)
      as Htp.
    apply make_trade_inv in Hmk as ((_ & _ & _ & _ & Hcr) & _ & _ & _ & Htp' & _).
    rewrite Htp in Htp'.
    assert (Hl : heap s' !! length (heap s) = Some t).
    { rewrite Hheap, lookup_app_r by lia. now rewrite Nat.sub_diag. }
    exists t. split_and!; auto.
    { rewrite Hact. set_solver. }
    assert (H0 : never_took_profit (length (heap s)) s').
    { exists t. split; [exact Hl|]. split; [now left|now left]. }
    intros reqs. revert H0. generalize s'. clear.
    induction reqs as [|q reqs IH]; intros s' H0; simpl.
    + destruct H0 as (t' & Ht' & _ & Hcr). eauto.
    + apply IH. now apply serve_never_took_profit.
Qed.

Lemma no_take_profit_never_hit_witness :
  let s := snd (manual_trade (fun _ => None) 0%Z (sample_request (PNum 0))
                  small_robot) in
  (exists t', heap (snd (monitor_trades (fun _ => 1%Z) (fun _ => 1.2000) s))
                !! 0%nat = Some t' /\
              close_reason t' <> Some TAKE_PROFIT) /\
  (exists t, heap s !! 0%nat = Some t /\ take_profit t = PNone).
Proof.
  intros s. split.
  - assert (Ht : heap s !! 0%nat = Some (sample_trade BUY PNone)) by reflexivity.
    apply (proj1 (no_take_profit_never_hit (fun _ => None))
             (fun _ => 1%Z) (fun _ => 1.2000) s 0%nat _ Ht);
      [now left | reflexivity].
  - assert (Hs : manual_trade (fun _ => None) 0%Z (sample_request (PNum 0))
                   small_robot = (200%nat, s)) by reflexivity.
    assert (Hr : request_without_take_profit (sample_request (PNum 0))).
    { right; right. exists 0. split; reflexivity. }
    destruct (proj2 (no_take_profit_never_hit (fun _ => None))
                0%Z _ small_robot s Hs Hr) as (t & Ht & _ & Htp & _).
    exists t. auto.
Defined.

(** ** The RSI of the list engine *)

Lemma py_sum_app (l : list Q) (x : Q) : py_sum (l ++ [x]) = py_sum l + x.
Proof. unfold py_sum. now rewrite foldl_app. Qed.

Lemma py_sum_zero (l : list Q) :
  Forall (fun x => x == 0) l -> py_sum l == 0.
Proof.
  induction l as [|x l IH] using rev_ind; intros H; [reflexivity|].
  rewrite py_sum_app. apply Forall_app in H as (Hl & Hx).
  apply Forall_inv in Hx. specialize (IH Hl). cbv beta in Hx. lra.
Qed.

Lemma py_sum_nonneg (l : list Q) :
  Forall (fun x => 0 <= x) l -> 0 <= py_sum l.
Proof.
  induction l as [|x l IH] using rev_ind; intros H; [apply Qle_refl|].
  rewrite py_sum_app. apply Forall_app in H as (Hl & Hx).
  apply Forall_inv in Hx. specialize (IH Hl). cbv beta in Hx. lra.
Qed.

Lemma py_sum_zero_inv (l : list Q) :
  Forall (fun x => 0 <= x) l -> py_sum l == 0 -> Forall (fun x => x == 0) l.
Proof.
  induction l as [|x l IH] using rev_ind; intros H Hs; [constructor|].
  rewrite py_sum_app in Hs. apply Forall_app in H as (Hl & Hx).
  pose proof (py_sum_nonneg l Hl) as Hn.
  apply Forall_inv in Hx. cbv beta in Hx. apply Forall_app. split.
  - apply IH; [exact Hl|lra].
  - apply Forall_singleton. cbv beta. lra.
Qed.

Lemma py_sum_ext (l1 l2 : list Q) :
  Forall2 Qeq l1 l2 -> py_sum l1 == py_sum l2.
Proof.
  intros H. revert l2 H.
  induction l1 as [|x l1 IH] using rev_ind; intros l2 H.
  - apply Forall2_nil_inv_l in H as ->. reflexivity.
  - apply Forall2_app_inv_l in H as (k1 & k2 & H1 & H2 & ->).
    apply Forall2_cons_inv_l in H2 as (y & k & Hxy & Hk & ->).
    apply Forall2_nil_inv_l in Hk as ->.
    rewrite !py_sum_app, (IH k1 H1), Hxy. reflexivity.
Qed.

Lemma map_Qeq (f g : Q -> Q) (H : forall x, f x == g x) (l : list Q) :
  Forall2 Qeq (map f l) (map g l).
Proof. induction l; simpl; constructor; auto. Qed.

Lemma loss_of_max (d : Q) : loss_of d == Qmax (- d) 0.
Proof.
  unfold loss_of, Qgtb. destruct (Qltb 0 d) eqn:E.
  - apply Qltb_lt in E. rewrite Q.max_r; lra.
  - apply Qltb_ge in E. rewrite Q.max_l by lra.
    rewrite Qabs_neg by exact E. reflexivity.
Qed.

Lemma gains_losses_spec (rest : list Q) :
  forall prev gains losses,
  SimpleTechnicalIndicators.gains_losses prev rest gains losses =
    (gains ++ map gain_of (deltas (prev :: rest)),
     losses ++ map loss_of (deltas (prev :: rest))).
Proof.
  induction rest as [|p rest IH]; intros prev gains losses; simpl.
  - now rewrite !app_nil_r.
  - fold (deltas (p :: rest)). unfold gain_of at 1, loss_of at 1.
    destruct (Qgtb (p - prev) 0); rewrite IH, <- !app_assoc; reflexivity.
Qed.

Lemma length_deltas (prices : list Q) :
  length (deltas prices) = (length prices - 1)%nat.
Proof.
  unfold deltas. rewrite length_zip_with.
  destruct prices as [|p l]; [reflexivity|]. simpl length. lia.
Qed.

Lemma last_n_map {A B : Type} (f : A -> B) (n : nat) (l : list A) :
  last_n n (map f l) = map f (last_n n l).
Proof.
  unfold last_n. destruct (Nat.eqb n 0); [reflexivity|].
  now rewrite length_map, skipn_map.
Qed.

Lemma Qnat_nonzero (n : nat) : (1 <= n)%nat -> Qeq_bool (Qnat n) 0 = false.
Proof.
  intros H. apply Qeq_bool_false. unfold Qnat, Qeq. simpl. lia.
Qed.

Lemma Qnat_S (n : nat) : Qnat (S n) == Qnat n + 1.
Proof.
  unfold Qnat. rewrite Nat2Z.inj_succ, <- Z.add_1_r, inject_Z_plus. reflexivity.
Qed.

Lemma Qnat_pos (n : nat) : (1 <= n)%nat -> 0 < Qnat n.
Proof. intros H. unfold Qnat, Qlt. simpl. lia. Qed.

Section SimpleRsi.
Variables (prices : list Q) (period : nat).

Lemma simple_rsi_short :
  (length prices < period + 1)%nat ->
  SimpleTechnicalIndicators.rsi prices period = Ok 50.
Proof.
  intros H. unfold SimpleTechnicalIndicators.rsi.
  apply Nat.ltb_lt in H. now rewrite H.
Qed.

Hypothesis Hperiod : (1 <= period)%nat.
Hypothesis Hlen : (period + 1 <= length prices)%nat.

(** With enough points the two averages are computed without error. *)
Lemma simple_rsi_long :
  SimpleTechnicalIndicators.rsi prices period =
    let avg_gain := py_sum (last_n period (map gain_of (deltas prices)))
                    / Qnat period in
    let avg_loss := py_sum (last_n period (map loss_of (deltas prices)))
                    / Qnat period in
    if Qeq_bool avg_loss 0 then Ok 100
    else
      rs ← py_div avg_gain avg_loss;
      q ← py_div 100 (1 + rs);
      Ok (100 - q).
Proof.
  unfold SimpleTechnicalIndicators.rsi.
  assert (E : Nat.ltb (length prices) (period + 1) = false)
    by (apply Nat.ltb_ge; lia).
  rewrite E. destruct prices as [|p0 rest] eqn:Ep; [simpl in Hlen; lia|].
  rewrite gains_losses_spec. simpl app.
  assert (E2 : Nat.ltb (length (map gain_of (deltas (p0 :: rest)))) period
               = false).
  { apply Nat.ltb_ge. rewrite length_map, length_deltas. simpl in *. lia. }
  rewrite E2. unfold mbind, result_bind, py_div.
  rewrite (Qnat_nonzero period Hperiod). reflexivity.
Qed.

Lemma simple_rsi_no_loss :
  average_loss prices period == 0 ->
  SimpleTechnicalIndicators.rsi prices period = Ok 100.
Proof.
  intros H. rewrite simple_rsi_long. cbv zeta.
  assert (E : py_sum (last_n period (map loss_of (deltas prices)))
              / Qnat period == 0).
  { rewrite <- H. unfold average_loss. rewrite !last_n_map.
    rewrite (py_sum_ext _ _ (map_Qeq loss_of _ loss_of_max _)). reflexivity. }
  apply Qeq_bool_iff in E. now rewrite E.
Qed.

Lemma increasing_no_loss :
  strictly_increasing prices -> average_loss prices period == 0.
Proof.
  intros Hinc. unfold average_loss.
  rewrite py_sum_zero; [unfold Qdiv; lra|].
  apply Forall_map. apply Forall_forall. intros d Hd.
  assert (Hin : d ∈ deltas prices).
  { unfold last_n in Hd. destruct (Nat.eqb period 0); [exact Hd|].
    eapply subseteq_drop; exact Hd. }
  apply list_elem_of_lookup in Hin as (i & Hi).
  unfold deltas in Hi. apply lookup_zip_with_Some in Hi as (a & b & -> & Ha & Hb).
  rewrite lookup_tail in Hb. pose proof (Hinc i a b Ha Hb).
  rewrite Q.max_r; lra.
Qed.
End SimpleRsi.

(** ** The RSI of the pandas engine *)

Lemma iloc_neg_lookup {A : Type} (s : list A) (k : nat) (x : A) :
  (1 <= k <= length s)%nat ->
  iloc_neg s k = Ok x <-> s !! (length s - k)%nat = Some x.
Proof.
  intros Hk. unfold iloc_neg.
  assert (E : Nat.ltb (length s) k = false) by (apply Nat.ltb_ge; lia).
  rewrite E. destruct (s !! (length s - k)%nat) as [y|].
  - split; [now intros [= ->]|now intros [= ->]].
  - split; discriminate.
Qed.

Lemma iloc_neg_ok {A : Type} (s : list A) (k : nat) :
  (1 <= k <= length s)%nat -> exists x, iloc_neg s k = Ok x.
Proof.
  intros Hk.
  destruct (lookup_lt_is_Some_2 s (length s - k)%nat) as (x & Hx); [lia|].
  exists x. now apply iloc_neg_lookup.
Qed.

Lemma rolling_length (w : nat) (agg : list fnum -> fnum) (s : list fnum) :
  length (TechnicalIndicators.rolling w agg s) = length s.
Proof. apply length_imap. Qed.

Lemma rolling_lookup (w : nat) (agg : list fnum -> fnum) (s : list fnum)
    (i : nat) :
  (i < length s)%nat ->
  TechnicalIndicators.rolling w agg s !! i =
    Some (if Nat.ltb (i + 1) w then NaN
          else agg (take w (drop (i + 1 - w) s))).
Proof.
  intros Hi. unfold TechnicalIndicators.rolling. rewrite list_lookup_imap.
  destruct (lookup_lt_is_Some_2 s i Hi) as (x & ->). reflexivity.
Qed.

Lemma diff_length (s : list fnum) :
  length (TechnicalIndicators.diff s) = length s.
Proof.
  destruct s as [|x s]; [reflexivity|]. simpl.
  rewrite length_zip_with. simpl. lia.
Qed.

Lemma avg_gain_length (data : list fnum) (period : nat) :
  length (TechnicalIndicators.avg_gain data period) = length data.
Proof.
  unfold TechnicalIndicators.avg_gain, TechnicalIndicators.where_.
  now rewrite rolling_length, length_map, diff_length.
Qed.

Lemma avg_loss_length (data : list fnum) (period : nat) :
  length (TechnicalIndicators.avg_loss data period) = length data.
Proof.
  unfold TechnicalIndicators.avg_loss, TechnicalIndicators.where_.
  now rewrite rolling_length, !length_map, diff_length.
Qed.

Lemma map_zip_with {A B C D : Type} (f : C -> D) (g : A -> B -> C)
    (l : list A) (k : list B) :
  map f (zip_with g l k) = zip_with (fun x y => f (g x y)) l k.
Proof.
  revert k. induction l as [|x l IH]; intros [|y k]; simpl; try reflexivity.
  now rewrite IH.
Qed.

Lemma rsi_zip (data : list fnum) (period : nat) :
  TechnicalIndicators.rsi data period =
    zip_with rsi_value (TechnicalIndicators.avg_gain data period)
                       (TechnicalIndicators.avg_loss data period).
Proof. unfold TechnicalIndicators.rsi. cbv zeta. apply map_zip_with. Qed.

Lemma rsi_length (data : list fnum) (period : nat) :
  length (TechnicalIndicators.rsi data period) = length data.
Proof.
  rewrite rsi_zip, length_zip_with, avg_gain_length, avg_loss_length. lia.
Qed.

Lemma rsi_lookup (data : list fnum) (period i : nat) (g l : fnum) :
  TechnicalIndicators.avg_gain data period !! i = Some g ->
  TechnicalIndicators.avg_loss data period !! i = Some l ->
  TechnicalIndicators.rsi data period !! i = Some (rsi_value g l).
Proof.
  intros Hg Hl. rewrite rsi_zip, lookup_zip_with, Hg, Hl. reflexivity.
Qed.

Lemma rsi_window_not_full (data : list fnum) (period i : nat) :
  (i < length data)%nat -> (i + 1 < period)%nat ->
  TechnicalIndicators.rsi data period !! i = Some NaN.
Proof.
  intros Hi Hw.
  destruct (lookup_lt_is_Some_2 (TechnicalIndicators.avg_loss data period) i)
    as (l & Hl); [now rewrite avg_loss_length|].
  rewrite (rsi_lookup data period i NaN l); [reflexivity| |exact Hl].
  unfold TechnicalIndicators.avg_gain, TechnicalIndicators.where_.
  rewrite rolling_lookup by now rewrite length_map, diff_length.
  apply Nat.ltb_lt in Hw. now rewrite Hw.
Qed.

Lemma rsi_value_no_loss (x : Q) :
  0 < x -> feq (rsi_value (Fin x) (Fin 0)) (Fin 100).
Proof.
  intros Hx. unfold rsi_value. simpl. unfold inf_signed.
  destruct (x ?= 0) eqn:E.
  - apply Qeq_alt in E. lra.
  - apply Qlt_alt in E. lra.
  - simpl. lra.
Qed.

Lemma rsi_value_flat : rsi_value (Fin 0) (Fin 0) = NaN.
Proof. reflexivity. Qed.

Lemma gain_of_nonneg (d : Q) : 0 <= gain_of d.
Proof.
  unfold gain_of, Qgtb. destruct (Qltb 0 d) eqn:E; [|apply Qle_refl].
  apply Qltb_lt in E. lra.
Qed.

Lemma loss_of_nonneg (d : Q) : 0 <= loss_of d.
Proof.
  unfold loss_of. destruct (Qgtb d 0); [apply Qle_refl|apply Qabs_nonneg].
Qed.

Lemma py_sum_last_n_nonneg (f : Q -> Q) (n : nat) (l : list Q) :
  (forall d, 0 <= f d) -> 0 <= py_sum (last_n n (map f l)).
Proof.
  intros H. rewrite last_n_map. apply py_sum_nonneg, Forall_map.
  apply Forall_forall. intros d _. apply H.
Qed.

(** For a positive period the list RSI never raises. *)
Lemma simple_rsi_total (prices : list Q) (period : nat) :
  (1 <= period)%nat ->
  exists v, SimpleTechnicalIndicators.rsi prices period = Ok v.
Proof.
  intros Hp. destruct (decide (length prices < period + 1)%nat) as [Hs|Hl].
  - exists 50. now apply simple_rsi_short.
  - rewrite simple_rsi_long by lia. cbv zeta.
    set (g := py_sum (last_n period (map gain_of (deltas prices)))).
    set (l := py_sum (last_n period (map loss_of (deltas prices)))).
    assert (Hg : 0 <= g) by apply (py_sum_last_n_nonneg gain_of), gain_of_nonneg.
    assert (Hl0 : 0 <= l) by apply (py_sum_last_n_nonneg loss_of), loss_of_nonneg.
    assert (Hn : 0 < Qnat period).
    { unfold Qnat, Qlt. simpl. lia. }
    destruct (Qeq_bool (l / Qnat period) 0) eqn:E; [eauto|].
    apply Qeq_bool_false in E.
    assert (Hl1 : 0 < l / Qnat period).
    { assert (0 <= l / Qnat period) by (apply Qle_shift_div_l; lra). lra. }
    assert (Hg1 : 0 <= g / Qnat period) by (apply Qle_shift_div_l; lra).
    unfold py_div, mbind, result_bind.
    destruct (Qeq_bool (l / Qnat period) 0) eqn:E1;
      [apply Qeq_bool_iff in E1; contradiction|].
    assert (Hrs : 0 <= g / Qnat period / (l / Qnat period))
      by (apply Qle_shift_div_l; lra).
    destruct (Qeq_bool (1 + g / Qnat period / (l / Qnat period)) 0) eqn:E2;
      [apply Qeq_bool_iff in E2; lra|].
    eauto.
Qed.

(** A period of 0 does divide by zero: [prices[-0:]] is the whole list and
    its sum is divided by the period. *)
Lemma simple_rsi_zero_period :
  SimpleTechnicalIndicators.rsi [1] 0 = Raise ZeroDivisionError.
Proof. reflexivity. Qed.

Lemma fsum_Fin (l : list Q) : fsum (map Fin l) = Fin (py_sum l).
Proof.
  unfold fsum, py_sum. generalize 0.
  induction l as [|x l IH]; intros a; simpl; [reflexivity|]. apply IH.
Qed.

Lemma mean_Fin (w : list Q) :
  w <> [] ->
  TechnicalIndicators.mean (map Fin w) = Fin (py_sum w / Qnat (length w)).
Proof.
  intros Hw. unfold TechnicalIndicators.mean. rewrite fsum_Fin, length_map.
  simpl. rewrite Qnat_nonzero; [reflexivity|].
  destruct w; [contradiction|simpl; lia].
Qed.

Lemma diff_Fin (p : Q) (tl : list Q) :
  TechnicalIndicators.diff (map Fin (p :: tl))
    = NaN :: map Fin (deltas (p :: tl)).
Proof.
  unfold TechnicalIndicators.diff, deltas. simpl. f_equal.
  generalize p. induction tl as [|x tl IH]; intros a; simpl; [reflexivity|].
  f_equal. apply IH.
Qed.

(** The two series that the rolling means of [rsi] run over. *)
Lemma gains_Fin (prices : list Q) :
  exists gs,
    TechnicalIndicators.where_ (fun d => fgtb d (Fin 0)) (Fin 0)
      (TechnicalIndicators.diff (map Fin prices)) = map Fin gs /\
    Forall2 Qeq gs (map (fun d => Qmax d 0) (changes prices)).
Proof.
  destruct prices as [|p tl]; [exists []; split; [reflexivity|constructor]|].
  rewrite diff_Fin. unfold changes.
  exists (0 :: map (fun d => if Qltb 0 d then d else 0) (deltas (p :: tl))).
  split.
  - unfold TechnicalIndicators.where_. simpl. f_equal.
    rewrite !map_map. apply map_ext. intros d. unfold fgtb. simpl.
    now destruct (Qltb 0 d).
  - simpl. constructor; [symmetry; apply Q.max_l; lra|].
    induction (deltas (p :: tl)) as [|d l IH]; simpl; constructor; [|exact IH].
    destruct (Qltb 0 d) eqn:E.
    + apply Qltb_lt in E. symmetry. apply Q.max_l. lra.
    + apply Qltb_ge in E. symmetry. apply Q.max_r. exact E.
Qed.

Lemma losses_Fin (prices : list Q) :
  exists ls,
    map fneg (TechnicalIndicators.where_ (fun d => fltb d (Fin 0)) (Fin 0)
                (TechnicalIndicators.diff (map Fin prices))) = map Fin ls /\
    Forall2 Qeq ls (map (fun d => Qmax (- d) 0) (changes prices)).
Proof.
  destruct prices as [|p tl]; [exists []; split; [reflexivity|constructor]|].
  rewrite diff_Fin. unfold changes.
  exists (- 0 :: map (fun d => - (if Qltb d 0 then d else 0)) (deltas (p :: tl))).
  split.
  - unfold TechnicalIndicators.where_. simpl. f_equal.
    rewrite !map_map. apply map_ext. intros d. simpl.
    now destruct (Qltb d 0).
  - simpl. constructor; [symmetry; apply Q.max_r; lra|].
    induction (deltas (p :: tl)) as [|d l IH]; simpl; constructor; [|exact IH].
    destruct (Qltb d 0) eqn:E.
    + apply Qltb_lt in E. symmetry. apply Q.max_l. lra.
    + apply Qltb_ge in E. rewrite Q.max_r by lra. lra.
Qed.

Lemma length_changes (prices : list Q) : length (changes prices) = length prices.
Proof.
  destruct prices as [|p tl]; [reflexivity|]. unfold changes. simpl.
  pose proof (length_deltas (p :: tl)) as H. simpl in H. lia.
Qed.

(** A rolling mean over a series of finite numbers, at a row whose window is
    full. *)
Lemma rolling_mean_Fin (xs ys : list Q) (period i : nat) :
  (1 <= period)%nat -> (period <= i + 1)%nat -> (i < length xs)%nat ->
  Forall2 Qeq xs ys ->
  exists m,
    TechnicalIndicators.rolling period TechnicalIndicators.mean (map Fin xs) !! i
      = Some (Fin m) /\
    m == py_sum (take period (drop (i + 1 - period) ys)) / Qnat period.
Proof.
  intros Hp Hi Hlen Heq.
  rewrite rolling_lookup by now rewrite length_map.
  assert (El : Nat.ltb (i + 1) period = false) by (apply Nat.ltb_ge; lia).
  rewrite El.
  change (map Fin xs) with (Fin <$> xs).
  rewrite <- fmap_drop, <- fmap_take.
  set (w := take period (drop (i + 1 - period) xs)).
  assert (Hw : length w = period).
  { unfold w. rewrite length_take, length_drop. lia. }
  change (Fin <$> w) with (map Fin w).
  rewrite mean_Fin by (intros E; rewrite E in Hw; simpl in Hw; lia).
  eexists. split; [reflexivity|]. rewrite Hw.
  assert (Hs : py_sum w == py_sum (take period (drop (i + 1 - period) ys))).
  { apply py_sum_ext. unfold w. now apply Forall2_take, Forall2_drop. }
  now rewrite Hs.
Qed.

Lemma pandas_rsi_gain_loss (prices : list Q) (period i : nat) :
  (1 <= period)%nat -> (period <= i + 1)%nat -> (i < length prices)%nat ->
  exists g l,
    TechnicalIndicators.avg_gain (map Fin prices) period !! i = Some (Fin g) /\
    TechnicalIndicators.avg_loss (map Fin prices) period !! i = Some (Fin l) /\
    g == rolling_gain prices period i /\ l == rolling_loss prices period i.
Proof.
  intros Hp Hi Hlen.
  destruct (gains_Fin prices) as (gs & Eg & Hg).
  destruct (losses_Fin prices) as (ls & El & Hl).
  assert (Lg : length gs = length prices).
  { apply Forall2_length in Hg. now rewrite Hg, length_map, length_changes. }
  assert (Ll : length ls = length prices).
  { apply Forall2_length in Hl. now rewrite Hl, length_map, length_changes. }
  unfold TechnicalIndicators.avg_gain, TechnicalIndicators.avg_loss. cbv zeta.
  rewrite Eg, El.
  destruct (rolling_mean_Fin gs _ period i Hp Hi ltac:(lia) Hg) as (g & Eg' & Hgq).
  destruct (rolling_mean_Fin ls _ period i Hp Hi ltac:(lia) Hl) as (l & El' & Hlq).
  exists g, l. split; [exact Eg'|]. split; [exact El'|].
  unfold rolling_gain, rolling_loss, trailing_changes.
  change (map ?f ?x) with (f <$> x) in *.
  rewrite !fmap_take, !fmap_drop. auto.
Qed.

Lemma rolling_gain_nonneg (prices : list Q) (period i : nat) :
  (1 <= period)%nat -> 0 <= rolling_gain prices period i.
Proof.
  intros Hp. unfold rolling_gain. apply Qle_shift_div_l; [now apply Qnat_pos|].
  rewrite Qmult_0_l. apply py_sum_nonneg. apply Forall_forall. intros x Hx.
  apply list_elem_of_In, in_map_iff in Hx as (d & <- & _). apply Q.le_max_r.
Qed.

Lemma rolling_loss_nonneg (prices : list Q) (period i : nat) :
  (1 <= period)%nat -> 0 <= rolling_loss prices period i.
Proof.
  intros Hp. unfold rolling_loss. apply Qle_shift_div_l; [now apply Qnat_pos|].
  rewrite Qmult_0_l. apply py_sum_nonneg. apply Forall_forall. intros x Hx.
  apply list_elem_of_In, in_map_iff in Hx as (d & <- & _). apply Q.le_max_r.
Qed.

(** The three values of [100 - 100 / (1 + gain / loss)] on finite numbers,
    the gain not negative. *)
Lemma rsi_value_cases (g l : Q) :
  0 <= g -> 0 <= l ->
  (l == 0 -> 0 < g -> feq (rsi_value (Fin g) (Fin l)) (Fin 100)) /\
  (l == 0 -> g == 0 -> rsi_value (Fin g) (Fin l) = NaN) /\
  (0 < l ->
   feq (rsi_value (Fin g) (Fin l)) (Fin (100 - 100 / (1 + g / l)))).
Proof.
  intros Hg Hl. unfold rsi_value. split_and!.
  - intros El Hpos. apply Qeq_bool_iff in El. simpl. rewrite El.
    unfold inf_signed. apply Qgt_alt in Hpos. rewrite Hpos. simpl. lra.
  - intros El Eg. apply Qeq_bool_iff in El. simpl. rewrite El.
    unfold inf_signed. apply Qeq_alt in Eg. now rewrite Eg.
  - intros Hpos. simpl.
    assert (El : Qeq_bool l 0 = false) by (apply Qeq_bool_false; lra).
    rewrite El. simpl.
    assert (Hq : 0 <= g / l) by (apply Qle_shift_div_l; lra).
    assert (E1 : Qeq_bool (1 + g / l) 0 = false) by (apply Qeq_bool_false; lra).
    rewrite E1. simpl. reflexivity.
Qed.

Lemma rolling_loss_last (prices : list Q) (period : nat) :
  (1 <= period)%nat -> (period + 1 <= length prices)%nat ->
  rolling_loss prices period (length prices - 1) = average_loss prices period.
Proof.
  intros Hp Hn. unfold rolling_loss, average_loss, trailing_changes.
  destruct prices as [|p tl]; [simpl in Hn; lia|]. unfold changes, last_n.
  pose proof (length_deltas (p :: tl)) as Hd. simpl length in *.
  destruct (Nat.eqb_spec period 0) as [|_]; [lia|].
  replace (S (length tl) - 1 + 1 - period)%nat
    with (S (length (deltas (p :: tl)) - period)) by lia.
  simpl drop. rewrite take_ge; [reflexivity|]. rewrite length_drop. lia.
Qed.

(** The value of the pandas RSI at a row whose window is full. *)
Lemma pandas_rsi_value (prices : list Q) (period i : nat) :
  (1 <= period)%nat -> (period <= i + 1)%nat -> (i < length prices)%nat ->
  exists v,
    TechnicalIndicators.rsi (map Fin prices) period !! i = Some v /\
    (rolling_loss prices period i == 0 -> 0 < rolling_gain prices period i ->
     feq v (Fin 100)) /\
    (rolling_loss prices period i == 0 -> rolling_gain prices period i == 0 ->
     v = NaN) /\
    (0 < rolling_loss prices period i ->
     feq v (Fin (100 - 100 / (1 + rolling_gain prices period i
                                  / rolling_loss prices period i)))).
Proof.
  intros Hp Hi Hlen.
  destruct (pandas_rsi_gain_loss prices period i Hp Hi Hlen)
    as (g & l & Eg & El & Hg & Hl).
  pose proof (rolling_gain_nonneg prices period i Hp) as Hg0.
  pose proof (rolling_loss_nonneg prices period i Hp) as Hl0.
  rewrite <- Hg in Hg0. rewrite <- Hl in Hl0.
  destruct (rsi_value_cases g l Hg0 Hl0) as (H1 & H2 & H3).
  exists (rsi_value (Fin g) (Fin l)). split; [now apply rsi_lookup|].
  split_and!.
  - intros A B. apply H1; [now rewrite Hl|now rewrite Hg].
  - intros A B. apply H2; [now rewrite Hl|now rewrite Hg].
  - intros A. rewrite <- Hl in A. specialize (H3 A).
    destruct (rsi_value (Fin g) (Fin l)) as [q| | |]; simpl in *; try contradiction.
    rewrite H3, Hg, Hl. reflexivity.
Qed.

Lemma py_sum_pos (l : list Q) :
  l <> [] -> Forall (fun x => 0 < x) l -> 0 < py_sum l.
Proof.
  induction l as [|x l IH] using rev_ind; [contradiction|]. intros _ H.
  rewrite py_sum_app. apply Forall_app in H as (Hl & Hx).
  apply Forall_inv in Hx.
  assert (0 <= py_sum l).
  { apply py_sum_nonneg. eapply Forall_impl; [exact Hl|]. intros y Hy.
    simpl in Hy. lra. }
  lra.
Qed.

Lemma trailing_changes_last (prices : list Q) (period : nat) :
  (1 <= period)%nat -> (period + 1 <= length prices)%nat ->
  trailing_changes prices period (length prices - 1)
    = last_n period (deltas prices).
Proof.
  intros Hp Hn. unfold trailing_changes.
  destruct prices as [|p tl]; [simpl in Hn; lia|]. unfold changes, last_n.
  pose proof (length_deltas (p :: tl)) as Hd. simpl length in *.
  destruct (Nat.eqb_spec period 0) as [|_]; [lia|].
  replace (S (length tl) - 1 + 1 - period)%nat
    with (S (length (deltas (p :: tl)) - period)) by lia.
  simpl drop. rewrite take_ge; [reflexivity|]. rewrite length_drop. lia.
Qed.

Lemma increasing_gain (prices : list Q) (period : nat) :
  (1 <= period)%nat -> (period + 1 <= length prices)%nat ->
  strictly_increasing prices ->
  0 < rolling_gain prices period (length prices - 1).
Proof.
  intros Hp Hn Hinc. unfold rolling_gain.
  rewrite trailing_changes_last by assumption.
  apply Qlt_shift_div_l; [now apply Qnat_pos|]. rewrite Qmult_0_l.
  pose proof (length_deltas prices) as Hd.
  apply py_sum_pos.
  - intros E. apply (f_equal length) in E. rewrite length_map in E.
    unfold last_n in E. destruct (Nat.eqb_spec period 0) as [|_]; [lia|].
    rewrite length_drop in E. simpl in E. lia.
  - apply Forall_map. apply Forall_forall. intros d Hd'.
    assert (Hin : d ∈ deltas prices).
    { unfold last_n in Hd'. destruct (Nat.eqb period 0); [exact Hd'|].
      eapply subseteq_drop; exact Hd'. }
    apply list_elem_of_lookup in Hin as (i & Hi).
    unfold deltas in Hi.
    apply lookup_zip_with_Some in Hi as (a & b & -> & Ha & Hb).
    rewrite lookup_tail in Hb. pose proof (Hinc i a b Ha Hb).
    simpl. rewrite Q.max_l; lra.
Qed.

(** C7 (as it fails on [TechnicalIndicators.rsi]). The pandas RSI has no
    guard: on three points with period 14 its last value is NaN and not 50,
    and on fifteen equal points (whose average loss is 0) it is NaN and not
    100. *)
Lemma pandas_rsi_has_no_guard :
  (length [Fin 1; Fin 2; Fin 3] < 14 + 1)%nat /\
  iloc_neg (TechnicalIndicators.rsi [Fin 1; Fin 2; Fin 3] 14) 1 = Ok NaN /\
  NaN <> Fin 50 /\
  (exists l,
     iloc_neg (TechnicalIndicators.avg_loss (replicate 15 (Fin 1)) 14) 1 = Ok l /\
     feq l (Fin 0)) /\
  iloc_neg (TechnicalIndicators.rsi (replicate 15 (Fin 1)) 14) 1 = Ok NaN /\
  NaN <> Fin 100.
Proof.
  split; [simpl; lia|]. split; [vm_compute; reflexivity|].
  split; [discriminate|]. split.
  - eexists. split; [vm_compute; reflexivity|]. reflexivity.
  - split; [vm_compute; reflexivity|discriminate].
Qed.

(** The last value of the pandas RSI on a series long enough for the
    claim: the rolling loss there is the average loss over the trailing
    [period] deltas. *)
Lemma pandas_rsi_last (prices : list Q) (period : nat) :
  (1 <= period)%nat -> (period + 1 <= length prices)%nat ->
  exists v,
    iloc_neg (TechnicalIndicators.rsi (map Fin prices) period) 1 = Ok v /\
    (average_loss prices period == 0 ->
     0 < rolling_gain prices period (length prices - 1) -> feq v (Fin 100)) /\
    (average_loss prices period == 0 ->
     rolling_gain prices period (length prices - 1) == 0 -> v = NaN) /\
    (0 < average_loss prices period ->
     feq v (Fin (100 - 100 / (1 + rolling_gain prices period (length prices - 1)
                                  / average_loss prices period)))).
Proof.
  intros Hp Hn.
  destruct (pandas_rsi_value prices period (length prices - 1) Hp)
    as (v & Ev & H1 & H2 & H3); [lia|lia|].
  rewrite (rolling_loss_last prices period Hp Hn) in H1, H2, H3.
  exists v. split; [|auto].
  apply iloc_neg_lookup; rewrite rsi_length, length_map; [lia|exact Ev].
Qed.

(** C7, amended. [SimpleTechnicalIndicators.rsi] returns 50 for a series
    with fewer than [period + 1] points and, for a period of at least 1,
    returns 100 for a longer series whose average loss over the trailing
    [period] deltas is 0 (a strictly increasing series is one) and never
    raises.  [TechnicalIndicators.rsi] has no such guard.  Its value is NaN
    at every row where the rolling window of [period] values is not full.
    At every other row of a series of finite prices it is
    [100 - 100 / (1 + gain / loss)] in float64 arithmetic, [gain] and [loss]
    being the averages of the rises and of the falls over the [period]
    changes that end at the row (the first row counting as no change):
    100 when the average loss is 0 and the average gain is positive, NaN
    when both are 0, and the finite number of the formula otherwise.  On a
    series of at least [period + 1] points its last value is therefore 100
    when the series is strictly increasing, and 100 or NaN whenever the
    average loss over the trailing [period] deltas is 0. *)
Theorem rsi_spec :
  (forall prices period,
     (length prices < period + 1)%nat ->
     SimpleTechnicalIndicators.rsi prices period = Ok 50) /\
  (forall prices period,
     (1 <= period)%nat -> (period + 1 <= length prices)%nat ->
     average_loss prices period == 0 ->
     SimpleTechnicalIndicators.rsi prices period = Ok 100) /\
  (forall prices period,
     (1 <= period)%nat -> (period + 1 <= length prices)%nat ->
     strictly_increasing prices ->
     SimpleTechnicalIndicators.rsi prices period = Ok 100) /\
  (forall prices period,
     (1 <= period)%nat ->
     exists v, SimpleTechnicalIndicators.rsi prices period = Ok v) /\
  (forall data period i,
     (i < length data)%nat -> (i + 1 < period)%nat ->
     TechnicalIndicators.rsi data period !! i = Some NaN) /\
  (forall data period i gain loss,
     TechnicalIndicators.avg_gain data period !! i = Some gain ->
     TechnicalIndicators.avg_loss data period !! i = Some loss ->
     TechnicalIndicators.rsi data period !! i = Some (rsi_value gain loss)) /\
  (forall x, 0 < x -> feq (rsi_value (Fin x) (Fin 0)) (Fin 100)) /\
  rsi_value (Fin 0) (Fin 0) = NaN /\
  (forall prices period i,
     (1 <= period)%nat -> (period <= i + 1)%nat -> (i < length prices)%nat ->
     exists g l,
       TechnicalIndicators.avg_gain (map Fin prices) period !! i
         = Some (Fin g) /\
       TechnicalIndicators.avg_loss (map Fin prices) period !! i
         = Some (Fin l) /\
       g == rolling_gain prices period i /\
       l == rolling_loss prices period i) /\
  (forall prices period i,
     (1 <= period)%nat -> (period <= i + 1)%nat -> (i < length prices)%nat ->
     exists v,
       TechnicalIndicators.rsi (map Fin prices) period !! i = Some v /\
       (rolling_loss prices period i == 0 ->
        0 < rolling_gain prices period i -> feq v (Fin 100)) /\
       (rolling_loss prices period i == 0 ->
        rolling_gain prices period i == 0 -> v = NaN) /\
       (0 < rolling_loss prices period i ->
        feq v (Fin (100 - 100 / (1 + rolling_gain prices period i
                                     / rolling_loss prices period i))))) /\
  (forall prices period,
     (1 <= period)%nat -> (period + 1 <= length prices)%nat ->
     exists v,
       iloc_neg (TechnicalIndicators.rsi (map Fin prices) period) 1 = Ok v /\
       (strictly_increasing prices -> feq v (Fin 100)) /\
       (average_loss prices period == 0 -> feq v (Fin 100) \/ v = NaN) /\
       (average_loss prices period == 0 ->
        (v = NaN <-> rolling_gain prices period (length prices - 1) == 0))).
Proof.
  split_and!.
  - apply simple_rsi_short.
  - apply simple_rsi_no_loss.
  - intros prices period Hp Hl Hinc. apply simple_rsi_no_loss; auto.
    now apply increasing_no_loss.
  - apply simple_rsi_total.
  - apply rsi_window_not_full.
  - apply rsi_lookup.
  - apply rsi_value_no_loss.
  - apply rsi_value_flat.
  - apply pandas_rsi_gain_loss.
  - apply pandas_rsi_value.
  - intros prices period Hp Hn.
    destruct (pandas_rsi_last prices period Hp Hn) as (v & Ev & H1 & H2 & _).
    pose proof (rolling_gain_nonneg prices period (length prices - 1) Hp) as Hg.
    exists v. split; [exact Ev|]. split_and!.
    + intros Hinc. apply H1; [now apply increasing_no_loss|].
      now apply increasing_gain.
    + intros Hl.
      destruct (Qlt_le_dec 0 (rolling_gain prices period (length prices - 1)))
        as [Hpos|Hle]; [left; now apply H1|right; apply H2; [exact Hl|lra]].
    + intros Hl. split.
      * intros ->.
        destruct (Qlt_le_dec 0 (rolling_gain prices period (length prices - 1)))
          as [Hpos|Hle]; [|lra].
        destruct (H1 Hl Hpos).
      * intros Hz. now apply H2.
Qed.

Lemma rising_prices_increasing : strictly_increasing rising_prices.
Proof.
  intros i a b Ha Hb. unfold rising_prices in *.
  do 15 (destruct i as [|i];
         [vm_compute in Ha, Hb; try discriminate Hb;
          injection Ha as <-; injection Hb as <-; reflexivity|]).
  discriminate Ha.
Qed.

Lemma rsi_spec_witness :
  SimpleTechnicalIndicators.rsi [1; 2; 3] 14 = Ok 50 /\
  SimpleTechnicalIndicators.rsi (replicate 15 1) 14 = Ok 100 /\
  SimpleTechnicalIndicators.rsi rising_prices 14 = Ok 100 /\
  (exists v, SimpleTechnicalIndicators.rsi [3; 1; 2] 2 = Ok v) /\
  TechnicalIndicators.rsi rising_series 14 !! 2%nat = Some NaN /\
  TechnicalIndicators.rsi rising_series 14 !! 14%nat
    = Some (rsi_value (Fin (14 / 14)) (Fin (0 / 14))) /\
  feq (rsi_value (Fin 1) (Fin 0)) (Fin 100) /\
  (exists v,
     TechnicalIndicators.rsi (map Fin [3; 1; 2; 5]) 2 !! 2%nat = Some v /\
     feq v (Fin (100 - 100 / (1 + (1 # 2) / 1)))) /\
  (exists v,
     iloc_neg (TechnicalIndicators.rsi (map Fin rising_prices) 14) 1 = Ok v /\
     feq v (Fin 100)).
Proof.
  destruct rsi_spec as (H1 & H2 & H3 & H4 & H5 & H6 & H7 & _ & _ & H10 & H11).
  split_and!.
  - apply H1. simpl. lia.
  - apply H2; [lia | simpl; lia | reflexivity].
  - apply H3; [lia | simpl; lia | apply rising_prices_increasing].
  - apply H4. lia.
  - apply H5; simpl; lia.
  - apply H6; vm_compute; reflexivity.
  - apply H7. reflexivity.
  - destruct (H10 [3; 1; 2; 5] 2%nat 2%nat) as (v & Ev & _ & _ & Hv);
      [lia|lia|simpl; lia|].
    exists v. split; [exact Ev|].
    assert (Hl : 0 < rolling_loss [3; 1; 2; 5] 2 2) by reflexivity.
    specialize (Hv Hl). destruct v as [q| | |]; simpl in *; try contradiction.
    rewrite Hv. reflexivity.
  - destruct (H11 rising_prices 14%nat) as (v & Ev & Hv & _);
      [lia|simpl; lia|].
    exists v. split; [exact Ev|]. apply Hv. apply rising_prices_increasing.
Defined.

(** ** Strategies *)

Lemma hold_signal_insufficient : insufficient_data (hold_signal "Insufficient data").
Proof. repeat split. Qed.

Lemma hold_signal_direction (reason : string) :
  hold_signal reason !! "signal"%string = Some HOLD.
Proof. reflexivity. Qed.

Lemma trade_signal_lookup (direction : pyval) (c : Q) (reason : string)
    (entry stop take : pyval) :
  let sig := trade_signal direction c reason entry stop take in
  sig !! "signal"%string = Some direction /\
  sig !! "entry_price"%string = Some entry /\
  sig !! "stop_loss"%string = Some stop.
Proof. repeat split. Qed.

Lemma hold_signal_losing_side (reason : string) :
  stop_on_losing_side (hold_signal reason).
Proof.
  unfold stop_on_losing_side. rewrite hold_signal_direction.
  split_and!; [discriminate|discriminate|auto].
Qed.

Lemma buy_signal_losing_side (c : Q) (reason : string) (e s : Q) (take : pyval) :
  s < e ->
  stop_on_losing_side (trade_signal BUY c reason (PNum e) (PNum s) take).
Proof.
  intros H. unfold stop_on_losing_side.
  destruct (trade_signal_lookup BUY c reason (PNum e) (PNum s) take)
    as (-> & -> & ->).
  split_and!; [eauto|discriminate|auto].
Qed.

Lemma sell_signal_losing_side (c : Q) (reason : string) (e s : Q) (take : pyval) :
  e < s ->
  stop_on_losing_side (trade_signal SELL c reason (PNum e) (PNum s) take).
Proof.
  intros H. unfold stop_on_losing_side.
  destruct (trade_signal_lookup SELL c reason (PNum e) (PNum s) take)
    as (-> & -> & ->).
  split_and!; [discriminate|eauto|auto].
Qed.

Lemma column_length (f : Bar -> Q) (data : list Bar) :
  length (column f data) = length data.
Proof. apply length_map. Qed.

Lemma column_iloc (f : Bar -> Q) (data : list Bar) (k : nat) (x : fnum) :
  iloc_neg (column f data) k = Ok x ->
  exists b, b ∈ data /\ x = Fin (f b).
Proof.
  unfold iloc_neg. destruct (Nat.ltb _ _); [discriminate|].
  destruct (column f data !! _) as [y|] eqn:E; [|discriminate].
  intros [= <-]. unfold column in E.
  change (map (fun b => Fin (f b)) data) with ((fun b => Fin (f b)) <$> data) in E.
  apply list_lookup_fmap_Some in E as (b & -> & Hb).
  exists b. split; [|reflexivity]. now apply list_elem_of_lookup_2 in Hb.
Qed.

Lemma positive_close (data : list Bar) (b : Bar) :
  positive_bars data -> b ∈ data -> 0 < Close b.
Proof.
  intros H Hb. unfold positive_bars in H. rewrite Forall_forall in H.
  now destruct (H b Hb) as (_ & _ & _ & ?).
Qed.

Ltac run_binds := unfold mbind, result_bind; cbv beta iota.

(** What [TrendFollowingStrategy.generate_signal] can return. *)
Lemma TrendFollowing_cases (data : list Bar) :
  ((length data < 30)%nat /\
   TrendFollowingStrategy.generate_signal data
     = Ok (hold_signal "Insufficient data")) \/
  ((30 <= length data)%nat /\
   ((exists b, b ∈ data /\
      TrendFollowingStrategy.generate_signal data
        = Ok (trade_signal BUY 0.7 "Golden cross detected" (PNum (Close b))
                (PNum (Close b * 0.98)) (PNum (Close b * 1.04)))) \/
    (exists b, b ∈ data /\
      TrendFollowingStrategy.generate_signal data
        = Ok (trade_signal SELL 0.7 "Death cross detected" (PNum (Close b))
                (PNum (Close b * 1.02)) (PNum (Close b * 0.96)))) \/
    TrendFollowingStrategy.generate_signal data
      = Ok (hold_signal "No clear trend signal"))).
Proof.
  unfold TrendFollowingStrategy.generate_signal,
    TrendFollowingStrategy.long_ma_period, TrendFollowingStrategy.short_ma_period.
  destruct (Nat.ltb (length data) 30) eqn:E.
  { left. apply Nat.ltb_lt in E. auto. }
  right. apply Nat.ltb_ge in E. split; [exact E|]. cbv zeta.
  assert (Hlen : forall w, length (TechnicalIndicators.sma (column Close data) w)
                           = length data).
  { intros w. unfold TechnicalIndicators.sma.
    now rewrite rolling_length, column_length. }
  destruct (iloc_neg_ok (TechnicalIndicators.sma (column Close data) 10) 1)
    as (cs & Hcs); [rewrite Hlen; lia|].
  destruct (iloc_neg_ok (TechnicalIndicators.sma (column Close data) 30) 1)
    as (cl & Hcl); [rewrite Hlen; lia|].
  destruct (iloc_neg_ok (TechnicalIndicators.sma (column Close data) 10) 2)
    as (ps & Hps); [rewrite Hlen; lia|].
  destruct (iloc_neg_ok (TechnicalIndicators.sma (column Close data) 30) 2)
    as (pl & Hpl); [rewrite Hlen; lia|].
  destruct (iloc_neg_ok (column Close data) 1) as (last & Hlast);
    [rewrite column_length; lia|].
  destruct (column_iloc Close data 1 last Hlast) as (b & Hb & ->).
  rewrite Hcs, Hcl, Hps, Hpl, Hlast. run_binds.
  destruct (fleb ps pl && fgtb cs cl).
  { left. exists b. split; [exact Hb|reflexivity]. }
  destruct (fgeb ps pl && fltb cs cl).
  { right; left. exists b. split; [exact Hb|reflexivity]. }
  right; right. reflexivity.
Qed.

(** What [MeanReversionStrategy.generate_signal] can return. *)
Lemma MeanReversion_cases (fmt : nat -> fnum -> string) (sqrt : Q -> Q)
    (data : list Bar) :
  ((length data < 20)%nat /\
   MeanReversionStrategy.generate_signal fmt sqrt data
     = Ok (hold_signal "Insufficient data")) \/
  ((20 <= length data)%nat /\
   ((exists b reason take, b ∈ data /\
      MeanReversionStrategy.generate_signal fmt sqrt data
        = Ok (trade_signal BUY 0.8 reason (PNum (Close b))
                (PNum (Close b * 0.97)) take)) \/
    (exists b reason take, b ∈ data /\
      MeanReversionStrategy.generate_signal fmt sqrt data
        = Ok (trade_signal SELL 0.8 reason (PNum (Close b))
                (PNum (Close b * 1.03)) take)) \/
    MeanReversionStrategy.generate_signal fmt sqrt data
      = Ok (hold_signal "No mean reversion signal"))).
Proof.
  unfold MeanReversionStrategy.generate_signal, MeanReversionStrategy.rsi_period,
    MeanReversionStrategy.bb_period.
  change (Nat.max 14 20) with 20%nat.
  destruct (Nat.ltb (length data) 20) eqn:E.
  { left. apply Nat.ltb_lt in E. auto. }
  right. apply Nat.ltb_ge in E. split; [exact E|].
  unfold TechnicalIndicators.bollinger_bands. cbv zeta beta iota.
  set (close := column Close data).
  assert (Hc : length close = length data) by apply column_length.
  set (sma := TechnicalIndicators.sma close 20).
  set (dev := map (fun x => fmul x (Fin 2))
                (TechnicalIndicators.rolling 20 (TechnicalIndicators.std sqrt) close)).
  assert (Hsma : length sma = length data).
  { unfold sma, TechnicalIndicators.sma. now rewrite rolling_length. }
  assert (Hdev : length dev = length data).
  { unfold dev. now rewrite length_map, rolling_length. }
  destruct (iloc_neg_ok (TechnicalIndicators.rsi close 14) 1) as (r & Hr);
    [rewrite rsi_length; lia|].
  destruct (iloc_neg_ok close 1) as (price & Hp); [lia|].
  destruct (iloc_neg_ok (zip_with fadd sma dev) 1) as (up & Hup);
    [rewrite length_zip_with; lia|].
  destruct (iloc_neg_ok (zip_with fsub sma dev) 1) as (lo & Hlo);
    [rewrite length_zip_with; lia|].
  destruct (iloc_neg_ok sma 1) as (mid & Hmid); [lia|].
  destruct (column_iloc Close data 1 price Hp) as (b & Hb & ->).
  rewrite Hr, Hp, Hup, Hlo, Hmid. run_binds.
  destruct (fltb r (Fin MeanReversionStrategy.rsi_oversold) && _).
  { left. exists b. eexists _, _. split; [exact Hb|reflexivity]. }
  destruct (fgtb r (Fin MeanReversionStrategy.rsi_overbought) && _).
  { right; left. exists b. eexists _, _. split; [exact Hb|reflexivity]. }
  right; right. reflexivity.
Qed.

Lemma series_fold_in (f : Bar -> Q) (pick : fnum -> fnum -> bool)
    (tl : list Bar) :
  forall a,
  exists b, b ∈ a :: tl /\
    foldl (fun m y => if pick y m then y else m) (Fin (f a)) (column f tl)
      = Fin (f b).
Proof.
  induction tl as [|x tl IH]; intros a; simpl.
  - exists a. split; [set_solver|reflexivity].
  - destruct (pick (Fin (f x)) (Fin (f a))).
    + destruct (IH x) as (b & Hb & ->). exists b. split; [set_solver|reflexivity].
    + destruct (IH a) as (b & Hb & ->). exists b. split; [set_solver|reflexivity].
Qed.

Lemma series_max_column (f : Bar -> Q) (l : list Bar) :
  l <> [] -> exists b, b ∈ l /\ series_max (column f l) = Fin (f b).
Proof.
  destruct l as [|a tl]; [contradiction|]. intros _.
  apply (series_fold_in f (fun y m => fgtb y m)).
Qed.

Lemma series_min_column (f : Bar -> Q) (l : list Bar) :
  l <> [] -> exists b, b ∈ l /\ series_min (column f l) = Fin (f b).
Proof.
  destruct l as [|a tl]; [contradiction|]. intros _.
  apply (series_fold_in f (fun y m => fltb y m)).
Qed.

Lemma last_n_subseteq {A : Type} (n : nat) (l : list A) : last_n n l ⊆ l.
Proof.
  unfold last_n. destruct (Nat.eqb n 0); [reflexivity|apply subseteq_drop].
Qed.

Lemma last_n_nonempty {A : Type} (n : nat) (l : list A) :
  l <> [] -> last_n n l <> [].
Proof.
  intros Hl. unfold last_n. destruct (Nat.eqb_spec n 0) as [|Hn]; [exact Hl|].
  intros H. apply (f_equal length) in H. rewrite length_drop in H. simpl in H.
  destruct l; [contradiction|]. simpl in H. lia.
Qed.

(** What [BreakoutStrategy.generate_signal] can return. *)
Lemma Breakout_cases (fmt : nat -> fnum -> string) (data : list Bar) :
  ((length data < 20)%nat /\
   BreakoutStrategy.generate_signal fmt data
     = Ok (hold_signal "Insufficient data")) \/
  ((20 <= length data)%nat /\
   ((exists b h reason take, b ∈ data /\ h ∈ data /\
      High h * 1.001 < Close b /\
      BreakoutStrategy.generate_signal fmt data
        = Ok (trade_signal BUY 0.75 reason (PNum (Close b))
                (PNum (High h * 0.999)) take)) \/
    (exists b l reason take, b ∈ data /\ l ∈ data /\
      Close b < Low l * 0.999 /\
      BreakoutStrategy.generate_signal fmt data
        = Ok (trade_signal SELL 0.75 reason (PNum (Close b))
                (PNum (Low l * 1.001)) take)) \/
    BreakoutStrategy.generate_signal fmt data
      = Ok (hold_signal "No breakout signal"))).
Proof.
  unfold BreakoutStrategy.generate_signal, BreakoutStrategy.lookback_period.
  destruct (Nat.ltb (length data) 20) eqn:E.
  { left. apply Nat.ltb_lt in E. auto. }
  right. apply Nat.ltb_ge in E. split; [exact E|]. cbv zeta.
  assert (Hne : last_n 20 data <> []).
  { apply last_n_nonempty. intros ->. simpl in E. lia. }
  destruct (series_max_column High _ Hne) as (h & Hh & ->).
  destruct (series_min_column Low _ Hne) as (l & Hl & ->).
  apply last_n_subseteq in Hh, Hl.
  destruct (iloc_neg_ok (column Close data) 1) as (price & Hp);
    [rewrite column_length; lia|].
  destruct (column_iloc Close data 1 price Hp) as (b & Hb & ->).
  rewrite Hp. run_binds. simpl fmul. unfold fgtb, fltb.
  destruct (Qltb (High h * 1.001) (Close b)) eqn:Eb.
  { left. exists b, h. eexists _, _. apply Qltb_lt in Eb.
    split_and!; [exact Hb|exact Hh|exact Eb|reflexivity]. }
  destruct (Qltb (Close b) (Low l * 0.999)) eqn:Es.
  { right; left. exists b, l. eexists _, _. apply Qltb_lt in Es.
    split_and!; [exact Hb|exact Hl|exact Es|reflexivity]. }
  right; right. reflexivity.
Qed.

(** C5. On a frame whose prices are all strictly positive, a signal of
    [TrendFollowingStrategy], [MeanReversionStrategy] or [BreakoutStrategy]
    is a BUY, a SELL or a HOLD; a BUY carries an [entry_price] and a
    [stop_loss] with [stop_loss < entry_price], a SELL carries them with
    [stop_loss > entry_price]. *)
Theorem strategies_stop_on_losing_side (fmt : nat -> fnum -> string)
    (sqrt : Q -> Q) (data : list Bar) (sig : dict) :
  positive_bars data ->
  TrendFollowingStrategy.generate_signal data = Ok sig \/
  MeanReversionStrategy.generate_signal fmt sqrt data = Ok sig \/
  BreakoutStrategy.generate_signal fmt data = Ok sig ->
  stop_on_losing_side sig.
Proof.
  intros Hpos [H|[H|H]].
  - destruct (TrendFollowing_cases data)
      as [(_ & E)|(_ & [(b & Hb & E)|[(b & Hb & E)|E]])];
      rewrite E in H; injection H as <-.
    + apply hold_signal_losing_side.
    + apply buy_signal_losing_side. pose proof (positive_close data b Hpos Hb). lra.
    + apply sell_signal_losing_side. pose proof (positive_close data b Hpos Hb). lra.
    + apply hold_signal_losing_side.
  - destruct (MeanReversion_cases fmt sqrt data)
      as [(_ & E)|(_ & [(b & r & t & Hb & E)|[(b & r & t & Hb & E)|E]])];
      rewrite E in H; injection H as <-.
    + apply hold_signal_losing_side.
    + apply buy_signal_losing_side. pose proof (positive_close data b Hpos Hb). lra.
    + apply sell_signal_losing_side. pose proof (positive_close data b Hpos Hb). lra.
    + apply hold_signal_losing_side.
  - unfold positive_bars in Hpos. rewrite Forall_forall in Hpos.
    destruct (Breakout_cases fmt data)
      as [(_ & E)|(_ & [(b & h & r & t & Hb & Hh & Hlt & E)
                       |[(b & l & r & t & Hb & Hl & Hlt & E)|E]])];
      rewrite E in H; injection H as <-.
    + apply hold_signal_losing_side.
    + apply buy_signal_losing_side. destruct (Hpos h Hh) as (_ & Hhigh & _). lra.
    + apply sell_signal_losing_side. destruct (Hpos l Hl) as (_ & _ & Hlow & _). lra.
    + apply hold_signal_losing_side.
Qed.

Lemma flat_bars_positive (l : list Q) :
  Forall (fun p => 0 < p) l -> positive_bars (map flat_bar l).
Proof.
  intros H. unfold positive_bars. apply Forall_map.
  eapply Forall_impl; [exact H|]. intros p Hp. simpl. auto.
Qed.

Lemma strategies_stop_on_losing_side_witness :
  (exists sig e s,
     TrendFollowingStrategy.generate_signal golden_cross = Ok sig /\
     sig !! "signal"%string = Some BUY /\
     sig !! "entry_price"%string = Some (PNum e) /\
     sig !! "stop_loss"%string = Some (PNum s) /\ s < e) /\
  (exists sig e s,
     TrendFollowingStrategy.generate_signal death_cross = Ok sig /\
     sig !! "signal"%string = Some SELL /\
     sig !! "entry_price"%string = Some (PNum e) /\
     sig !! "stop_loss"%string = Some (PNum s) /\ e < s).
Proof.
  assert (Hg : positive_bars golden_cross).
  { apply flat_bars_positive. repeat constructor. }
  assert (Hd : positive_bars death_cross).
  { apply flat_bars_positive. repeat constructor. }
  pose (buy := trade_signal BUY 0.7 "Golden cross detected" (PNum 11)
                 (PNum (11 * 0.98)) (PNum (11 * 1.04))).
  pose (sell := trade_signal SELL 0.7 "Death cross detected" (PNum 9)
                  (PNum (9 * 1.02)) (PNum (9 * 0.96))).
  assert (Eb : TrendFollowingStrategy.generate_signal golden_cross = Ok buy)
    by (vm_compute; reflexivity).
  assert (Es : TrendFollowingStrategy.generate_signal death_cross = Ok sell)
    by (vm_compute; reflexivity).
  split.
  - destruct (strategies_stop_on_losing_side (fun _ _ => EmptyString) (fun x => x)
                golden_cross buy Hg (or_introl Eb)) as (Hbuy & _ & _).
    destruct (Hbuy eq_refl) as (e & s & He & Hs & Hlt).
    exists buy, e, s. auto.
  - destruct (strategies_stop_on_losing_side (fun _ _ => EmptyString) (fun x => x)
                death_cross sell Hd (or_introl Es)) as (_ & Hsell & _).
    destruct (Hsell eq_refl) as (e & s & He & Hs & Hlt).
    exists sell, e, s. auto.
Defined.

(** C8. The three strategies never raise.  On a frame shorter than its
    lookback (30 rows for [TrendFollowingStrategy], [max(14, 20)] for
    [MeanReversionStrategy], 20 for [BreakoutStrategy]) each returns the HOLD
    signal with confidence 0 and the reason "Insufficient data", which has
    no [entry_price], [stop_loss] or [take_profit]. *)
Theorem strategies_insufficient_data (fmt : nat -> fnum -> string)
    (sqrt : Q -> Q) (data : list Bar) :
  (exists sig, TrendFollowingStrategy.generate_signal data = Ok sig) /\
  (exists sig, MeanReversionStrategy.generate_signal fmt sqrt data = Ok sig) /\
  (exists sig, BreakoutStrategy.generate_signal fmt data = Ok sig) /\
  ((length data < 30)%nat ->
     TrendFollowingStrategy.generate_signal data
       = Ok (hold_signal "Insufficient data")) /\
  ((length data < Nat.max 14 20)%nat ->
     MeanReversionStrategy.generate_signal fmt sqrt data
       = Ok (hold_signal "Insufficient data")) /\
  ((length data < 20)%nat ->
     BreakoutStrategy.generate_signal fmt data
       = Ok (hold_signal "Insufficient data")) /\
  insufficient_data (hold_signal "Insufficient data").
Proof.
  split_and!.
  - destruct (TrendFollowing_cases data)
      as [(_ & E)|(_ & [(b & _ & E)|[(b & _ & E)|E]])]; eauto.
  - destruct (MeanReversion_cases fmt sqrt data)
      as [(_ & E)|(_ & [(b & r & t & _ & E)|[(b & r & t & _ & E)|E]])]; eauto.
  - destruct (Breakout_cases fmt data)
      as [(_ & E)|(_ & [(b & h & r & t & _ & _ & _ & E)
                       |[(b & l & r & t & _ & _ & _ & E)|E]])]; eauto.
  - intros H. destruct (TrendFollowing_cases data) as [(_ & E)|(Hge & _)];
      [exact E|lia].
  - change (Nat.max 14 20) with 20%nat. intros H.
    destruct (MeanReversion_cases fmt sqrt data) as [(_ & E)|(Hge & _)];
      [exact E|lia].
  - intros H. destruct (Breakout_cases fmt data) as [(_ & E)|(Hge & _)];
      [exact E|lia].
  - apply hold_signal_insufficient.
Qed.

Lemma strategies_insufficient_data_witness :
  TrendFollowingStrategy.generate_signal (take 29 golden_cross)
    = Ok (hold_signal "Insufficient data") /\
  MeanReversionStrategy.generate_signal (fun _ _ => EmptyString) (fun x => x)
    (take 19 golden_cross) = Ok (hold_signal "Insufficient data") /\
  BreakoutStrategy.generate_signal (fun _ _ => EmptyString) [] 
    = Ok (hold_signal "Insufficient data").
Proof.
  split_and!.
  - apply (strategies_insufficient_data (fun _ _ => EmptyString) (fun x => x)).
    simpl. lia.
  - apply (strategies_insufficient_data (fun _ _ => EmptyString) (fun x => x)).
    simpl. lia.
  - apply (strategies_insufficient_data (fun _ _ => EmptyString) (fun x => x)).
    simpl. lia.
Defined.

(** ** The strategies of the list engine

    [SimpleTrendFollowingStrategy] and [SimpleMeanReversionStrategy] follow
    the same pattern with a lookback of 15 prices each. *)

Lemma simple_sma_ok (prices : list Q) (period : nat) :
  (1 <= period)%nat ->
  exists v, SimpleTechnicalIndicators.sma prices period = Ok v.
Proof.
  intros Hp. unfold SimpleTechnicalIndicators.sma, py_div.
  destruct (Nat.ltb _ _); [eauto|]. rewrite (Qnat_nonzero period Hp). eauto.
Qed.

Lemma iloc_neg_elem {A : Type} (s : list A) (k : nat) (x : A) :
  iloc_neg s k = Ok x -> x ∈ s.
Proof.
  unfold iloc_neg. destruct (Nat.ltb _ _); [discriminate|].
  destruct (s !! _) as [y|] eqn:E; [|discriminate].
  intros [= <-]. now apply list_elem_of_lookup_2 in E.
Qed.

Lemma SimpleTrendFollowing_cases (prices : list Q) :
  ((length prices < 15)%nat /\
   SimpleTrendFollowingStrategy.generate_signal prices
     = Ok (hold_signal "Insufficient data")) \/
  ((15 <= length prices)%nat /\
   ((exists c, c ∈ prices /\
      SimpleTrendFollowingStrategy.generate_signal prices
        = Ok (trade_signal BUY 0.7 "Short MA above Long MA" (PNum c)
                (PNum (c * 0.98)) (PNum (c * 1.04)))) \/
    (exists c, c ∈ prices /\
      SimpleTrendFollowingStrategy.generate_signal prices
        = Ok (trade_signal SELL 0.7 "Short MA below Long MA" (PNum c)
                (PNum (c * 1.02)) (PNum (c * 0.96)))) \/
    SimpleTrendFollowingStrategy.generate_signal prices
      = Ok (hold_signal "No clear trend signal"))).
Proof.
  unfold SimpleTrendFollowingStrategy.generate_signal,
    SimpleTrendFollowingStrategy.long_ma_period,
    SimpleTrendFollowingStrategy.short_ma_period.
  destruct (Nat.ltb (length prices) 15) eqn:E.
  { left. apply Nat.ltb_lt in E. auto. }
  right. apply Nat.ltb_ge in E. split; [exact E|].
  destruct (simple_sma_ok prices 5) as (s & Hs); [lia|].
  destruct (simple_sma_ok prices 15) as (l & Hl); [lia|].
  destruct (iloc_neg_ok prices 1) as (c & Hc); [lia|].
  pose proof (iloc_neg_elem prices 1 c Hc) as Hin.
  rewrite Hs, Hl, Hc. run_binds.
  destruct (Qgtb s l && Qgtb c s); [left; eauto|].
  destruct (Qltb s l && Qltb c s); [right; left; eauto|].
  right; right. reflexivity.
Qed.

Lemma SimpleMeanReversion_cases (fmt : nat -> fnum -> string)
    (prices : list Q) :
  ((length prices < 15)%nat /\
   SimpleMeanReversionStrategy.generate_signal fmt prices
     = Ok (hold_signal "Insufficient data")) \/
  ((15 <= length prices)%nat /\
   ((exists c reason, c ∈ prices /\
      SimpleMeanReversionStrategy.generate_signal fmt prices
        = Ok (trade_signal BUY 0.8 reason (PNum c)
                (PNum (c * 0.97)) (PNum (c * 1.03)))) \/
    (exists c reason, c ∈ prices /\
      SimpleMeanReversionStrategy.generate_signal fmt prices
        = Ok (trade_signal SELL 0.8 reason (PNum c)
                (PNum (c * 1.03)) (PNum (c * 0.97)))) \/
    SimpleMeanReversionStrategy.generate_signal fmt prices
      = Ok (hold_signal "No mean reversion signal"))).
Proof.
  unfold SimpleMeanReversionStrategy.generate_signal,
    SimpleMeanReversionStrategy.rsi_period.
  change (14 + 1)%nat with 15%nat.
  destruct (Nat.ltb (length prices) 15) eqn:E.
  { left. apply Nat.ltb_lt in E. auto. }
  right. apply Nat.ltb_ge in E. split; [exact E|].
  destruct (simple_rsi_total prices 14) as (r & Hr); [lia|].
  destruct (iloc_neg_ok prices 1) as (c & Hc); [lia|].
  pose proof (iloc_neg_elem prices 1 c Hc) as Hin.
  rewrite Hr, Hc. run_binds.
  destruct (Qltb r SimpleMeanReversionStrategy.rsi_oversold); [left; eauto|].
  destruct (Qgtb r SimpleMeanReversionStrategy.rsi_overbought);
    [right; left; eauto|].
  right; right. reflexivity.
Qed.

(** The two properties of the strategies, for the list engine: no
    exception, a HOLD for lack of data below 15 prices, and the stop on the
    losing side for strictly positive prices. *)
Lemma simple_strategies_spec (fmt : nat -> fnum -> string) (prices : list Q) :
  (exists sig, SimpleTrendFollowingStrategy.generate_signal prices = Ok sig) /\
  (exists sig, SimpleMeanReversionStrategy.generate_signal fmt prices = Ok sig) /\
  ((length prices < 15)%nat ->
     SimpleTrendFollowingStrategy.generate_signal prices
       = Ok (hold_signal "Insufficient data") /\
     SimpleMeanReversionStrategy.generate_signal fmt prices
       = Ok (hold_signal "Insufficient data")) /\
  (Forall (fun p => 0 < p) prices ->
   forall sig,
     SimpleTrendFollowingStrategy.generate_signal prices = Ok sig \/
     SimpleMeanReversionStrategy.generate_signal fmt prices = Ok sig ->
     stop_on_losing_side sig).
Proof.
  pose proof (SimpleTrendFollowing_cases prices) as Ht.
  pose proof (SimpleMeanReversion_cases fmt prices) as Hm.
  split_and!.
  - destruct Ht as [(_ & E)|(_ & [(c & _ & E)|[(c & _ & E)|E]])]; eauto.
  - destruct Hm as [(_ & E)|(_ & [(c & r & _ & E)|[(c & r & _ & E)|E]])]; eauto.
  - intros H. split.
    + destruct Ht as [(_ & E)|(Hge & _)]; [exact E|lia].
    + destruct Hm as [(_ & E)|(Hge & _)]; [exact E|lia].
  - intros Hpos sig. rewrite Forall_forall in Hpos. intros [H|H].
    + destruct Ht as [(_ & E)|(_ & [(c & Hc & E)|[(c & Hc & E)|E]])];
        rewrite E in H; injection H as <-.
      * apply hold_signal_losing_side.
      * apply buy_signal_losing_side. pose proof (Hpos c Hc). lra.
      * apply sell_signal_losing_side. pose proof (Hpos c Hc). lra.
      * apply hold_signal_losing_side.
    + destruct Hm as [(_ & E)|(_ & [(c & r & Hc & E)|[(c & r & Hc & E)|E]])];
        rewrite E in H; injection H as <-.
      * apply hold_signal_losing_side.
      * apply buy_signal_losing_side. pose proof (Hpos c Hc). lra.
      * apply sell_signal_losing_side. pose proof (Hpos c Hc). lra.
      * apply hold_signal_losing_side.
Qed.

(** * Further properties of the code *)

(** ** [TrendFollowingStrategy]: the crossing needs 31 rows *)

Lemma fleb_nan_r (a : fnum) : fleb a NaN = false.
Proof. now destruct a. Qed.

Lemma fleb_nan_l (a : fnum) : fleb NaN a = false.
Proof. now destruct a. Qed.

Lemma TrendFollowing_thirty_rows (data : list Bar) :
  length data = 30%nat ->
  TrendFollowingStrategy.generate_signal data
    = Ok (hold_signal "No clear trend signal").
Proof.
  intros Hlen.
  unfold TrendFollowingStrategy.generate_signal,
    TrendFollowingStrategy.long_ma_period, TrendFollowingStrategy.short_ma_period.
  rewrite Hlen. change (Nat.ltb 30 30) with false. cbv zeta.
  assert (Hl : forall w, length (TechnicalIndicators.sma (column Close data) w)
                         = 30%nat).
  { intros w. unfold TechnicalIndicators.sma.
    now rewrite rolling_length, column_length. }
  destruct (iloc_neg_ok (TechnicalIndicators.sma (column Close data) 10) 1)
    as (cs & Hcs); [rewrite Hl; lia|].
  destruct (iloc_neg_ok (TechnicalIndicators.sma (column Close data) 30) 1)
    as (cl & Hcl); [rewrite Hl; lia|].
  destruct (iloc_neg_ok (TechnicalIndicators.sma (column Close data) 10) 2)
    as (ps & Hps); [rewrite Hl; lia|].
  assert (Hpl : iloc_neg (TechnicalIndicators.sma (column Close data) 30) 2
                = Ok NaN).
  { apply iloc_neg_lookup; [rewrite Hl; lia|]. rewrite Hl.
    unfold TechnicalIndicators.sma. rewrite rolling_lookup;
      [reflexivity|rewrite column_length; lia]. }
  rewrite Hcs, Hcl, Hps, Hpl. run_binds.
  unfold fgeb. now rewrite fleb_nan_r, fleb_nan_l.
Qed.

(** X1. [TrendFollowingStrategy] accepts a frame of 30 rows but cannot
    signal on it: the long average of the row before the last is NaN there,
    and both crossing tests compare with it.  A BUY or a SELL needs at least
    31 rows. *)
Theorem TrendFollowing_signal_needs_31_rows (data : list Bar) (sig : dict) :
  TrendFollowingStrategy.generate_signal data = Ok sig ->
  sig !! "signal"%string <> Some HOLD ->
  (31 <= length data)%nat.
Proof.
  intros H Hn.
  destruct (decide (length data = 30%nat)) as [E|E].
  { rewrite (TrendFollowing_thirty_rows data E) in H. injection H as <-.
    now contradiction Hn. }
  destruct (TrendFollowing_cases data) as [(_ & E')|(Hge & _)]; [|lia].
  rewrite E' in H. injection H as <-. now contradiction Hn.
Qed.

Lemma TrendFollowing_signal_needs_31_rows_witness :
  (31 <= length golden_cross)%nat /\
  TrendFollowingStrategy.generate_signal (take 30 golden_cross)
    = Ok (hold_signal "No clear trend signal").
Proof.
  pose (buy := trade_signal BUY 0.7 "Golden cross detected" (PNum 11)
                 (PNum (11 * 0.98)) (PNum (11 * 1.04))).
  assert (Eb : TrendFollowingStrategy.generate_signal golden_cross = Ok buy)
    by (vm_compute; reflexivity).
  split.
  - apply (TrendFollowing_signal_needs_31_rows golden_cross buy Eb). discriminate.
  - apply TrendFollowing_thirty_rows. reflexivity.
Defined.

(** ** [BreakoutStrategy]: the last bar is part of its own range *)

Lemma series_max_ge (f : Bar -> Q) (tl : list Bar) :
  forall a,
  exists b, b ∈ a :: tl /\
    series_max (column f (a :: tl)) = Fin (f b) /\
    forall x, x ∈ a :: tl -> f x <= f b.
Proof.
  unfold series_max. simpl column.
  induction tl as [|y tl IH]; intros a.
  - exists a. split; [set_solver|]. split; [reflexivity|].
    intros x Hx. apply list_elem_of_singleton in Hx as ->. apply Qle_refl.
  - assert (E0 : foldl (fun m y => if fgtb y m then y else m) (Fin (f a))
                   (column f (y :: tl))
                 = foldl (fun m y => if fgtb y m then y else m)
                     (if Qltb (f a) (f y) then Fin (f y) else Fin (f a))
                     (column f tl)) by reflexivity.
    rewrite E0. clear E0. destruct (Qltb (f a) (f y)) eqn:E.
    + apply Qltb_lt in E. destruct (IH y) as (b & Hb & -> & Hmax).
      exists b. split; [set_solver|]. split; [reflexivity|].
      intros x Hx. apply elem_of_cons in Hx as [->|Hx]; [|now apply Hmax].
      pose proof (Hmax y ltac:(set_solver)). lra.
    + apply Qltb_ge in E. destruct (IH a) as (b & Hb & -> & Hmax).
      exists b. split; [set_solver|]. split; [reflexivity|].
      intros x Hx. apply elem_of_cons in Hx as [->|Hx];
        [apply Hmax; set_solver|].
      apply elem_of_cons in Hx as [->|Hx]; [|apply Hmax; set_solver].
      pose proof (Hmax a ltac:(set_solver)). lra.
Qed.

Lemma series_min_le (f : Bar -> Q) (tl : list Bar) :
  forall a,
  exists b, b ∈ a :: tl /\
    series_min (column f (a :: tl)) = Fin (f b) /\
    forall x, x ∈ a :: tl -> f b <= f x.
Proof.
  unfold series_min. simpl column.
  induction tl as [|y tl IH]; intros a.
  - exists a. split; [set_solver|]. split; [reflexivity|].
    intros x Hx. apply list_elem_of_singleton in Hx as ->. apply Qle_refl.
  - assert (E0 : foldl (fun m y => if fltb y m then y else m) (Fin (f a))
                   (column f (y :: tl))
                 = foldl (fun m y => if fltb y m then y else m)
                     (if Qltb (f y) (f a) then Fin (f y) else Fin (f a))
                     (column f tl)) by reflexivity.
    rewrite E0. clear E0. destruct (Qltb (f y) (f a)) eqn:E.
    + apply Qltb_lt in E. destruct (IH y) as (b & Hb & -> & Hmin).
      exists b. split; [set_solver|]. split; [reflexivity|].
      intros x Hx. apply elem_of_cons in Hx as [->|Hx]; [|now apply Hmin].
      pose proof (Hmin y ltac:(set_solver)). lra.
    + apply Qltb_ge in E. destruct (IH a) as (b & Hb & -> & Hmin).
      exists b. split; [set_solver|]. split; [reflexivity|].
      intros x Hx. apply elem_of_cons in Hx as [->|Hx];
        [apply Hmin; set_solver|].
      apply elem_of_cons in Hx as [->|Hx]; [|apply Hmin; set_solver].
      pose proof (Hmin a ltac:(set_solver)). lra.
Qed.

(** The last row of a frame is in its tail. *)
Lemma iloc_last_in_tail (f : Bar -> Q) (data : list Bar) (n : nat) (x : fnum) :
  (1 <= n)%nat ->
  iloc_neg (column f data) 1 = Ok x ->
  exists b, b ∈ last_n n data /\ x = Fin (f b).
Proof.
  intros Hn H. unfold iloc_neg in H. rewrite column_length in H.
  destruct (Nat.ltb (length data) 1) eqn:E; [discriminate|].
  apply Nat.ltb_ge in E.
  destruct (column f data !! _) as [y|] eqn:Hy; [|discriminate].
  injection H as <-. unfold column in Hy.
  change (map (fun b => Fin (f b)) data) with ((fun b => Fin (f b)) <$> data) in Hy.
  apply list_lookup_fmap_Some in Hy as (b & -> & Hb).
  exists b. split; [|reflexivity]. unfold last_n.
  destruct (Nat.eqb_spec n 0) as [|_]; [lia|].
  apply list_elem_of_lookup. exists (length data - 1 - (length data - n))%nat.
  rewrite lookup_drop. rewrite <- Hb. f_equal. lia.
Qed.

(** X2. On a frame whose bars are consistent (positive lows, each close
    between the low and the high of its bar) [BreakoutStrategy] never
    signals: the resistance and the support are taken over the last 20 rows,
    the current one included, so the close cannot be beyond them. *)
Theorem Breakout_holds_on_consistent_bars (fmt : nat -> fnum -> string)
    (data : list Bar) :
  consistent_bars data ->
  exists reason,
    BreakoutStrategy.generate_signal fmt data = Ok (hold_signal reason).
Proof.
  intros Hc. unfold consistent_bars in Hc. rewrite Forall_forall in Hc.
  unfold BreakoutStrategy.generate_signal, BreakoutStrategy.lookback_period.
  destruct (Nat.ltb (length data) 20) eqn:E; [eauto|].
  apply Nat.ltb_ge in E. cbv zeta.
  destruct (last_n 20 data) as [|a tl] eqn:Hr.
  { exfalso. apply (last_n_nonempty 20 data); [|exact Hr].
    intros ->. simpl in E. lia. }
  destruct (series_max_ge High tl a) as (h & Hh & -> & Hmax).
  destruct (series_min_le Low tl a) as (l & Hl & -> & Hmin).
  destruct (iloc_neg_ok (column Close data) 1) as (price & Hp);
    [rewrite column_length; lia|].
  destruct (iloc_last_in_tail Close data 20 price) as (b & Hb & ->); [lia|exact Hp|].
  rewrite Hr in Hb. rewrite Hp. run_binds. simpl fmul. unfold fgtb, fltb.
  assert (Hsub : forall x, x ∈ a :: tl -> x ∈ data).
  { intros x Hx. rewrite <- Hr in Hx. now apply (last_n_subseteq 20 data). }
  destruct (Hc b (Hsub b Hb)) as (Hb0 & Hb1 & Hb2).
  destruct (Hc l (Hsub l Hl)) as (Hl0 & _).
  pose proof (Hmax b Hb) as Hbh. pose proof (Hmin b Hb) as Hlb.
  assert (E1 : Qltb (High h * 1.001) (Close b) = false) by (apply Qltb_ge; lra).
  assert (E2 : Qltb (Close b) (Low l * 0.999) = false) by (apply Qltb_ge; lra).
  rewrite E1, E2. eauto.
Qed.

Lemma Breakout_holds_on_consistent_bars_witness :
  exists reason,
    BreakoutStrategy.generate_signal (fun _ _ => EmptyString) golden_cross
      = Ok (hold_signal reason).
Proof.
  apply Breakout_holds_on_consistent_bars.
  unfold consistent_bars, golden_cross. apply Forall_map, Forall_forall.
  intros p Hp. simpl.
  assert (0 < p); [|repeat split; lra].
  apply elem_of_app in Hp as [Hp|Hp].
  - apply elem_of_replicate in Hp as (-> & _). reflexivity.
  - apply list_elem_of_singleton in Hp as ->. reflexivity.
Defined.

(** ** The indicators of the list engine *)

Lemma last_n_app {A : Type} (n : nat) (older l : list A) :
  (1 <= n <= length l)%nat -> last_n n (older ++ l) = last_n n l.
Proof.
  intros Hn. unfold last_n. destruct (Nat.eqb_spec n 0) as [|_]; [lia|].
  rewrite length_app, drop_app_ge by lia. f_equal. lia.
Qed.

(** X3. [SimpleTechnicalIndicators.sma] returns 0 for a list shorter than
    the period and raises ZeroDivisionError for a period of 0 whatever the
    list (the length guard cannot catch it).  For a period between 1 and the
    length of the list it does not raise and looks at the last [period]
    prices only: older prices in front of the list do not change its
    result, and with period 1 it is the last price. *)
Theorem simple_sma_spec (prices : list Q) (period : nat) :
  ((length prices < period)%nat ->
     SimpleTechnicalIndicators.sma prices period = Ok 0) /\
  (period = 0%nat ->
     SimpleTechnicalIndicators.sma prices period = Raise ZeroDivisionError) /\
  ((1 <= period <= length prices)%nat ->
   (exists v, SimpleTechnicalIndicators.sma prices period = Ok v) /\
   (forall older,
      SimpleTechnicalIndicators.sma (older ++ prices) period
        = SimpleTechnicalIndicators.sma prices period) /\
   (period = 1%nat ->
    exists v p,
      SimpleTechnicalIndicators.sma prices period = Ok v /\
      iloc_neg prices 1 = Ok p /\ v == p)).
Proof.
  unfold SimpleTechnicalIndicators.sma. split_and!.
  - intros H. apply Nat.ltb_lt in H. now rewrite H.
  - intros ->. reflexivity.
  - intros Hp.
    assert (E : Nat.ltb (length prices) period = false) by (apply Nat.ltb_ge; lia).
    rewrite E. unfold py_div. rewrite Qnat_nonzero by lia. split_and!.
    + eauto.
    + intros older.
      assert (E' : Nat.ltb (length (older ++ prices)) period = false)
        by (apply Nat.ltb_ge; rewrite length_app; lia).
      now rewrite E', last_n_app.
    + intros ->. destruct (iloc_neg_ok prices 1) as (p & Hpr); [lia|].
      eexists _, p. split; [reflexivity|]. split; [exact Hpr|].
      apply iloc_neg_lookup in Hpr; [|lia].
      unfold last_n. simpl Nat.eqb. cbv iota.
      rewrite (drop_S _ p) by exact Hpr.
      rewrite drop_ge by lia. unfold py_sum. cbn [foldl].
      change (Qnat 1) with 1. field.
Qed.

Lemma simple_sma_spec_witness :
  SimpleTechnicalIndicators.sma [1; 2] 5 = Ok 0 /\
  SimpleTechnicalIndicators.sma [1; 2] 0 = Raise ZeroDivisionError /\
  SimpleTechnicalIndicators.sma ([9; 8] ++ [4; 1; 3; 2]) 2
    = SimpleTechnicalIndicators.sma [4; 1; 3; 2] 2.
Proof.
  split_and!.
  - apply (simple_sma_spec [1; 2] 5). simpl. lia.
  - apply (simple_sma_spec [1; 2] 0). reflexivity.
  - apply (simple_sma_spec [4; 1; 3; 2] 2). simpl. lia.
Defined.

(** X4. For a period of at least 1 [SimpleTechnicalIndicators.rsi] returns a
    value between 0 and 100 on every list; for a period of 0 it raises
    ZeroDivisionError on every non-empty list. *)
Theorem simple_rsi_range (prices : list Q) (period : nat) :
  ((1 <= period)%nat ->
     exists v, SimpleTechnicalIndicators.rsi prices period = Ok v /\
               0 <= v <= 100) /\
  (period = 0%nat -> prices <> [] ->
     SimpleTechnicalIndicators.rsi prices period = Raise ZeroDivisionError).
Proof.
  split.
  - intros Hp. destruct (decide (length prices < period + 1)%nat) as [Hs|Hl].
    { exists 50. split; [now apply simple_rsi_short|]. split; discriminate. }
    rewrite simple_rsi_long by lia. cbv zeta.
    set (g := py_sum (last_n period (map gain_of (deltas prices)))).
    set (l := py_sum (last_n period (map loss_of (deltas prices)))).
    assert (Hg : 0 <= g) by apply (py_sum_last_n_nonneg gain_of), gain_of_nonneg.
    assert (Hl0 : 0 <= l) by apply (py_sum_last_n_nonneg loss_of), loss_of_nonneg.
    pose proof (Qnat_pos period Hp) as Hn.
    destruct (Qeq_bool (l / Qnat period) 0) eqn:E.
    { exists 100. split; [reflexivity|]. split; [discriminate|apply Qle_refl]. }
    apply Qeq_bool_false in E.
    assert (Hl1 : 0 < l / Qnat period).
    { assert (0 <= l / Qnat period) by (apply Qle_shift_div_l; lra). lra. }
    assert (Hg1 : 0 <= g / Qnat period) by (apply Qle_shift_div_l; lra).
    unfold py_div, mbind, result_bind.
    destruct (Qeq_bool (l / Qnat period) 0) eqn:E1;
      [apply Qeq_bool_iff in E1; contradiction|].
    set (rs := g / Qnat period / (l / Qnat period)).
    assert (Hrs : 0 <= rs) by (apply Qle_shift_div_l; lra).
    destruct (Qeq_bool (1 + rs) 0) eqn:E2; [apply Qeq_bool_iff in E2; lra|].
    eexists. split; [reflexivity|].
    assert (H1 : 0 <= 100 / (1 + rs)) by (apply Qle_shift_div_l; lra).
    assert (H2 : 100 / (1 + rs) <= 100) by (apply Qle_shift_div_r; lra).
    lra.
  - intros -> Hne. unfold SimpleTechnicalIndicators.rsi.
    destruct prices as [|p0 rest]; [contradiction|].
    rewrite gains_losses_spec. reflexivity.
Qed.

Lemma simple_rsi_range_witness :
  (exists v, SimpleTechnicalIndicators.rsi [3; 1; 2; 5] 2 = Ok v /\ 0 <= v <= 100) /\
  SimpleTechnicalIndicators.rsi [3; 1] 0 = Raise ZeroDivisionError.
Proof.
  split.
  - apply (simple_rsi_range [3; 1; 2; 5] 2). lia.
  - apply (simple_rsi_range [3; 1] 0); [reflexivity|discriminate].
Defined.

(** ** [SimpleMeanReversionStrategy] on a market that does not fall *)

(** X5. On at least 15 prices whose last 14 changes have no loss (a flat
    market, for one) [SimpleMeanReversionStrategy] signals a SELL at the
    last price with confidence 0.8, stop 3% above and take-profit 3% below:
    the RSI is 100 there, above the overbought level. *)
Theorem SimpleMeanReversion_sells_without_loss (fmt : nat -> fnum -> string)
    (prices : list Q) :
  (15 <= length prices)%nat ->
  average_loss prices 14 == 0 ->
  exists c,
    iloc_neg prices 1 = Ok c /\
    SimpleMeanReversionStrategy.generate_signal fmt prices
      = Ok (trade_signal SELL 0.8 ("Overbought: RSI=" ++ fmt 2%nat (Fin 100))
              (PNum c) (PNum (c * 1.03)) (PNum (c * 0.97))).
Proof.
  intros Hlen Hloss.
  unfold SimpleMeanReversionStrategy.generate_signal,
    SimpleMeanReversionStrategy.rsi_period.
  change (14 + 1)%nat with 15%nat.
  assert (E : Nat.ltb (length prices) 15 = false) by (apply Nat.ltb_ge; lia).
  rewrite E.
  rewrite (simple_rsi_no_loss prices 14 ltac:(lia) ltac:(lia) Hloss).
  destruct (iloc_neg_ok prices 1) as (c & Hc); [lia|].
  exists c. split; [exact Hc|]. rewrite Hc. reflexivity.
Qed.

Lemma SimpleMeanReversion_sells_without_loss_witness :
  exists c,
    iloc_neg (replicate 15 1.0850) 1 = Ok c /\
    SimpleMeanReversionStrategy.generate_signal (fun _ _ => EmptyString)
      (replicate 15 1.0850)
      = Ok (trade_signal SELL 0.8 ("Overbought: RSI=" ++ EmptyString)
              (PNum c) (PNum (c * 1.03)) (PNum (c * 0.97))).
Proof.
  apply (SimpleMeanReversion_sells_without_loss (fun _ _ => EmptyString)).
  - simpl. lia.
  - reflexivity.
Defined.

(** ** Closing a trade that is not open *)

(** X6. [close_trade] does not check that the trade is open.  Called on a
    trade that is no longer in [active_trades] (closed before), it raises
    ValueError at [remove], after it has overwritten the exit fields of the
    trade and added the new P/L to [account_balance] and [daily_pnl]: the
    history is unchanged but the balance has moved again. *)
Theorem close_trade_closed_trade (s : Robot) (now : datetime) (trade : ref)
    (exit : Q) (reason : string) (t : Trade) :
  wf s -> heap s !! trade = Some t -> trade ∉ active_trades s ->
  exists s',
    close_trade now trade exit reason s = (Raise ValueError, s') /\
    active_trades s' = active_trades s /\
    trade_history s' = trade_history s /\
    heap s' !! trade = Some (closed t exit now reason) /\
    account_balance (risk_manager s')
      = account_balance (risk_manager s) + trade_pnl t exit /\
    daily_pnl (risk_manager s')
      = daily_pnl (risk_manager s) + trade_pnl t exit.
Proof.
  intros Hwf Ht Hni.
  rewrite (close_trade_inactive s now trade exit reason t Hwf Ht Hni).
  eexists. split; [reflexivity|]. simpl. split_and!; try reflexivity.
  apply list_lookup_insert_eq. now apply lookup_lt_Some in Ht.
Qed.

Lemma close_trade_closed_trade_witness :
  let s1 := snd (close_trade 5%Z 0%nat 1.0940 STOP_LOSS
                   (small_robot_open BUY PNone)) in
  exists s2,
    close_trade 6%Z 0%nat 1.0940 STOP_LOSS s1 = (Raise ValueError, s2) /\
    trade_history s2 = [0%nat] /\
    account_balance (risk_manager s2) == 1000 - 0.60 - 0.60.
Proof.
  intros s1.
  assert (Hwf : wf s1) by (apply wf_close, wf_small_robot_open).
  assert (Ht : heap s1 !! 0%nat
               = Some (closed (sample_trade BUY PNone) 1.0940 5%Z STOP_LOSS))
    by reflexivity.
  assert (Hni : 0%nat ∉ active_trades s1).
  { intros H. vm_compute in H. now apply elem_of_nil in H. }
  destruct (close_trade_closed_trade s1 6%Z 0%nat 1.0940 STOP_LOSS _ Hwf Ht Hni)
    as (s2 & E & _ & Hh & _ & Hb & _).
  exists s2. split; [exact E|]. split; [rewrite Hh; reflexivity|].
  rewrite Hb. reflexivity.
Defined.

(** ** What an executed trade looks like *)

Lemma signal_position_size_inv (rm : RiskManager) (signal : dict) (size : Q) :
  signal_position_size rm signal = Ok size ->
  exists e sl,
    signal !! "entry_price"%string = Some (PNum e) /\
    signal !! "stop_loss"%string = Some (PNum sl) /\
    calculate_position_size rm e sl = Ok size.
Proof.
  unfold signal_position_size, getitem, mbind, result_bind, as_num.
  destruct (signal !! "entry_price"%string) as [[|e|]|]; try discriminate;
    destruct (signal !! "stop_loss"%string) as [[|sl|]|]; try discriminate.
  intros H. exists e, sl. auto.
Qed.

Lemma positive_size_inv (rm : RiskManager) (e sl size : Q) :
  calculate_position_size rm e sl = Ok size -> 0 < size ->
  ~ e == sl /\ size <= account_balance rm * 0.1 /\ 0 < account_balance rm.
Proof.
  intros H Hpos. destruct (Qeq_dec e sl) as [E|E].
  - rewrite (calculate_position_size_equal rm e sl E) in H.
    injection H as <-. lra.
  - rewrite (calculate_position_size_differ rm e sl E) in H. injection H as <-.
    pose proof (py_min_le_r
                  (account_balance rm * max_risk_per_trade rm / Qabs (e - sl))
                  (account_balance rm * 0.1)) as Hle.
    split; [exact E|]. split; [exact Hle|].
    set (m := py_min _ _) in *. clearbody m. lra.
Qed.

(** X7. For a signal whose entry, stop and confidence are finite numbers
    and a risk manager whose balance and daily P/L are finite numbers: when
    [execute_trade] returns True it has appended exactly one new trade to
    [active_trades] and touched nothing else (history and risk manager are
    as before).  The trade is OPEN with no exit field, carries the entry and
    stop of the signal, which differ, and its size is positive and at most
    10% of the balance, which is therefore positive; the signal had a
    confidence of at least 0.6 and the daily loss limit was not reached.
    (A NaN among these numbers passes every test of [execute_trade], which
    are comparisons, and is outside this statement.) *)
Theorem execute_trade_opens (e : engine) (now : datetime) (signal : dict)
    (s s' : Robot) :
  execute_trade e now signal s = (Ok true, s') ->
  exists t,
    heap s' = heap s ++ [t] /\
    active_trades s' = active_trades s ++ [length (heap s)] /\
    trade_history s' = trade_history s /\
    risk_manager s' = risk_manager s /\
    is_open t /\ id t = next_id e s /\ entry_time t = now /\
    signal !! "entry_price"%string = Some (PNum (entry_price t)) /\
    signal !! "stop_loss"%string = Some (PNum (stop_loss t)) /\
    signal !! "signal"%string = Some (signal_type t) /\
    ~ entry_price t == stop_loss t /\
    0 < position_size t /\
    position_size t <= account_balance (risk_manager s) * 0.1 /\
    0 < account_balance (risk_manager s) /\
    ~ daily_loss_tripped (risk_manager s) /\
    (exists c, confidence_of signal = PNum c /\ 0.6 <= c).
Proof.
  intros H.
  destruct (execute_trade_cases e now signal s)
    as [(x & E)|[E|(size & t & Hv & Hs & Hpos & Hm & E)]];
    rewrite E in H; try discriminate.
  injection H as <-. exists t. simpl.
  apply make_trade_inv in Hm as (Hopen & Hid & Hsz & Htime & _ & Hsig & He & Hsl).
  apply signal_position_size_inv in Hs as (e0 & sl0 & He0 & Hsl0 & Hcalc).
  rewrite He in He0. rewrite Hsl in Hsl0.
  injection He0 as <-. injection Hsl0 as <-.
  destruct (positive_size_inv _ _ _ _ Hcalc Hpos) as (Hne & Hle & Hbal).
  rewrite Hsz.
  assert (Ha : ~ daily_loss_tripped (risk_manager s)).
  { intros Ha. unfold validate_trade in Hv.
    rewrite (validate_tripped _ signal Ha) in Hv. discriminate. }
  assert (Hb : ~ lacks_required_field signal).
  { intros Hb. unfold validate_trade in Hv.
    rewrite (validate_missing _ signal Ha Hb) in Hv. discriminate. }
  split_and!; auto.
  unfold validate_trade, validate_trade_trace in Hv.
  destruct (Qle_bool _ _); [discriminate|].
  destruct (negb _); [discriminate|]. fold (confidence_of signal) in Hv.
  destruct (confidence_of signal) as [|c|]; try discriminate. simpl in Hv.
  destruct (Qltb c 0.6) eqn:Ec; [discriminate|].
  exists c. split; [reflexivity|]. now apply Qltb_ge.
Qed.

Lemma execute_trade_opens_witness :
  exists t,
    heap (small_robot_open BUY PNone) = [t] /\
    active_trades (small_robot_open BUY PNone) = [0%nat] /\
    0 < position_size t /\ position_size t <= 1000 * 0.1.
Proof.
  assert (E : execute_trade SimpleForexTradingRobot 0%Z
                (sample_signal BUY 0.9 PNone) small_robot
              = (Ok true, small_robot_open BUY PNone)) by reflexivity.
  destruct (execute_trade_opens _ _ _ _ _ E)
    as (t & Hh & Ha & _ & _ & _ & _ & _ & _ & _ & _ & _ & Hp & Hle & _).
  exists t. auto.
Defined.

(** ** The invariants of the web application *)

Lemma ids_monitor_loop (clock : nat -> datetime) (feed : nat -> Q)
    (copy : list ref) :
  forall k s,
  ids_by_ref s -> ids_by_ref (snd (monitor_loop clock feed k copy s)).
Proof.
  induction copy as [|trade copy IH]; intros k s Hids; simpl; [exact Hids|].
  assert (H : ids_by_ref (snd (monitor_trade (clock k) (feed k) trade s))).
  { unfold monitor_trade. destruct (heap s !! trade) as [t|]; [|exact Hids].
    destruct (Qeq_bool _ _); [exact Hids|].
    destruct (stop_loss_hit _ _); [now apply ids_close|].
    destruct (take_profit_hit _ _) as [[]|x]; try exact Hids.
    now apply ids_close. }
  destruct (monitor_trade (clock k) (feed k) trade s) as [[u|x] s1]; simpl in H.
  - now apply IH.
  - exact H.
Qed.

Lemma ids_serve (float_of_string : string -> option Q) (s : Robot) (q : request) :
  wf s -> ids_by_ref s -> ids_by_ref (serve float_of_string s q).
Proof.
  intros Hwf Hids.
  destruct q as [clock feed|now signal|now data|now price trade_id]; simpl.
  - now apply ids_monitor_loop.
  - now apply ids_execute_simple.
  - unfold manual_trade.
    destruct (Nat.eqb (size data) 0); [exact Hids|].
    destruct (negb _); [exact Hids|].
    destruct (manual_signal float_of_string data) as [signal|x]; [|exact Hids].
    pose proof (ids_execute_simple now signal s Hwf Hids) as H.
    now destruct (execute_trade _ _ _ _) as [[[]|x] s1].
  - unfold close_trade_manual.
    destruct (find_trade _ _ _) as [trade|]; [|exact Hids].
    destruct (Qeq_bool price 0); [exact Hids|].
    pose proof (ids_close now trade price MANUAL_CLOSE s Hids) as H.
    now destruct (close_trade _ _ _ _ _) as [[u|x] s1].
Qed.

(** X8. Whatever requests and trading cycles the web application serves
    from its fresh robot, the ledger stays consistent: every trade object is
    in exactly one of [active_trades] and [trade_history], once; the trades
    of [active_trades] are OPEN without exit fields, those of
    [trade_history] are CLOSED; and the trade created as number [r] (from 0)
    has id [r + 1], so that ids are distinct and follow the order of
    creation. *)
Theorem web_ledger_invariant (float_of_string : string -> option Q)
    (reqs : list request) :
  let s := foldl (serve float_of_string) Robot_init reqs in
  wf s /\ ids_by_ref s /\
  (forall r1 r2 t1 t2,
     heap s !! r1 = Some t1 -> heap s !! r2 = Some t2 -> r1 <> r2 ->
     id t1 <> id t2) /\
  (length (active_trades s) + length (trade_history s))%nat = length (heap s).
Proof.
  assert (H : wf (foldl (serve float_of_string) Robot_init reqs) /\
              ids_by_ref (foldl (serve float_of_string) Robot_init reqs)).
  { assert (H0 : wf Robot_init /\ ids_by_ref Robot_init).
    { split; [apply wf_init|]. intros r t Hr. simpl in Hr.
      now rewrite lookup_nil in Hr. }
    revert H0. generalize Robot_init.
    induction reqs as [|q reqs IH]; intros s (Hwf & Hids); simpl; [auto|].
    apply IH. split; [now apply wf_serve|now apply ids_serve]. }
  destruct H as (Hwf & Hids). cbv zeta. split_and!; auto.
  - intros r1 r2 t1 t2 H1 H2 Hne. rewrite (Hids r1 t1 H1), (Hids r2 t2 H2). lia.
  - rewrite <- length_app. now apply wf_length.
Qed.

(** ** The manual-trade route *)

Lemma has_all_manual_fields (data : dict) :
  forallb (has_key data) manual_required_fields = true <->
  forall k, k ∈ manual_required_fields -> data !! k <> None.
Proof.
  rewrite forallb_forall. unfold has_key. split.
  - intros H k Hk Hn. apply list_elem_of_In in Hk. specialize (H k Hk).
    now rewrite Hn in H.
  - intros H k Hk. apply list_elem_of_In in Hk. specialize (H k Hk).
    now destruct (data !! k).
Qed.

(** What [manual_trade] does with the object of the request. *)
Lemma manual_trade_data_effect (float_of_string : string -> option Q)
    (now : datetime) (data : dict) (s : Robot) :
  let r := manual_trade float_of_string now data s in
  (fst r = 200%nat \/ fst r = 400%nat \/ fst r = 500%nat) /\
  (fst r <> 200%nat -> snd r = s) /\
  (fst r = 200%nat ->
     exists t,
       heap (snd r) = heap s ++ [t] /\
       active_trades (snd r) = active_trades s ++ [length (heap s)] /\
       trade_history (snd r) = trade_history s /\
       risk_manager (snd r) = risk_manager s /\
       strategy t = PStr "Manual" /\
       data !! "symbol"%string = Some (symbol t) /\
       data !! "signal"%string = Some (signal_type t)) /\
  (size data = 0%nat -> fst r = 400%nat) /\
  (forall k, k ∈ manual_required_fields -> data !! k = None ->
     fst r = 400%nat).
Proof.
  cbv zeta. unfold manual_trade.
  destruct (Nat.eqb_spec (size data) 0) as [Hz|Hz].
  { simpl. split_and!; auto; discriminate. }
  destruct (forallb (has_key data) manual_required_fields) eqn:Hf; simpl.
  2:{ split_and!; auto; try discriminate; try (intros Hz'; contradiction). }
  assert (Hk : forall k, k ∈ manual_required_fields -> data !! k = None ->
                         400%nat = 200%nat).
  { intros k Hk Hn. destruct (proj1 (has_all_manual_fields data) Hf k Hk Hn). }
  assert (Hk5 : forall k, k ∈ manual_required_fields -> data !! k = None ->
                          500%nat = 400%nat).
  { intros k Hk' Hn. discriminate (Hk k Hk' Hn). }
  assert (Hk2 : forall k, k ∈ manual_required_fields -> data !! k = None ->
                          200%nat = 400%nat).
  { intros k Hk' Hn. discriminate (Hk k Hk' Hn). }
  destruct (manual_signal float_of_string data) as [signal|x] eqn:Hs; simpl.
  2:{ split_and!; auto; try discriminate; try (intros Hz'; contradiction). }
  destruct (execute_trade_cases SimpleForexTradingRobot now signal s)
    as [(x & E)|[E|(size & t & _ & _ & _ & Hm & E)]]; rewrite E; simpl.
  - split_and!; auto; try discriminate; try (intros Hz'; contradiction).
  - split_and!; auto; try discriminate; try (intros Hz'; contradiction).
  - split_and!; auto; try (intros Hz'; contradiction).
    intros _. exists t.
    revert Hs Hm; unfold manual_signal, make_trade, getitem, mbind,
      result_bind; intros Hs Hm.
    destruct (data !! "symbol"%string) as [sym|]; [|discriminate].
    destruct (data !! "signal"%string) as [dir|]; [|discriminate].
    destruct (data !! "entry_price"%string) as [v|]; [|discriminate].
    destruct (py_float float_of_string v); [|discriminate].
    destruct (data !! "stop_loss"%string) as [w|]; [|discriminate].
    destruct (py_float float_of_string w); [|discriminate].
    destruct (if truthy _ then _ else _); [|discriminate].
    destruct (py_float float_of_string _); [|discriminate].
    injection Hs as <-. vm_compute in Hm. injection Hm as <-.
    split_and!; reflexivity.
Qed.

(** X9. The route [manual_trade] answers 200, 400 or 500 and changes the
    robot only when it answers 200: one trade of strategy "Manual" is then
    appended to [active_trades], with the symbol and the direction of the
    request, and nothing else changes.  A body that is not JSON (an empty
    body is not) is answered 500; the JSON value null, the empty object and
    an object without one of 'symbol', 'signal', 'entry_price', 'stop_loss'
    are answered 400. *)
Theorem manual_trade_effect (float_of_string : string -> option Q)
    (now : datetime) (b : body) (s : Robot) :
  let r := manual_trade_route float_of_string now b s in
  (fst r = 200%nat \/ fst r = 400%nat \/ fst r = 500%nat) /\
  (fst r <> 200%nat -> snd r = s) /\
  (fst r = 200%nat ->
     exists data t,
       b = JsonObject data /\
       heap (snd r) = heap s ++ [t] /\
       active_trades (snd r) = active_trades s ++ [length (heap s)] /\
       trade_history (snd r) = trade_history s /\
       risk_manager (snd r) = risk_manager s /\
       strategy t = PStr "Manual" /\
       data !! "symbol"%string = Some (symbol t) /\
       data !! "signal"%string = Some (signal_type t)) /\
  (b = NotJson -> fst r = 500%nat) /\
  (b = JsonNull -> fst r = 400%nat) /\
  (forall data, b = JsonObject data -> size data = 0%nat -> fst r = 400%nat) /\
  (forall data k,
     b = JsonObject data -> k ∈ manual_required_fields -> data !! k = None ->
     fst r = 400%nat).
Proof.
  cbv zeta. destruct b as [| |data]; simpl.
  - split_and!; auto; discriminate.
  - split_and!; auto; discriminate.
  - destruct (manual_trade_data_effect float_of_string now data s)
      as (H1 & H2 & H3 & H4 & H5).
    split_and!; auto; try discriminate.
    + intros H. destruct (H3 H) as (t & Ht). exists data, t. auto.
    + intros d [= <-]. exact H4.
    + intros d k [= <-]. apply H5.
Qed.

Lemma manual_trade_effect_witness :
  (exists t,
     heap (snd (manual_trade_route (fun _ => None) 0%Z
                  (JsonObject (sample_request PNone)) small_robot)) = [t] /\
     strategy t = PStr "Manual" /\ signal_type t = BUY) /\
  manual_trade_route (fun _ => None) 0%Z NotJson small_robot
    = (500%nat, small_robot) /\
  manual_trade_route (fun _ => None) 0%Z (JsonObject ∅) small_robot
    = (400%nat, small_robot) /\
  manual_trade_route (fun _ => None) 0%Z
    (JsonObject (<["entry_price" := PStr "abc"]> (sample_request PNone)))
    small_robot
    = (500%nat, small_robot) /\
  fst (manual_trade_route (fun _ => None) 0%Z
         (JsonObject (delete "stop_loss"%string (sample_request PNone)))
         small_robot)
    = 400%nat.
Proof.
  split_and!.
  - destruct (manual_trade_effect (fun _ => None) 0%Z
                (JsonObject (sample_request PNone)) small_robot)
      as (_ & _ & H & _).
    destruct (H eq_refl) as (data & t & [= <-] & Hh & _ & _ & _ & Hs & _ & Hd).
    exists t. split; [exact Hh|]. split; [exact Hs|].
    assert (E : sample_request PNone !! "signal"%string = Some BUY) by reflexivity.
    rewrite E in Hd. now injection Hd as <-.
  - destruct (manual_trade_effect (fun _ => None) 0%Z NotJson small_robot)
      as (_ & Hs & _ & Hn & _).
    specialize (Hn eq_refl).
    destruct (manual_trade_route (fun _ => None) 0%Z NotJson small_robot)
      as [c s'].
    simpl in *. subst c. rewrite Hs by discriminate. reflexivity.
  - destruct (manual_trade_effect (fun _ => None) 0%Z (JsonObject ∅) small_robot)
      as (_ & Hs & _ & _ & _ & Hz & _).
    specialize (Hz ∅ eq_refl eq_refl).
    destruct (manual_trade_route (fun _ => None) 0%Z (JsonObject ∅) small_robot)
      as [c s'].
    simpl in *. subst c. rewrite Hs by discriminate. reflexivity.
  - destruct (manual_trade_effect (fun _ => None) 0%Z
                (JsonObject (<["entry_price" := PStr "abc"]> (sample_request PNone)))
                small_robot) as (_ & Hs & _).
    assert (E : fst (manual_trade_route (fun _ => None) 0%Z
                       (JsonObject
                          (<["entry_price" := PStr "abc"]> (sample_request PNone)))
                       small_robot) = 500%nat) by reflexivity.
    destruct (manual_trade_route _ _ _ _) as [c s']. simpl in *. subst c.
    rewrite Hs by discriminate. reflexivity.
  - destruct (manual_trade_effect (fun _ => None) 0%Z
                (JsonObject (delete "stop_loss"%string (sample_request PNone)))
                small_robot) as (_ & _ & _ & _ & _ & _ & Hk).
    apply (Hk _ "stop_loss"%string eq_refl); [set_solver|reflexivity].
Defined.

(** The signal that [manual_trade] builds, as a function of the direction
    of the request. *)
Lemma manual_signal_direction (float_of_string : string -> option Q)
    (data : dict) :
  (exists x, forall d,
     manual_signal float_of_string (<["signal" := d]> data) = Raise x) \/
  (exists sym ep sl tp conf, forall d,
     manual_signal float_of_string (<["signal" := d]> data)
       = Ok ({[ "symbol" := sym;
                "signal" := d;
                "entry_price" := PNum ep;
                "stop_loss" := PNum sl;
                "take_profit" := tp;
                "confidence" := PNum conf;
                "strategy" := PStr "Manual";
                "reason" := PStr "Manual trade execution" ]} : dict)).
Proof.
  unfold manual_signal, getitem, dict_get, mbind, result_bind.
  assert (L : forall d k, k <> "signal"%string ->
            (<["signal" := d]> data) !! k = data !! k).
  { intros d k Hk. now apply lookup_insert_ne. }
  destruct (data !! "symbol"%string) as [sym|] eqn:Esym.
  2:{ left. exists KeyError. intros d. rewrite (L d "symbol"%string), Esym by discriminate.
      reflexivity. }
  destruct (data !! "entry_price"%string) as [v|] eqn:Ee.
  2:{ left. exists KeyError. intros d.
      rewrite (L d "symbol"%string), Esym by discriminate.
      rewrite lookup_insert_eq.
      rewrite (L d "entry_price"%string), Ee by discriminate. reflexivity. }
  destruct (py_float float_of_string v) as [ep|x] eqn:Pe.
  2:{ left. exists x. intros d.
      rewrite (L d "symbol"%string), Esym by discriminate.
      rewrite lookup_insert_eq.
      rewrite (L d "entry_price"%string), Ee by discriminate.
      now rewrite Pe. }
  destruct (data !! "stop_loss"%string) as [w|] eqn:Es.
  2:{ left. exists KeyError. intros d.
      rewrite (L d "symbol"%string), Esym by discriminate.
      rewrite lookup_insert_eq.
      rewrite (L d "entry_price"%string), Ee by discriminate. rewrite Pe.
      rewrite (L d "stop_loss"%string), Es by discriminate. reflexivity. }
  destruct (py_float float_of_string w) as [sl|x] eqn:Ps.
  2:{ left. exists x. intros d.
      rewrite (L d "symbol"%string), Esym by discriminate.
      rewrite lookup_insert_eq.
      rewrite (L d "entry_price"%string), Ee by discriminate. rewrite Pe.
      rewrite (L d "stop_loss"%string), Es by discriminate. now rewrite Ps. }
  destruct (if truthy (default PNone (data !! "take_profit"%string))
            then match py_float float_of_string
                         (default (PNum 0) (data !! "take_profit"%string)) with
                 | Ok q => Ok (PNum q)
                 | Raise e => Raise e
                 end
            else Ok PNone) as [tp|x] eqn:Pt.
  2:{ left. exists x. intros d.
      rewrite (L d "symbol"%string), Esym by discriminate.
      rewrite lookup_insert_eq.
      rewrite (L d "entry_price"%string), Ee by discriminate. rewrite Pe.
      rewrite (L d "stop_loss"%string), Es by discriminate. rewrite Ps.
      rewrite (L d "take_profit"%string) by discriminate. now rewrite Pt. }
  destruct (py_float float_of_string
              (default (PNum 1.0) (data !! "confidence"%string)))
    as [conf|x] eqn:Pc.
  2:{ left. exists x. intros d.
      rewrite (L d "symbol"%string), Esym by discriminate.
      rewrite lookup_insert_eq.
      rewrite (L d "entry_price"%string), Ee by discriminate. rewrite Pe.
      rewrite (L d "stop_loss"%string), Es by discriminate. rewrite Ps.
      rewrite (L d "take_profit"%string) by discriminate. rewrite Pt.
      rewrite (L d "confidence"%string) by discriminate. now rewrite Pc. }
  right. exists sym, ep, sl, tp, conf. intros d.
  rewrite (L d "symbol"%string), Esym by discriminate.
  rewrite lookup_insert_eq.
  rewrite (L d "entry_price"%string), Ee by discriminate. rewrite Pe.
  rewrite (L d "stop_loss"%string), Es by discriminate. rewrite Ps.
  rewrite (L d "take_profit"%string) by discriminate. rewrite Pt.
  rewrite (L d "confidence"%string) by discriminate. now rewrite Pc.
Qed.

(** [execute_trade] on that signal looks at the presence of the direction
    only. *)
Lemma execute_manual_signal (now : datetime) (s : Robot) (sym tp : pyval)
    (ep sl conf : Q) :
  let signal d :=
    ({[ "symbol" := sym;
        "signal" := d;
        "entry_price" := PNum ep;
        "stop_loss" := PNum sl;
        "take_profit" := tp;
        "confidence" := PNum conf;
        "strategy" := PStr "Manual";
        "reason" := PStr "Manual trade execution" ]} : dict) in
  (exists b, b <> Ok true /\ forall d,
     execute_trade SimpleForexTradingRobot now (signal d) s = (b, s)) \/
  (exists t, forall d,
     execute_trade SimpleForexTradingRobot now (signal d) s
       = (Ok true,
          {| risk_manager := risk_manager s;
             heap := heap s ++ [with_direction d t];
             active_trades := active_trades s ++ [length (heap s)];
             trade_history := trade_history s;
             is_running := is_running s |})).
Proof.
  intros signal.
  assert (Lsym : forall d, signal d !! "symbol"%string = Some sym)
    by reflexivity.
  assert (Ldir : forall d, signal d !! "signal"%string = Some d)
    by reflexivity.
  assert (Le : forall d, signal d !! "entry_price"%string = Some (PNum ep))
    by reflexivity.
  assert (Lsl : forall d, signal d !! "stop_loss"%string = Some (PNum sl))
    by reflexivity.
  assert (Ltp : forall d, signal d !! "take_profit"%string = Some tp)
    by reflexivity.
  assert (Lc : forall d, signal d !! "confidence"%string = Some (PNum conf))
    by reflexivity.
  assert (Lst : forall d, signal d !! "strategy"%string = Some (PStr "Manual"))
    by reflexivity.
  assert (Hex : forall d,
            execute_trade SimpleForexTradingRobot now (signal d) s =
            if Qle_bool (daily_pnl (risk_manager s))
                 (- account_balance (risk_manager s)
                    * max_daily_loss (risk_manager s))
            then (Ok false, s)
            else if Qltb conf 0.6 then (Ok false, s)
            else
              match calculate_position_size (risk_manager s) ep sl with
              | Raise x => (Raise x, s)
              | Ok size =>
                  if Qle_bool size 0 then (Ok false, s)
                  else
                    (Ok true,
                     {| risk_manager := risk_manager s;
                        heap := heap s ++
                                [{| id := next_id SimpleForexTradingRobot s;
                                    symbol := sym;
                                    strategy := PStr "Manual";
                                    signal_type := d;
                                    entry_price := ep;
                                    stop_loss := sl;
                                    take_profit := tp;
                                    position_size := size;
                                    entry_time := now;
                                    status := "OPEN";
                                    exit_price := None;
                                    exit_time := None;
                                    pnl := None;
                                    close_reason := None |}];
                        active_trades := active_trades s ++ [length (heap s)];
                        trade_history := trade_history s;
                        is_running := is_running s |})
              end).
  { intros d.
    unfold execute_trade, validate_trade, validate_trade_trace,
      signal_position_size, make_trade, getitem, dict_get, required_fields,
      has_key.
    cbn [forallb]. rewrite Ldir, Le, Lsl, Lc, Lsym, Lst, Ltp.
    destruct (Qle_bool _ _); [reflexivity|]. simpl.
    destruct (Qltb conf 0.6); [reflexivity|]. simpl.
    destruct (calculate_position_size _ _ _) as [size|x]; [|reflexivity].
    simpl. destruct (Qle_bool size 0); reflexivity. }
  destruct (Qle_bool (daily_pnl (risk_manager s)) _) eqn:E1.
  { left. exists (Ok false). split; [discriminate|]. intros d. now rewrite Hex. }
  destruct (Qltb conf 0.6) eqn:E2.
  { left. exists (Ok false). split; [discriminate|]. intros d. now rewrite Hex. }
  destruct (calculate_position_size (risk_manager s) ep sl) as [size|x] eqn:E3.
  2:{ left. exists (Raise x). split; [discriminate|]. intros d. now rewrite Hex. }
  destruct (Qle_bool size 0) eqn:E4.
  { left. exists (Ok false). split; [discriminate|]. intros d. now rewrite Hex. }
  right.
  exists {| id := next_id SimpleForexTradingRobot s;
            symbol := sym;
            strategy := PStr "Manual";
            signal_type := PNone;
            entry_price := ep;
            stop_loss := sl;
            take_profit := tp;
            position_size := size;
            entry_time := now;
            status := "OPEN";
            exit_price := None;
            exit_time := None;
            pnl := None;
            close_reason := None |}.
  intros d. rewrite Hex. reflexivity.
Qed.

(** X10. The manual-trade route does not look at the direction.  Whatever
    the rest of the request and the state of the robot, putting another
    value under 'signal' gives the same status code; when the code is not
    200 nothing changes in either case, and when it is 200 the two requests
    open the same trade but for its [signal_type], which is the value of
    the request: a request accepted with 'BUY' is accepted with any other
    string, number or null there. *)
Theorem manual_trade_ignores_direction (float_of_string : string -> option Q)
    (now : datetime) (data : dict) (d1 d2 : pyval) (s : Robot) :
  let r1 := manual_trade float_of_string now (<["signal" := d1]> data) s in
  let r2 := manual_trade float_of_string now (<["signal" := d2]> data) s in
  fst r1 = fst r2 /\
  (fst r1 <> 200%nat -> snd r1 = s /\ snd r2 = s) /\
  (fst r1 = 200%nat ->
   exists t,
     signal_type t = d1 /\
     heap (snd r1) = heap s ++ [t] /\
     heap (snd r2) = heap s ++ [with_direction d2 t] /\
     active_trades (snd r1) = active_trades s ++ [length (heap s)] /\
     active_trades (snd r2) = active_trades s ++ [length (heap s)] /\
     trade_history (snd r1) = trade_history s /\
     trade_history (snd r2) = trade_history s /\
     risk_manager (snd r1) = risk_manager s /\
     risk_manager (snd r2) = risk_manager s).
Proof.
  cbv zeta. unfold manual_trade.
  assert (Hsz : forall d, Nat.eqb (size (<["signal" := d]> data)) 0 = false).
  { intros d. apply Nat.eqb_neq. intros H. apply map_size_empty_iff in H.
    now apply insert_non_empty in H. }
  assert (Hk : forall d,
            forallb (has_key (<["signal" := d]> data)) manual_required_fields
            = forallb (has_key (<["signal" := d1]> data)) manual_required_fields).
  { intros d. unfold manual_required_fields, has_key. cbn [forallb].
    rewrite !lookup_insert_eq.
    now rewrite !(lookup_insert_ne data "signal"%string) by discriminate. }
  rewrite !Hsz, (Hk d2).
  destruct (negb _).
  { simpl. split_and!; auto; discriminate. }
  destruct (manual_signal_direction float_of_string data)
    as [(x & Hx)|(sym & ep & sl & tp & conf & Hs)].
  { rewrite !Hx. simpl. split_and!; auto; discriminate. }
  rewrite !Hs.
  destruct (execute_manual_signal now s sym tp ep sl conf)
    as [(b & Hb & E)|(t & E)]; rewrite !E.
  - destruct b as [[]|x]; [contradiction| |]; simpl;
      split_and!; auto; discriminate.
  - simpl. split_and!; auto; [intros H; now contradiction H|].
    intros _. exists (with_direction d1 t). split_and!; reflexivity.
Qed.

(** ** Trades that are neither BUY nor SELL *)

Lemma close_trade_other (now : datetime) (trade : ref) (exit : Q)
    (reason : string) (s : Robot) (r : ref) (t : Trade) :
  wf s -> r <> trade -> r ∈ active_trades s -> heap s !! r = Some t ->
  let s' := snd (close_trade now trade exit reason s) in
  (r ∈ active_trades s') /\ heap s' !! r = Some t.
Proof.
  intros Hwf Hne Hin Ht. cbv zeta.
  destruct (heap s !! trade) as [t0|] eqn:Ht0.
  2:{ unfold close_trade. rewrite Ht0. auto. }
  destruct (decide (trade ∈ active_trades s)) as [Ha|Ha].
  - destruct (close_trade_frame s now trade exit reason t0 Hwf Ha Ht0)
      as (s' & -> & _ & _ & _ & _ & Hfr).
    destruct (Hfr r Hne) as (Hh & Hiff). simpl.
    split; [now apply Hiff|now rewrite Hh].
  - rewrite (close_trade_inactive s now trade exit reason t0 Hwf Ht0 Ha). simpl.
    split; [exact Hin|]. now rewrite list_lookup_insert_ne by congruence.
Qed.

(** X11. A trade whose direction is neither 'BUY' nor 'SELL' (the manual
    route lets any value through) is never closed by [monitor_trades],
    whatever the prices: both exit tests need one of the two directions.
    When it is closed by hand [close_trade] takes its else-branch and books
    the P/L of a SELL. *)
Theorem odd_direction_trade (s : Robot) (r : ref) (t : Trade) :
  wf s -> r ∈ active_trades s -> heap s !! r = Some t ->
  signal_type t <> BUY -> signal_type t <> SELL ->
  (forall clock feed,
     let s' := snd (monitor_trades clock feed s) in
     (r ∈ active_trades s') /\ heap s' !! r = Some t) /\
  (forall exit, trade_pnl t exit = (entry_price t - exit) * position_size t).
Proof.
  intros Hwf Hin Ht Hnb Hns.
  assert (Eb : py_eqb (signal_type t) BUY = false).
  { destruct (py_eqb (signal_type t) BUY) eqn:E; [|reflexivity].
    apply py_eqb_str in E. contradiction. }
  assert (Es : py_eqb (signal_type t) SELL = false).
  { destruct (py_eqb (signal_type t) SELL) eqn:E; [|reflexivity].
    apply py_eqb_str in E. contradiction. }
  split.
  - intros clock feed. cbv zeta. unfold monitor_trades.
    assert (Hloop : forall copy k s0,
              wf s0 -> r ∈ active_trades s0 -> heap s0 !! r = Some t ->
              (r ∈ active_trades (snd (monitor_loop clock feed k copy s0))) /\
              heap (snd (monitor_loop clock feed k copy s0)) !! r = Some t);
      [|now apply Hloop].
    clear s Hwf Hin Ht. induction copy as [|trade copy IH];
      intros k s Hwf Hin Ht; simpl; [auto|].
    assert (H : wf (snd (monitor_trade (clock k) (feed k) trade s)) /\
                (r ∈ active_trades (snd (monitor_trade (clock k) (feed k) trade s))) /\
                heap (snd (monitor_trade (clock k) (feed k) trade s)) !! r = Some t).
    { split; [now apply wf_monitor_trade|]. unfold monitor_trade.
      destruct (heap s !! trade) as [t0|] eqn:Ht0; [|auto].
      destruct (Qeq_bool (feed k) 0); [auto|].
      destruct (decide (trade = r)) as [->|Hne].
      - rewrite Ht in Ht0. injection Ht0 as <-.
        unfold stop_loss_hit, take_profit_hit. rewrite Eb, Es. simpl.
        destruct (truthy (take_profit t)); auto.
      - destruct (stop_loss_hit t0 (feed k));
          [apply close_trade_other; auto|].
        destruct (take_profit_hit t0 (feed k)) as [[]|x]; auto.
        apply close_trade_other; auto. }
    destruct (monitor_trade (clock k) (feed k) trade s) as [[u|x] s1];
      simpl in H; destruct H as (H1 & H2 & H3).
    + now apply IH.
    + auto.
  - intros exit. unfold trade_pnl. now rewrite Eb.
Qed.

Lemma odd_direction_trade_witness :
  let s := small_robot_open (PStr "HOLD") (PNum 1.2000) in
  let s' := snd (monitor_trades (fun _ => 1%Z) (fun _ => 1.0000) s) in
  (0%nat ∈ active_trades s') /\
  heap s' !! 0%nat = Some (sample_trade (PStr "HOLD") (PNum 1.2000)) /\
  trade_pnl (sample_trade (PStr "HOLD") (PNum 1.2000)) 1.0000
    = (1.1000 - 1.0000) * (1000 * 0.1).
Proof.
  cbv zeta.
  destruct (odd_direction_trade (small_robot_open (PStr "HOLD") (PNum 1.2000))
              0%nat (sample_trade (PStr "HOLD") (PNum 1.2000)))
    as (Hm & Hp).
  - apply wf_small_robot_open.
  - apply list_elem_of_singleton. reflexivity.
  - reflexivity.
  - discriminate.
  - discriminate.
  - destruct (Hm (fun _ => 1%Z) (fun _ => 1.0000)) as (H1 & H2).
    split; [exact H1|]. split; [exact H2|]. apply Hp.
Defined.

(** ** The close-trade route *)

Lemma find_trade_some (h : list Trade) (trade_id : nat) (l : list ref) (r : ref) :
  find_trade h trade_id l = Some r ->
  r ∈ l /\ exists t, h !! r = Some t /\ id t = trade_id.
Proof.
  unfold find_trade. intros H. apply find_some in H as (Hin & Hr).
  split; [now apply list_elem_of_In|].
  destruct (h !! r) as [t|]; [|discriminate].
  exists t. split; [reflexivity|]. now apply Nat.eqb_eq.
Qed.

Lemma find_trade_none (h : list Trade) (trade_id : nat) (l : list ref) :
  find_trade h trade_id l = None ->
  forall r t, r ∈ l -> h !! r = Some t -> id t <> trade_id.
Proof.
  unfold find_trade. intros H r t Hin Ht Hid.
  apply list_elem_of_In in Hin. pose proof (find_none _ _ H r Hin) as Hf.
  cbv beta in Hf. rewrite Ht in Hf. apply Nat.eqb_neq in Hf. contradiction.
Qed.

(** X12. On a ledger of the web application (consistent, ids following the
    order of creation) [close_trade_manual] answers 404 and changes nothing
    when no open trade has the id; for the open trade that has it, it
    answers 500 and changes nothing when the fetched price is 0, and
    otherwise answers 200 having closed that very trade at the fetched
    price with reason MANUAL_CLOSE, moved it to the end of the history and
    booked its P/L. *)
Theorem close_trade_manual_spec (now : datetime) (price : Q) (trade_id : nat)
    (s : Robot) :
  wf s -> ids_by_ref s ->
  ((forall r t, r ∈ active_trades s -> heap s !! r = Some t -> id t <> trade_id) ->
     close_trade_manual now price trade_id s = (404%nat, s)) /\
  (forall r t,
     r ∈ active_trades s -> heap s !! r = Some t -> id t = trade_id ->
     (price == 0 -> close_trade_manual now price trade_id s = (500%nat, s)) /\
     (~ price == 0 ->
        exists s',
          close_trade_manual now price trade_id s = (200%nat, s') /\
          heap s' !! r = Some (closed t price now MANUAL_CLOSE) /\
          (r ∉ active_trades s') /\
          trade_history s' = trade_history s ++ [r] /\
          account_balance (risk_manager s')
            = account_balance (risk_manager s) + trade_pnl t price /\
          (forall r', r' <> r ->
             heap s' !! r' = heap s !! r' /\
             (r' ∈ active_trades s' <-> r' ∈ active_trades s)))).
Proof.
  intros Hwf Hids. split.
  - intros Hno. unfold close_trade_manual.
    destruct (find_trade _ _ _) as [r|] eqn:E; [|reflexivity].
    apply find_trade_some in E as (Hin & t & Ht & Hid).
    destruct (Hno r t Hin Ht Hid).
  - intros r t Hin Ht Hid. unfold close_trade_manual.
    destruct (find_trade _ _ _) as [r'|] eqn:E.
    2:{ destruct (find_trade_none _ _ _ E r t Hin Ht Hid). }
    apply find_trade_some in E as (Hin' & t' & Ht' & Hid').
    assert (r' = r).
    { pose proof (Hids r t Ht). pose proof (Hids r' t' Ht'). lia. }
    subst r'. split.
    + intros Hz. apply Qeq_bool_iff in Hz. now rewrite Hz.
    + intros Hnz. apply Qeq_bool_false in Hnz. rewrite Hnz.
      destruct (close_trade_frame s now r price MANUAL_CLOSE t Hwf Hin Ht)
        as (s' & Hc & _ & Hh & Hna & Hhist & Hfr).
      pose proof (close_trade_active s now r price MANUAL_CLOSE t Hwf Ht) as Hexp.
      destruct (list_elem_of_split _ _ Hin) as (l1 & l2 & Hact).
      rewrite (Hexp l1 l2 Hact) in Hc. rewrite (Hexp l1 l2 Hact).
      injection Hc as <-. eexists. split; [reflexivity|]. simpl.
      split_and!; auto.
Qed.

Lemma ids_small_robot_open (direction take : pyval) :
  ids_by_ref (small_robot_open direction take).
Proof.
  intros r t Hr. destruct r as [|r]; [now injection Hr as <-|discriminate Hr].
Qed.

Lemma close_trade_manual_spec_witness :
  close_trade_manual 9%Z 1.2000 7%nat (small_robot_open BUY PNone)
    = (404%nat, small_robot_open BUY PNone) /\
  close_trade_manual 9%Z 0 1%nat (small_robot_open BUY PNone)
    = (500%nat, small_robot_open BUY PNone) /\
  exists s',
    close_trade_manual 9%Z 1.2000 1%nat (small_robot_open BUY PNone)
      = (200%nat, s') /\
    trade_history s' = [0%nat] /\
    (close_reason <$> heap s' !! 0%nat) = Some (Some MANUAL_CLOSE).
Proof.
  pose (s := small_robot_open BUY PNone).
  assert (Hin : 0%nat ∈ active_trades s) by (apply list_elem_of_singleton; reflexivity).
  assert (Ht : heap s !! 0%nat = Some (sample_trade BUY PNone)) by reflexivity.
  split_and!.
  - apply (close_trade_manual_spec 9%Z 1.2000 7%nat s
             (wf_small_robot_open BUY PNone) (ids_small_robot_open BUY PNone)).
    intros r t Hr Hr'. apply list_elem_of_singleton in Hr as ->.
    injection Hr' as <-. discriminate.
  - apply (proj2 (close_trade_manual_spec 9%Z 0 1%nat s
                    (wf_small_robot_open BUY PNone)
                    (ids_small_robot_open BUY PNone)) 0%nat _ Hin Ht eq_refl).
    reflexivity.
  - destruct (proj2 (proj2 (close_trade_manual_spec 9%Z 1.2000 1%nat s
                              (wf_small_robot_open BUY PNone)
                              (ids_small_robot_open BUY PNone))
                       0%nat _ Hin Ht eq_refl))
      as (s' & E & Hh & _ & Hhist & _); [intros H; discriminate H|].
    exists s'. split; [exact E|]. split; [exact Hhist|]. now rewrite Hh.
Defined.

(** ** The books of the web application *)

Lemma trade_pnls_app (h : list Trade) (l : list ref) (r : ref) (t : Trade)
    (p : Q) :
  forall ps,
  trade_pnls h l = Ok ps -> h !! r = Some t -> pnl t = Some p ->
  trade_pnls h (l ++ [r]) = Ok (ps ++ [p]).
Proof.
  induction l as [|y l IH]; intros ps Hl Hr Hp; simpl in *.
  - injection Hl as <-. now rewrite Hr, Hp.
  - destruct (h !! y) as [ty|]; [|discriminate].
    destruct (pnl ty) as [py|]; [|discriminate].
    destruct (trade_pnls h l) as [qs|x] eqn:E; [|discriminate].
    injection Hl as <-. now rewrite (IH qs eq_refl Hr Hp).
Qed.

Lemma trade_pnls_ext (h h' : list Trade) (l : list ref) :
  (forall r, r ∈ l -> h' !! r = h !! r) -> trade_pnls h' l = trade_pnls h l.
Proof.
  induction l as [|y l IH]; intros H; simpl; [reflexivity|].
  rewrite (H y) by set_solver. rewrite IH; [reflexivity|].
  intros r Hr. apply H. set_solver.
Qed.

Lemma foldl_Qplus_sum (a : Q) (l : list Q) :
  foldl Qplus a l == a + py_sum l.
Proof.
  induction l as [|x l IH] using rev_ind.
  - unfold py_sum. simpl. lra.
  - rewrite foldl_app, py_sum_app. cbn [foldl]. lra.
Qed.

Lemma books_init : books Robot_init.
Proof.
  split_and!; try reflexivity.
  - intros r Hr. simpl in Hr. set_solver.
  - exists []. split_and!; reflexivity.
Qed.

Lemma books_close (now : datetime) (trade : ref) (exit : Q) (reason : string)
    (s : Robot) :
  wf s -> books s -> trade ∈ active_trades s ->
  reason = STOP_LOSS \/ reason = TAKE_PROFIT \/ reason = MANUAL_CLOSE ->
  books (snd (close_trade now trade exit reason s)).
Proof.
  intros Hwf (Hset & Hr1 & Hr2 & pnls & Hp & Hb & Hd) Hin Hreason.
  destruct (wf_active s Hwf trade Hin) as (t & Ht & _).
  pose proof (active_not_history s trade Hwf Hin) as Hnh.
  destruct (list_elem_of_split _ _ Hin) as (l1 & l2 & Hact).
  rewrite (close_trade_active s now trade exit reason t Hwf Ht l1 l2 Hact).
  assert (Hold : forall r, r ∈ trade_history s ->
            <[trade := closed t exit now reason]> (heap s) !! r = heap s !! r).
  { intros r Hr. apply list_lookup_insert_ne. intros ->. contradiction. }
  pose proof (closed_lookup s now trade exit reason t Ht) as Hnew.
  split_and!; simpl; auto.
  - intros r Hr. apply elem_of_app in Hr as [Hr|Hr].
    + rewrite (Hold r Hr). now apply Hset.
    + apply list_elem_of_singleton in Hr as ->. eexists. split; [exact Hnew|].
      exists exit. split_and!; try reflexivity; [discriminate|].
      simpl. destruct Hreason as [-> | [-> | ->]]; auto.
  - exists (pnls ++ [trade_pnl t exit]). split_and!.
    + apply (trade_pnls_app _ _ _ (closed t exit now reason) _ pnls);
        [|exact Hnew|reflexivity].
      now rewrite (trade_pnls_ext (heap s)).
    + rewrite Hb, foldl_app. reflexivity.
    + rewrite Hd, py_sum_app. reflexivity.
Qed.

Lemma books_execute (e : engine) (now : datetime) (signal : dict) (s : Robot) :
  books s -> books (snd (execute_trade e now signal s)).
Proof.
  intros Hb.
  destruct (execute_trade_cases e now signal s)
    as [(x & ->)|[->|(size & t & _ & _ & _ & _ & ->)]]; try exact Hb.
  destruct Hb as (Hset & Hr1 & Hr2 & pnls & Hp & Hb & Hd).
  assert (Hold : forall r, r ∈ trade_history s ->
            (heap s ++ [t]) !! r = heap s !! r).
  { intros r Hr. destruct (Hset r Hr) as (tr & Htr & _).
    apply lookup_app_l. now apply lookup_lt_Some in Htr. }
  split_and!; simpl; auto.
  - intros r Hr. rewrite (Hold r Hr). now apply Hset.
  - exists pnls. split_and!; auto. now rewrite (trade_pnls_ext (heap s)).
Qed.

Lemma books_monitor_loop (clock : nat -> datetime) (feed : nat -> Q)
    (copy : list ref) :
  forall k s,
  wf s -> books s -> NoDup copy -> (forall r, r ∈ copy -> r ∈ active_trades s) ->
  books (snd (monitor_loop clock feed k copy s)).
Proof.
  induction copy as [|trade copy IH]; intros k s Hwf Hb Hnd Hact; simpl;
    [exact Hb|].
  apply NoDup_cons in Hnd as (Hni & Hnd).
  assert (Hin : trade ∈ active_trades s) by (apply Hact; set_solver).
  destruct (wf_active s Hwf trade Hin) as (t & Ht & _).
  assert (Hclose : forall reason,
            reason = STOP_LOSS \/ reason = TAKE_PROFIT \/ reason = MANUAL_CLOSE ->
            books (snd (match close_trade (clock k) trade (feed k) reason s with
                        | (Raise x, s') => (Raise x, s')
                        | (Ok _, s') => monitor_loop clock feed (S k) copy s'
                        end))).
  { intros reason Hreason.
    pose proof (books_close (clock k) trade (feed k) reason s Hwf Hb Hin Hreason)
      as Hb'.
    destruct (close_trade_frame s (clock k) trade (feed k) reason t Hwf Hin Ht)
      as (s' & Hc & Hwf' & _ & _ & _ & Hfr).
    rewrite Hc in *. simpl in Hb'. apply IH; auto.
    intros r Hr. apply Hfr; [intros ->; contradiction|]. apply Hact. set_solver. }
  assert (Hkeep : books (snd (monitor_loop clock feed (S k) copy s))).
  { apply IH; auto. intros r Hr. apply Hact. set_solver. }
  unfold monitor_trade. rewrite Ht.
  destruct (Qeq_bool (feed k) 0); [exact Hkeep|].
  destruct (stop_loss_hit t (feed k)); [apply Hclose; auto|].
  destruct (take_profit_hit t (feed k)) as [[]|x];
    [apply Hclose; auto|exact Hkeep|exact Hb].
Qed.

Lemma books_serve (float_of_string : string -> option Q) (s : Robot)
    (q : request) :
  wf s -> books s -> books (serve float_of_string s q).
Proof.
  intros Hwf Hb.
  destruct q as [clock feed|now signal|now data|now price trade_id]; simpl.
  - apply books_monitor_loop; auto.
    pose proof (wf_nodup s Hwf) as Hnd. now apply NoDup_app in Hnd as (Hnd & _).
  - now apply books_execute.
  - unfold manual_trade.
    destruct (Nat.eqb (size data) 0); [exact Hb|].
    destruct (negb _); [exact Hb|].
    destruct (manual_signal float_of_string data) as [signal|x]; [|exact Hb].
    pose proof (books_execute SimpleForexTradingRobot now signal s Hb) as H.
    now destruct (execute_trade _ _ _ _) as [[[]|x] s1].
  - unfold close_trade_manual.
    destruct (find_trade _ _ _) as [trade|] eqn:E; [|exact Hb].
    apply find_trade_some in E as (Hin & _).
    destruct (Qeq_bool price 0); [exact Hb|].
    pose proof (books_close now trade price MANUAL_CLOSE s Hwf Hb Hin) as H.
    destruct (close_trade _ _ _ _ _) as [[u|x] s1]; apply H; auto.
Qed.

Lemma books_reqs (float_of_string : string -> option Q) (reqs : list request) :
  wf (foldl (serve float_of_string) Robot_init reqs) /\
  books (foldl (serve float_of_string) Robot_init reqs).
Proof.
  assert (H0 : wf Robot_init /\ books Robot_init)
    by (split; [apply wf_init|apply books_init]).
  revert H0. generalize Robot_init.
  induction reqs as [|q reqs IH]; intros s (Hwf & Hb); simpl; [auto|].
  apply IH. split; [now apply wf_serve|now apply books_serve].
Qed.

(** X13. The books of the web application balance.  Whatever requests and
    trading cycles it serves from its fresh robot: every trade of
    [trade_history] carries its exit price, its exit time, one of the three
    close reasons and the P/L that [close_trade] computed from its exit
    price; [account_balance] is the initial 10000 to which these P/L were
    added one after the other in the order of the history, by the very
    additions listed; [daily_pnl] is the same P/L added up from 0 in that
    order, as nothing ever resets it, which is also what [sum] returns for
    the total P/L of the statistics; and the two risk limits are still 2%
    and 5%. *)
Theorem web_books_balance (float_of_string : string -> option Q)
    (reqs : list request) :
  let s := foldl (serve float_of_string) Robot_init reqs in
  (forall r, r ∈ trade_history s ->
     exists t exit,
       heap s !! r = Some t /\ status t = "CLOSED"%string /\
       exit_price t = Some exit /\ pnl t = Some (trade_pnl t exit) /\
       exit_time t <> None /\
       (close_reason t = Some STOP_LOSS \/ close_reason t = Some TAKE_PROFIT \/
        close_reason t = Some MANUAL_CLOSE)) /\
  (exists pnls,
     trade_pnls (heap s) (trade_history s) = Ok pnls /\
     account_balance (risk_manager s) = foldl Qplus 10000 pnls /\
     daily_pnl (risk_manager s) = foldl Qplus 0 pnls) /\
  max_risk_per_trade (risk_manager s) = 0.02 /\
  max_daily_loss (risk_manager s) = 0.05.
Proof.
  destruct (books_reqs float_of_string reqs)
    as (Hwf & Hset & Hr1 & Hr2 & pnls & Hp & Hb & Hd).
  cbv zeta. split_and!; auto.
  - intros r Hr. destruct (Hset r Hr) as (t & Ht & exit & He & Hpn & Htime & Hre).
    destruct (wf_history _ Hwf r Hr) as (t' & Ht' & Hcl).
    rewrite Ht in Ht'. injection Ht' as <-.
    exists t, exit. split_and!; auto.
  - exists pnls. split_and!; auto.
Qed.

(** ** [get_performance_stats] *)

Lemma trade_pnls_length (h : list Trade) (l : list ref) :
  forall ps, trade_pnls h l = Ok ps -> length ps = length l.
Proof.
  induction l as [|y l IH]; intros ps H; simpl in *.
  - now injection H as <-.
  - destruct (h !! y) as [ty|]; [|discriminate].
    destruct (pnl ty) as [py|]; [|discriminate].
    destruct (trade_pnls h l) as [qs|x]; [|discriminate].
    injection H as <-. simpl. now rewrite (IH qs eq_refl).
Qed.

Lemma trade_pnls_raise (h : list Trade) (l : list ref) (x : exn) :
  trade_pnls h l = Raise x -> x = KeyError.
Proof.
  induction l as [|y l IH]; simpl; [discriminate|].
  destruct (h !! y) as [ty|]; [|congruence].
  destruct (pnl ty) as [py|]; [|congruence].
  destruct (trade_pnls h l) as [qs|x']; [discriminate|].
  intros [= <-]. now apply IH.
Qed.

Lemma winners_losers (l : list Q) :
  (length (List.filter (fun p => Qgtb p 0) l)
   + length (List.filter (fun p => Qle_bool p 0) l))%nat = length l.
Proof.
  induction l as [|p l IH]; simpl; [reflexivity|].
  unfold Qgtb, Qltb in *. destruct (Qle_bool p 0); simpl; lia.
Qed.

Lemma win_rate_range (w t : Z) :
  (0 <= w <= t)%Z -> (0 < t)%Z ->
  0 <= inject_Z w / inject_Z t * 100 <= 100 /\
  inject_Z w / inject_Z t * 100 * inject_Z t == 100 * inject_Z w.
Proof.
  intros (Hw & Hwt) Ht.
  assert (HT : 0 < inject_Z t) by (change 0 with (inject_Z 0); now rewrite <- Zlt_Qlt).
  assert (HW : 0 <= inject_Z w) by (change 0 with (inject_Z 0); now rewrite <- Zle_Qle).
  assert (HWT : inject_Z w <= inject_Z t) by now rewrite <- Zle_Qle.
  assert (H0 : 0 <= inject_Z w / inject_Z t).
  { apply Qle_shift_div_l; [exact HT|lra]. }
  assert (H1 : inject_Z w / inject_Z t <= 1).
  { apply Qle_shift_div_r; [exact HT|lra]. }
  split; [lra|]. field. lra.
Qed.

(** X14. [get_performance_stats].  With an empty history it returns the
    message.  With a history whose trades all carry a P/L (as every history
    of the web application does) it returns the statistics and never
    divides by zero: the winners are the trades with a P/L above 0, the
    losers all the others, a break-even trade included, so that winners and
    losers add up to the total; the win rate is the rounding of a number
    between 0 and 100, the total P/L the rounding of the sum of the P/L.
    A trade of the history without a P/L makes it raise KeyError. *)
Theorem get_performance_stats_spec (round2 : Q -> Q) (s : Robot) :
  (trade_history s = [] ->
     get_performance_stats round2 s = Ok (Message "No trades executed yet")) /\
  (trade_history s <> [] ->
   forall pnls,
     trade_pnls (heap s) (trade_history s) = Ok pnls ->
     exists st w,
       get_performance_stats round2 s = Ok (Stats st) /\
       PerformanceStats.total_trades st = Z.of_nat (length (trade_history s)) /\
       PerformanceStats.winning_trades st
         = Z.of_nat (length (List.filter (fun p => Qgtb p 0) pnls)) /\
       PerformanceStats.losing_trades st
         = Z.of_nat (length (List.filter (fun p => Qle_bool p 0) pnls)) /\
       (PerformanceStats.winning_trades st + PerformanceStats.losing_trades st
        = PerformanceStats.total_trades st)%Z /\
       PerformanceStats.win_rate st = round2 w /\ 0 <= w <= 100 /\
       w * inject_Z (PerformanceStats.total_trades st)
         == 100 * inject_Z (PerformanceStats.winning_trades st) /\
       PerformanceStats.total_pnl st = round2 (py_sum pnls) /\
       PerformanceStats.account_balance st
         = round2 (account_balance (risk_manager s)) /\
       PerformanceStats.active_trades st
         = Z.of_nat (length (active_trades s))) /\
  (trade_history s <> [] ->
   forall x,
     trade_pnls (heap s) (trade_history s) = Raise x ->
     get_performance_stats round2 s = Raise KeyError).
Proof.
  unfold get_performance_stats. split_and!.
  - now intros ->.
  - intros Hne pnls Hp. destruct (trade_history s) as [|r0 l0] eqn:Eh;
      [contradiction|]. rewrite Hp. unfold mbind, result_bind.
    pose proof (trade_pnls_length _ _ _ Hp) as Hlen.
    pose proof (winners_losers pnls) as Hwl.
    set (total := Z.of_nat (length (r0 :: l0))) in *.
    set (win := Z.of_nat (length (List.filter (fun p => Qgtb p 0) pnls))) in *.
    assert (Htot : (0 < total)%Z) by (unfold total; simpl; lia).
    assert (Hwin : (0 <= win <= total)%Z) by (unfold win, total; lia).
    destruct (win_rate_range win total Hwin Htot) as (Hrange & Hmul).
    apply Z.ltb_lt in Htot as Hb. rewrite Hb. unfold py_div.
    assert (Hnz : Qeq_bool (inject_Z total) 0 = false).
    { apply Qeq_bool_false. change 0 with (inject_Z 0). rewrite inject_Z_injective.
      lia. }
    rewrite Hnz. eexists. exists (inject_Z win / inject_Z total * 100).
    split; [reflexivity|]. simpl. split_and!; auto; try lra.
    + unfold total, win. lia.
    + unfold total, win. lia.
  - intros Hne x Hx. destruct (trade_history s) as [|r0 l0]; [contradiction|].
    rewrite Hx. apply trade_pnls_raise in Hx as ->. reflexivity.
Qed.

Lemma get_performance_stats_spec_witness :
  exists st,
    get_performance_stats (fun q => q) small_robot_closed = Ok (Stats st) /\
    PerformanceStats.total_trades st = 1%Z /\
    PerformanceStats.winning_trades st = 1%Z /\
    PerformanceStats.losing_trades st = 0%Z.
Proof.
  destruct (proj1 (proj2 (get_performance_stats_spec (fun q => q)
                            small_robot_closed))
              ltac:(discriminate) [(1.1100 - 1.1000) * (1000 * 0.1)] eq_refl)
    as (st & w & E & Ht & Hw & Hl & _).
  exists st. split; [exact E|]. split; [exact Ht|]. split; [exact Hw|exact Hl].
Defined.

(** ** The daily-loss breaker *)

Lemma validate_trade_tripped (rm : RiskManager) (signal : dict) :
  daily_loss_tripped rm -> validate_trade rm signal = Ok false.
Proof.
  unfold daily_loss_tripped, validate_trade, validate_trade_trace. intros H.
  apply Qle_bool_iff in H. now rewrite H.
Qed.

Lemma serve_halted (float_of_string : string -> option Q) (s : Robot)
    (q : request) :
  daily_loss_tripped (risk_manager s) -> active_trades s = [] ->
  serve float_of_string s q = s.
Proof.
  intros Htr Hact.
  destruct q as [clock feed|now signal|now data|now price trade_id]; simpl.
  - unfold monitor_trades. now rewrite Hact.
  - unfold execute_trade. now rewrite validate_trade_tripped.
  - unfold manual_trade.
    destruct (Nat.eqb (size data) 0); [reflexivity|].
    destruct (negb _); [reflexivity|].
    destruct (manual_signal float_of_string data) as [signal|x]; [|reflexivity].
    unfold execute_trade. now rewrite validate_trade_tripped.
  - unfold close_trade_manual. now rewrite Hact.
Qed.

(** X15. Once the daily loss has reached the limit, [execute_trade]
    returns False on every signal, well-formed or not, and [manual_trade]
    answers 400 or 500; the state is left as it is.  As nothing resets
    [daily_pnl], only the closing of an open trade can lift the limit: with
    no open trade, no sequence of trading cycles and manual requests
    changes the robot any more. *)
Theorem daily_loss_breaker_halts (float_of_string : string -> option Q)
    (s : Robot) :
  daily_loss_tripped (risk_manager s) ->
  (forall e now signal, execute_trade e now signal s = (Ok false, s)) /\
  (forall now data,
     exists code,
       manual_trade float_of_string now data s = (code, s) /\
       (code = 400 \/ code = 500)%nat) /\
  (active_trades s = [] ->
   forall reqs, foldl (serve float_of_string) s reqs = s).
Proof.
  intros Htr. split_and!.
  - intros e now signal. unfold execute_trade.
    now rewrite validate_trade_tripped.
  - intros now data. unfold manual_trade.
    destruct (Nat.eqb (size data) 0); [eauto|].
    destruct (negb _); [eauto|].
    destruct (manual_signal float_of_string data) as [signal|x]; [|eauto].
    unfold execute_trade. rewrite validate_trade_tripped by exact Htr. eauto.
  - intros Hact reqs. induction reqs as [|q reqs IH]; simpl; [reflexivity|].
    now rewrite serve_halted.
Qed.

Lemma daily_loss_breaker_halts_witness :
  let s := {| risk_manager := tripped_manager; heap := []; active_trades := [];
              trade_history := []; is_running := true |} in
  execute_trade ForexTradingRobot 0%Z (sample_signal BUY 0.9 PNone) s
    = (Ok false, s) /\
  foldl (serve (fun _ => None)) s
    [ReqExecute 1%Z (sample_signal SELL 0.9 PNone);
     ReqMonitor (fun _ => 2%Z) (fun _ => 1.1000)] = s.
Proof.
  cbv zeta.
  assert (Htr : daily_loss_tripped tripped_manager).
  { unfold daily_loss_tripped. simpl. lra. }
  pose proof (daily_loss_breaker_halts (fun _ => None)
                {| risk_manager := tripped_manager; heap := [];
                   active_trades := []; trade_history := [];
                   is_running := true |} Htr) as (He & _ & Hh).
  split; [apply He|apply Hh; reflexivity].
Defined.

(** X16. In the web application the daily-loss limit is a limit on the
    balance: as [daily_pnl] is the whole P/L since the start, the limit is
    reached exactly when the balance has fallen to 10000/1.05 = 200000/21
    (about 9523.81) or below, whatever the day. *)
Theorem web_daily_loss_threshold (float_of_string : string -> option Q)
    (reqs : list request) :
  let s := foldl (serve float_of_string) Robot_init reqs in
  daily_loss_tripped (risk_manager s) <->
  account_balance (risk_manager s) <= 200000 # 21.
Proof.
  destruct (books_reqs float_of_string reqs)
    as (_ & _ & _ & Hr2 & pnls & _ & Hb & Hd).
  cbv zeta. unfold daily_loss_tripped. rewrite Hr2, Hb, Hd.
  change (account_balance RiskManager_init) with 10000.
  change (max_daily_loss RiskManager_init) with 0.05.
  pose proof (foldl_Qplus_sum 10000 pnls) as Hs.
  split; intros H; lra.
Qed.

(** ** The trading cycle *)

Lemma stamp_lookup (name sym : string) (now : datetime) (sig : dict) :
  let signal := stamp name sym now sig in
  signal !! "symbol"%string = Some (PStr sym) /\
  signal !! "strategy"%string = Some (PStr name) /\
  signal !! "signal"%string = sig !! "signal"%string /\
  signal !! "entry_price"%string = sig !! "entry_price"%string /\
  signal !! "stop_loss"%string = sig !! "stop_loss"%string /\
  signal !! "take_profit"%string = sig !! "take_profit"%string /\
  signal !! "confidence"%string = sig !! "confidence"%string.
Proof.
  cbv zeta. unfold stamp. split_and!.
  - rewrite lookup_insert_ne by discriminate. now rewrite lookup_insert_eq.
  - rewrite !lookup_insert_ne by discriminate. now rewrite lookup_insert_eq.
  - now rewrite !lookup_insert_ne by discriminate.
  - now rewrite !lookup_insert_ne by discriminate.
  - now rewrite !lookup_insert_ne by discriminate.
  - now rewrite !lookup_insert_ne by discriminate.
  - now rewrite !lookup_insert_ne by discriminate.
Qed.

(** [execute_trade] does not raise on a signal that has the keys it reads,
    with numbers for the prices and the confidence. *)
Lemma execute_trade_no_raise (e : engine) (now : datetime) (signal : dict)
    (s : Robot) (sym strat dir : pyval) (entry sl c : Q) :
  signal !! "symbol"%string = Some sym ->
  signal !! "strategy"%string = Some strat ->
  signal !! "signal"%string = Some dir ->
  signal !! "entry_price"%string = Some (PNum entry) ->
  signal !! "stop_loss"%string = Some (PNum sl) ->
  signal !! "confidence"%string = Some (PNum c) ->
  forall x, execute_trade e now signal s <> (Raise x, s).
Proof.
  intros Hsym Hstrat Hdir He Hsl Hc x.
  unfold execute_trade, validate_trade, validate_trade_trace, dict_get.
  destruct (Qle_bool _ _); [discriminate|].
  destruct (negb _); [discriminate|].
  rewrite Hc. simpl. destruct (Qltb c 0.6); [discriminate|].
  unfold signal_position_size, getitem. rewrite He, Hsl. simpl.
  destruct (Qeq_dec entry sl) as [E|E].
  - rewrite (calculate_position_size_equal _ entry sl E). discriminate.
  - rewrite (calculate_position_size_differ _ entry sl E).
    destruct (Qle_bool _ 0); [discriminate|].
    unfold make_trade, getitem. rewrite Hsym, Hstrat, Hdir, He, Hsl. simpl.
    discriminate.
Qed.

Lemma make_trade_labels (e : engine) (now : datetime) (signal : dict) (size : Q)
    (s : Robot) (t : Trade) :
  make_trade e now signal size s = Ok t ->
  signal !! "symbol"%string = Some (symbol t) /\
  signal !! "strategy"%string = Some (strategy t).
Proof.
  unfold make_trade, getitem, mbind, result_bind, as_num.
  destruct (signal !! "symbol"%string); [|discriminate].
  destruct (signal !! "strategy"%string); [|discriminate].
  destruct (signal !! "signal"%string); [|discriminate].
  destruct (signal !! "entry_price"%string) as [[]|]; try discriminate.
  destruct (signal !! "stop_loss"%string) as [[]|]; try discriminate.
  intros [= <-]. simpl. auto.
Qed.

Lemma opens_refl (s : Robot) : opens s s [].
Proof.
  unfold opens. simpl. now rewrite !app_nil_r.
Qed.

Lemma opens_trans (s s1 s2 : Robot) (n1 n2 : list Trade) :
  opens s s1 n1 -> opens s1 s2 n2 -> opens s s2 (n1 ++ n2).
Proof.
  intros (Hh1 & Ha1 & Ht1 & Hr1 & Hi1) (Hh2 & Ha2 & Ht2 & Hr2 & Hi2).
  unfold opens. split_and!; try congruence.
  - rewrite Hh2, Hh1. now rewrite app_assoc.
  - rewrite Ha2, Ha1, Hh1, !length_app, seq_app. now rewrite app_assoc.
Qed.

Section CycleFacts.
Variable Data : Type.
Variable e : engine.
Variable strategies : list (string * (Data -> result dict)).
Variable is_empty : Data -> bool.
Variable get_data : string -> Data.
Variable stamped_at : string -> nat -> datetime.
Variable executed_at : string -> nat -> datetime.
Variable symbols : list string.
Hypothesis strategies_total :
  forall name generate_signal data,
    (name, generate_signal) ∈ strategies ->
    exists sig, generate_signal data = Ok sig /\ strategy_signal sig.

(** A signal of [analyze_market] for the symbol. *)
Let analysed (sym : string) (signal : dict) : Prop :=
  exists name generate_signal sig now,
    (name, generate_signal) ∈ strategies /\
    generate_signal (get_data sym) = Ok sig /\ strategy_signal sig /\
    signal = stamp name sym now sig.

Lemma analyze_loop_spec (sym : string) (rest : list (string * (Data -> result dict))) :
  forall j,
  rest ⊆ strategies ->
  exists signals,
    analyze_loop Data stamped_at sym (get_data sym) j rest = Ok signals /\
    length signals = length rest /\ Forall (analysed sym) signals.
Proof.
  induction rest as [|[name gen] rest IH]; intros j Hsub; simpl.
  - exists []. auto.
  - destruct (strategies_total name gen (get_data sym)) as (sig & E & Hsig);
      [apply Hsub; set_solver|].
    destruct (IH (S j)) as (signals & E' & Hlen & Hall); [set_solver|].
    rewrite E. unfold mbind, result_bind at 1. fold (@mbind result _).
    rewrite E'. eexists. split; [reflexivity|]. simpl. split; [now rewrite Hlen|].
    constructor; [|exact Hall].
    exists name, gen, sig, (stamped_at sym j). split_and!; auto.
    apply Hsub. set_solver.
Qed.

Lemma analyze_market_spec (sym : string) :
  exists signals,
    analyze_market Data strategies is_empty get_data stamped_at sym = Ok signals /\
    (length signals <= length strategies)%nat /\ Forall (analysed sym) signals.
Proof.
  unfold analyze_market. destruct (is_empty (get_data sym)).
  - exists []. split_and!; [reflexivity|simpl; lia|constructor].
  - destruct (analyze_loop_spec sym strategies 0) as (signals & E & Hlen & Hall);
      [set_solver|].
    exists signals. split_and!; auto. lia.
Qed.

Lemma execute_signals_spec (sym : string) (signals : list dict) :
  sym ∈ symbols ->
  forall j s,
  wf s -> Forall (analysed sym) signals ->
  exists s' news,
    execute_signals e executed_at sym j signals s = (Ok tt, s') /\
    opens s s' news /\ (length news <= length signals)%nat /\
    Forall (cycle_trade strategies get_data symbols (risk_manager s)) news /\
    wf s'.
Proof.
  intros Hsym. induction signals as [|signal signals IH]; intros j s Hwf Hall.
  - exists s, []. split_and!; auto. apply opens_refl.
  - apply Forall_cons in Hall as ((name & gen & sig & now & Hin & Hgen & Hsig & ->)
                                  & Hall).
    destruct (stamp_lookup name sym now sig)
      as (Lsym & Lstrat & Ldir & Le & Lsl & Ltp & Lc).
    simpl. unfold getitem at 1. rewrite Ldir.
    assert (Hskip : exists s' news,
              execute_signals e executed_at sym (S j) signals s = (Ok tt, s') /\
              opens s s' news /\ (length news <= length (stamp name sym now sig :: signals))%nat /\
              Forall (cycle_trade strategies get_data symbols (risk_manager s)) news /\
              wf s').
    { destruct (IH (S j) s Hwf Hall) as (s' & news & E & Ho & Hlen & Hn & Hwf').
      exists s', news. split_and!; auto. simpl. lia. }
    destruct Hsig
      as [(reason & ->)|(dir & c & reason & en & sl & take & -> & Hdir & Htake)].
    + rewrite hold_signal_direction. exact Hskip.
    + destruct (trade_signal_lookup dir c reason (PNum en) (PNum sl) take)
        as (Tdir & Te & Tsl).
      rewrite Tdir in *. rewrite Te in Le. rewrite Tsl in Lsl.
      assert (Hb : py_eqb dir BUY || py_eqb dir SELL = true)
        by (destruct Hdir as [-> | ->]; reflexivity).
      rewrite Hb.
      destruct (execute_trade_cases e (executed_at sym j)
                  (stamp name sym now (trade_signal dir c reason (PNum en) (PNum sl) take)) s)
        as [(x & E)|[E|(size & t & Hv & Hs & Hpos & Hm & E)]].
      * assert (Tc : trade_signal dir c reason (PNum en) (PNum sl) take
                       !! "confidence"%string = Some (PNum c)) by reflexivity.
        rewrite Tc in Lc.
        destruct (execute_trade_no_raise e (executed_at sym j)
                    (stamp name sym now
                       (trade_signal dir c reason (PNum en) (PNum sl) take))
                    s (PStr sym) (PStr name) dir
                    en sl c Lsym Lstrat Ldir Le Lsl Lc x E).
      * rewrite E. exact Hskip.
      * rewrite E.
        set (s1 := {| risk_manager := risk_manager s; heap := heap s ++ [t];
                      active_trades := active_trades s ++ [length (heap s)];
                      trade_history := trade_history s;
                      is_running := is_running s |}).
        assert (Hwf1 : wf s1).
        { pose proof (wf_execute e (executed_at sym j)
                        (stamp name sym now
                           (trade_signal dir c reason (PNum en) (PNum sl) take))
                        s Hwf) as H.
          now rewrite E in H. }
        destruct (IH (S j) s1 Hwf1 Hall) as (s' & news & E' & Ho & Hlen & Hn & Hwf').
        exists s', ([t] ++ news). split_and!; auto.
        -- apply (opens_trans s s1 s'); [|exact Ho]. unfold opens. simpl. auto.
        -- simpl. lia.
        -- apply Forall_app. split; [|exact Hn]. apply Forall_singleton.
           destruct (make_trade_labels _ _ _ _ _ _ Hm) as (Msym & Mstrat).
           rewrite Lsym in Msym. rewrite Lstrat in Mstrat.
           apply make_trade_inv in Hm
             as (Hopen & _ & Hsz & _ & Htp & Hsig & He & Hsl).
           apply signal_position_size_inv in Hs as (e0 & sl0 & He0 & Hsl0 & Hcalc).
           rewrite He in He0. rewrite Hsl in Hsl0.
           injection He0 as <-. injection Hsl0 as <-.
           destruct (positive_size_inv _ _ _ _ Hcalc Hpos) as (Hne & Hle & _).
           exists sym, name, gen,
             (trade_signal dir c reason (PNum en) (PNum sl) take).
           rewrite Ldir in Hsig. injection Hsig as <-.
           rewrite Le in He. injection He as He. rewrite Lsl in Hsl.
           injection Hsl as Hsl. rewrite <- He, <- Hsl in *. rewrite Hsz.
           assert (Ttp : take_profit t = take).
           { rewrite Htp. unfold dict_get. now rewrite Ltp. }
           assert (Hty : take_profit_typed t).
           { intros x Hx. apply (Htake x). congruence. }
           split_and!; auto; congruence.
Qed.

Lemma cycle_loop_spec (rest : list string) :
  rest ⊆ symbols ->
  forall s,
  wf s ->
  exists s' news,
    cycle_loop Data e strategies is_empty get_data stamped_at executed_at rest s
      = (Ok tt, s') /\
    opens s s' news /\
    (length news <= length rest * length strategies)%nat /\
    Forall (cycle_trade strategies get_data symbols (risk_manager s)) news /\
    wf s'.
Proof.
  induction rest as [|sym rest IH]; intros Hsub s Hwf; simpl.
  - exists s, []. split_and!; auto. apply opens_refl.
  - destruct (analyze_market_spec sym) as (signals & E & Hlen & Hall).
    rewrite E.
    destruct (execute_signals_spec sym signals) with (j := 0%nat) (s := s)
      as (s1 & n1 & E1 & Ho1 & Hl1 & Hn1 & Hwf1); auto; [set_solver|].
    rewrite E1.
    destruct IH with (s := s1) as (s' & n2 & E2 & Ho2 & Hl2 & Hn2 & Hwf');
      auto; [set_solver|].
    exists s', (n1 ++ n2). split_and!; auto.
    + now apply (opens_trans s s1 s').
    + rewrite length_app. lia.
    + apply Forall_app. split; [exact Hn1|].
      destruct Ho1 as (_ & _ & _ & <- & _). exact Hn2.
Qed.
End CycleFacts.


Lemma typed_close (now : datetime) (trade : ref) (exit : Q) (reason : string)
    (s : Robot) :
  typed_heap s -> typed_heap (snd (close_trade now trade exit reason s)).
Proof.
  intros Hty r t' Hr.
  destruct (close_trade_heap now trade exit reason s) as [E|(t & Ht & E)];
    rewrite E in Hr; [now apply (Hty r)|].
  destruct (decide (r = trade)) as [->|Hne].
  - rewrite list_lookup_insert_eq in Hr by now apply lookup_lt_Some in Ht.
    injection Hr as <-. exact (Hty trade t Ht).
  - rewrite list_lookup_insert_ne in Hr by congruence. now apply (Hty r).
Qed.

Lemma typed_monitor_loop (clock : nat -> datetime) (feed : nat -> Q)
    (copy : list ref) :
  forall k s,
  typed_heap s -> typed_heap (snd (monitor_loop clock feed k copy s)).
Proof.
  induction copy as [|trade copy IH]; intros k s Hty; simpl; [exact Hty|].
  assert (H : typed_heap (snd (monitor_trade (clock k) (feed k) trade s))).
  { unfold monitor_trade. destruct (heap s !! trade) as [t|]; [|exact Hty].
    destruct (Qeq_bool _ _); [exact Hty|].
    destruct (stop_loss_hit _ _); [now apply typed_close|].
    destruct (take_profit_hit _ _) as [[]|x]; try exact Hty.
    now apply typed_close. }
  destruct (monitor_trade (clock k) (feed k) trade s) as [[u|x] s1]; simpl in H.
  - now apply IH.
  - exact H.
Qed.

Lemma typed_opens {Data : Type}
    (strategies : list (string * (Data -> result dict)))
    (get_data : string -> Data) (symbols : list string) (rm : RiskManager)
    (s s' : Robot) (news : list Trade) :
  typed_heap s -> opens s s' news ->
  Forall (cycle_trade strategies get_data symbols rm) news -> typed_heap s'.
Proof.
  intros Hty (Hh & _) Hn r t Hr. rewrite Hh in Hr.
  apply lookup_app_Some in Hr as [Hr|(_ & Hr)]; [now apply (Hty r)|].
  rewrite Forall_forall in Hn.
  destruct (Hn t) as (sym & name & gen & sig & H); [now apply list_elem_of_lookup_2 in Hr|].
  apply H.
Qed.

(** One cycle of either robot, from a consistent ledger without a string
    as take-profit. *)
Lemma run_trading_cycle_spec {Data : Type} (e : engine)
    (strategies : list (string * (Data -> result dict)))
    (is_empty : Data -> bool) (get_data : string -> Data)
    (stamped_at executed_at : string -> nat -> datetime)
    (symbols : list string) (clock : nat -> datetime) (feed : nat -> Q)
    (s : Robot) :
  (forall name generate_signal data,
     (name, generate_signal) ∈ strategies ->
     exists sig, generate_signal data = Ok sig /\ strategy_signal sig) ->
  wf s -> typed_heap s ->
  exists s1 s' news,
    monitor_trades clock feed s = (Ok tt, s1) /\
    run_trading_cycle Data e strategies is_empty get_data stamped_at executed_at
      symbols clock feed s = (Ok tt, s') /\
    opens s1 s' news /\
    (length news <= length symbols * length strategies)%nat /\
    Forall (cycle_trade strategies get_data symbols (risk_manager s1)) news /\
    wf s' /\ typed_heap s'.
Proof.
  intros Htot Hwf Hty. pose proof (wf_nodup s Hwf) as Hnd.
  apply NoDup_app in Hnd as (Hnd & _ & _).
  destruct (monitor_loop_spec clock feed (active_trades s) 0 s Hwf Hnd)
    as (s1 & l & E & Hwf1 & _); [auto|intros r t _ Hr; exact (Hty r t Hr)|].
  pose proof (typed_monitor_loop clock feed (active_trades s) 0 s Hty) as Hty1.
  rewrite E in Hty1. simpl in Hty1.
  destruct (cycle_loop_spec Data e strategies is_empty get_data stamped_at
              executed_at symbols Htot symbols) with (s := s1)
    as (s' & news & E' & Ho & Hlen & Hn & Hwf'); auto.
  exists s1, s', news. unfold run_trading_cycle, monitor_trades. rewrite E.
  split_and!; auto.
  apply (typed_opens strategies get_data symbols (risk_manager s1) s1 s' news);
    auto.
Qed.

(** ** The strategies of the two robots *)

Lemma trade_signal_take (direction : pyval) (c : Q) (reason : string)
    (entry stop take : pyval) :
  trade_signal direction c reason entry stop take !! "take_profit"%string
    = Some take.
Proof. reflexivity. Qed.

Lemma to_py_typed (a : fnum) (x : string) : to_py a <> PStr x.
Proof. destruct a; discriminate. Qed.

Lemma MeanReversion_take_typed (fmt : nat -> fnum -> string) (sqrt : Q -> Q)
    (data : list Bar) (sig : dict) (x : string) :
  MeanReversionStrategy.generate_signal fmt sqrt data = Ok sig ->
  sig !! "take_profit"%string <> Some (PStr x).
Proof.
  unfold MeanReversionStrategy.generate_signal.
  destruct (Nat.ltb _ _); [intros [= <-]; discriminate|]. cbv zeta.
  destruct (TechnicalIndicators.bollinger_bands _ _ _ _) as [[u m] l].
  unfold mbind, result_bind.
  repeat match goal with
         | |- context [iloc_neg ?s ?k] => destruct (iloc_neg s k)
         end; try discriminate;
  repeat match goal with
         | |- context [if ?c then _ else _] => destruct c
         end; try discriminate;
  intros [= <-]; try discriminate;
  rewrite trade_signal_take; intros [= H]; now apply to_py_typed in H.
Qed.

Lemma Breakout_take_typed (fmt : nat -> fnum -> string)
    (data : list Bar) (sig : dict) (x : string) :
  BreakoutStrategy.generate_signal fmt data = Ok sig ->
  sig !! "take_profit"%string <> Some (PStr x).
Proof.
  unfold BreakoutStrategy.generate_signal.
  destruct (Nat.ltb _ _); [intros [= <-]; discriminate|]. cbv zeta.
  unfold mbind, result_bind.
  repeat match goal with
         | |- context [iloc_neg ?s ?k] => destruct (iloc_neg s k)
         end; try discriminate;
  repeat match goal with
         | |- context [if ?c then _ else _] => destruct c
         end; try discriminate;
  intros [= <-]; try discriminate;
  rewrite trade_signal_take; intros [= H]; now apply to_py_typed in H.
Qed.

Lemma simple_strategies_total (fmt : nat -> fnum -> string) (name : string)
    (generate_signal : list Q -> result dict) (prices : list Q) :
  (name, generate_signal) ∈ SimpleForexTradingRobot_strategies fmt ->
  exists sig, generate_signal prices = Ok sig /\ strategy_signal sig.
Proof.
  unfold SimpleForexTradingRobot_strategies. intros H.
  apply elem_of_cons in H as [H|H]; [|apply list_elem_of_singleton in H];
    injection H as -> ->.
  - destruct (SimpleTrendFollowing_cases prices)
      as [(_ & E)|(_ & [(c & _ & E)|[(c & _ & E)|E]])];
      rewrite E; eexists; (split; [reflexivity|]); unfold strategy_signal;
      try (left; eexists; reflexivity);
      right; do 6 eexists; (split; [reflexivity|]); split; auto; discriminate.
  - destruct (SimpleMeanReversion_cases fmt prices)
      as [(_ & E)|(_ & [(c & r & _ & E)|[(c & r & _ & E)|E]])];
      rewrite E; eexists; (split; [reflexivity|]); unfold strategy_signal;
      try (left; eexists; reflexivity);
      right; do 6 eexists; (split; [reflexivity|]); split; auto; discriminate.
Qed.

Lemma pandas_strategies_total (fmt : nat -> fnum -> string) (sqrt : Q -> Q)
    (name : string) (generate_signal : list Bar -> result dict)
    (data : list Bar) :
  (name, generate_signal) ∈ ForexTradingRobot_strategies fmt sqrt ->
  exists sig, generate_signal data = Ok sig /\ strategy_signal sig.
Proof.
  unfold ForexTradingRobot_strategies. intros H.
  apply elem_of_cons in H as [H|H];
    [|apply elem_of_cons in H as [H|H]; [|apply list_elem_of_singleton in H]];
    injection H as -> ->.
  - destruct (TrendFollowing_cases data)
      as [(_ & E)|(_ & [(b & _ & E)|[(b & _ & E)|E]])];
      rewrite E; eexists; (split; [reflexivity|]); unfold strategy_signal;
      try (left; eexists; reflexivity);
      right; do 6 eexists; (split; [reflexivity|]); split; auto; discriminate.
  - pose proof (MeanReversion_take_typed fmt sqrt data) as Hty.
    destruct (MeanReversion_cases fmt sqrt data)
      as [(_ & E)|(_ & [(b & r & t & _ & E)|[(b & r & t & _ & E)|E]])];
      rewrite E in *; eexists; (split; [reflexivity|]); unfold strategy_signal;
      try (left; eexists; reflexivity);
      right; do 6 eexists; (split; [reflexivity|]); (split; [auto|]);
      intros x ->; apply (Hty _ x eq_refl); reflexivity.
  - pose proof (Breakout_take_typed fmt data) as Hty.
    destruct (Breakout_cases fmt data)
      as [(_ & E)|(_ & [(b & h & r & t & _ & _ & _ & E)
                       |[(b & l & r & t & _ & _ & _ & E)|E]])];
      rewrite E in *; eexists; (split; [reflexivity|]); unfold strategy_signal;
      try (left; eexists; reflexivity);
      right; do 6 eexists; (split; [reflexivity|]); (split; [auto|]);
      intros x ->; apply (Hty _ x eq_refl); reflexivity.
Qed.

(** X17. One cycle of [SimpleForexTradingRobot.run_trading_cycle] on a
    consistent ledger whose trades hold no string as take-profit and whose
    numbers (the balance, the daily P/L, the prices and sizes of the trades)
    are finite, whatever the finite mock prices and real-time prices:
    [monitor_trades] and the whole cycle return without raising; after the
    monitoring the cycle only opens trades, at most 14 (two strategies on
    seven pairs), and leaves the history and the risk manager alone; every
    trade it opens is the execution of a BUY or SELL signal that one of the
    two strategies gave on the prices of one of the seven pairs (a HOLD is
    never executed), with entry and stop of that signal, a size that is
    positive and at most 10% of the balance and a numeric take-profit; the
    ledger is consistent again.  When all prices are strictly positive, the
    stop of every new trade is on its losing side. *)
Theorem SimpleForexTradingRobot_cycle_spec (fmt : nat -> fnum -> string)
    (m : market (list Q)) (s : Robot) :
  wf s -> typed_heap s ->
  exists s1 s' news,
    monitor_trades (market_clock m) (market_feed m) s = (Ok tt, s1) /\
    SimpleForexTradingRobot_cycle fmt m s = (Ok tt, s') /\
    opens s1 s' news /\ (length news <= 14)%nat /\
    Forall (cycle_trade (SimpleForexTradingRobot_strategies fmt) (market_data m)
              (currency_pairs SimpleForexTradingRobot) (risk_manager s1)) news /\
    wf s' /\ typed_heap s' /\
    ((forall sym, Forall (fun p => 0 < p) (market_data m sym)) ->
     Forall (fun t => (signal_type t = BUY /\ stop_loss t < entry_price t) \/
                      (signal_type t = SELL /\ entry_price t < stop_loss t))
       news).
Proof.
  intros Hwf Hty.
  destruct (run_trading_cycle_spec SimpleForexTradingRobot
              (SimpleForexTradingRobot_strategies fmt) no_rows (market_data m)
              (market_stamped_at m) (market_executed_at m)
              (currency_pairs SimpleForexTradingRobot)
              (market_clock m) (market_feed m) s
              (simple_strategies_total fmt) Hwf Hty)
    as (s1 & s' & news & E1 & E & Ho & Hlen & Hn & Hwf' & Hty').
  exists s1, s', news. split_and!; auto.
  intros Hpos. apply Forall_forall. intros t Ht. rewrite Forall_forall in Hn.
  destruct (Hn t Ht)
    as (sym & name & gen & sig & _ & Hin & Hgen & _ & _ & Hsig & Hdir & He & Hsl & _).
  assert (Hside : stop_on_losing_side sig).
  { destruct (simple_strategies_spec fmt (market_data m sym)) as (_ & _ & _ & H).
    apply (H (Hpos sym)). unfold SimpleForexTradingRobot_strategies in Hin.
    apply elem_of_cons in Hin as [Hin|Hin];
      [|apply list_elem_of_singleton in Hin]; injection Hin as -> ->; auto. }
  destruct Hside as (Hbuy & Hsell & _).
  destruct Hdir as [Hd|Hd]; rewrite Hd in Hsig.
  - destruct (Hbuy Hsig) as (e0 & s0 & He0 & Hs0 & Hlt). left.
    rewrite He in He0. rewrite Hsl in Hs0.
    injection He0 as <-. injection Hs0 as <-. auto.
  - destruct (Hsell Hsig) as (e0 & s0 & He0 & Hs0 & Hlt). right.
    rewrite He in He0. rewrite Hsl in Hs0.
    injection He0 as <-. injection Hs0 as <-. auto.
Qed.

Lemma typed_init : typed_heap Robot_init.
Proof. intros r t Hr. simpl in Hr. now rewrite lookup_nil in Hr. Qed.

Lemma SimpleForexTradingRobot_cycle_spec_witness :
  exists s',
    SimpleForexTradingRobot_cycle (fun _ _ => EmptyString) flat_market Robot_init
      = (Ok tt, s') /\ wf s'.
Proof.
  destruct (SimpleForexTradingRobot_cycle_spec (fun _ _ => EmptyString)
              flat_market Robot_init wf_init typed_init)
    as (s1 & s' & news & _ & E & _ & _ & _ & Hwf & _).
  exists s'. split; [exact E|exact Hwf].
Defined.

Lemma pandas_strategies_losing_side (fmt : nat -> fnum -> string)
    (sqrt : Q -> Q) (name : string)
    (generate_signal : list Bar -> result dict) (data : list Bar) (sig : dict) :
  (name, generate_signal) ∈ ForexTradingRobot_strategies fmt sqrt ->
  positive_bars data -> generate_signal data = Ok sig ->
  stop_on_losing_side sig.
Proof.
  unfold ForexTradingRobot_strategies. intros Hin Hpos H.
  apply elem_of_cons in Hin as [Hin|Hin];
    [|apply elem_of_cons in Hin as [Hin|Hin];
      [|apply list_elem_of_singleton in Hin]];
    injection Hin as -> ->.
  - destruct (TrendFollowing_cases data)
      as [(_ & E)|(_ & [(b & Hb & E)|[(b & Hb & E)|E]])];
      rewrite E in H; injection H as <-.
    + apply hold_signal_losing_side.
    + apply buy_signal_losing_side. pose proof (positive_close data b Hpos Hb). lra.
    + apply sell_signal_losing_side. pose proof (positive_close data b Hpos Hb). lra.
    + apply hold_signal_losing_side.
  - destruct (MeanReversion_cases fmt sqrt data)
      as [(_ & E)|(_ & [(b & r & t & Hb & E)|[(b & r & t & Hb & E)|E]])];
      rewrite E in H; injection H as <-.
    + apply hold_signal_losing_side.
    + apply buy_signal_losing_side. pose proof (positive_close data b Hpos Hb). lra.
    + apply sell_signal_losing_side. pose proof (positive_close data b Hpos Hb). lra.
    + apply hold_signal_losing_side.
  - unfold positive_bars in Hpos. rewrite Forall_forall in Hpos.
    destruct (Breakout_cases fmt data)
      as [(_ & E)|(_ & [(b & h & r & t & Hb & Hh & Hlt & E)
                       |[(b & l & r & t & Hb & Hl & Hlt & E)|E]])];
      rewrite E in H; injection H as <-.
    + apply hold_signal_losing_side.
    + apply buy_signal_losing_side. destruct (Hpos h Hh) as (_ & Hhigh & _). lra.
    + apply sell_signal_losing_side. destruct (Hpos l Hl) as (_ & _ & Hlow & _). lra.
    + apply hold_signal_losing_side.
Qed.

Lemma losing_side_trade (sig : dict) (t : Trade) :
  stop_on_losing_side sig ->
  sig !! "signal"%string = Some (signal_type t) ->
  signal_type t = BUY \/ signal_type t = SELL ->
  sig !! "entry_price"%string = Some (PNum (entry_price t)) ->
  sig !! "stop_loss"%string = Some (PNum (stop_loss t)) ->
  (signal_type t = BUY /\ stop_loss t < entry_price t) \/
  (signal_type t = SELL /\ entry_price t < stop_loss t).
Proof.
  intros (Hbuy & Hsell & _) Hsig Hdir He Hsl.
  destruct Hdir as [Hd|Hd]; rewrite Hd in Hsig.
  - destruct (Hbuy Hsig) as (e0 & s0 & He0 & Hs0 & Hlt). left.
    rewrite He in He0. rewrite Hsl in Hs0.
    injection He0 as <-. injection Hs0 as <-. auto.
  - destruct (Hsell Hsig) as (e0 & s0 & He0 & Hs0 & Hlt). right.
    rewrite He in He0. rewrite Hsl in Hs0.
    injection He0 as <-. injection Hs0 as <-. auto.
Qed.

(** X18. One cycle of [ForexTradingRobot.run_trading_cycle] on a
    consistent ledger whose trades hold no string as take-profit, for
    frames of finite numbers: [monitor_trades] and the whole cycle return
    without raising; after the monitoring the cycle only opens trades, at
    most 21 (three strategies on seven pairs); every trade it opens is the
    execution of a BUY or SELL signal that one of the three strategies gave
    on the frame of one of the seven pairs, sized positive and at most 10%
    of the balance; the ledger is consistent again.  On frames with
    strictly positive prices the stop of every new trade is on its losing
    side. *)
Theorem ForexTradingRobot_cycle_spec (fmt : nat -> fnum -> string)
    (sqrt : Q -> Q) (m : market (list Bar)) (s : Robot) :
  wf s -> typed_heap s ->
  exists s1 s' news,
    monitor_trades (market_clock m) (market_feed m) s = (Ok tt, s1) /\
    ForexTradingRobot_cycle fmt sqrt m s = (Ok tt, s') /\
    opens s1 s' news /\ (length news <= 21)%nat /\
    Forall (cycle_trade (ForexTradingRobot_strategies fmt sqrt) (market_data m)
              (currency_pairs ForexTradingRobot) (risk_manager s1)) news /\
    wf s' /\ typed_heap s' /\
    ((forall sym, positive_bars (market_data m sym)) ->
     Forall (fun t => (signal_type t = BUY /\ stop_loss t < entry_price t) \/
                      (signal_type t = SELL /\ entry_price t < stop_loss t))
       news).
Proof.
  intros Hwf Hty.
  destruct (run_trading_cycle_spec ForexTradingRobot
              (ForexTradingRobot_strategies fmt sqrt) no_rows (market_data m)
              (market_stamped_at m) (market_executed_at m)
              (currency_pairs ForexTradingRobot)
              (market_clock m) (market_feed m) s
              (pandas_strategies_total fmt sqrt) Hwf Hty)
    as (s1 & s' & news & E1 & E & Ho & Hlen & Hn & Hwf' & Hty').
  exists s1, s', news. split_and!; auto.
  intros Hpos. apply Forall_forall. intros t Ht. rewrite Forall_forall in Hn.
  destruct (Hn t Ht)
    as (sym & name & gen & sig & _ & Hin & Hgen & _ & _ & Hsig & Hdir & He & Hsl & _).
  apply (losing_side_trade sig); auto.
  apply (pandas_strategies_losing_side fmt sqrt name gen (market_data m sym));
    auto.
Qed.

Lemma ForexTradingRobot_cycle_spec_witness :
  exists s',
    ForexTradingRobot_cycle (fun _ _ => EmptyString) (fun q => q)
      {| market_data := fun _ => golden_cross;
         market_stamped_at := fun _ _ => 0%Z;
         market_executed_at := fun _ _ => 0%Z;
         market_clock := fun _ => 0%Z;
         market_feed := fun _ => 1.1000 |} Robot_init
      = (Ok tt, s') /\ wf s'.
Proof.
  destruct (ForexTradingRobot_cycle_spec (fun _ _ => EmptyString) (fun q => q)
              {| market_data := fun _ => golden_cross;
                 market_stamped_at := fun _ _ => 0%Z;
                 market_executed_at := fun _ _ => 0%Z;
                 market_clock := fun _ => 0%Z;
                 market_feed := fun _ => 1.1000 |} Robot_init wf_init typed_init)
    as (s1 & s' & news & _ & E & _ & _ & _ & Hwf & _).
  exists s'. split; [exact E|exact Hwf].
Defined.

(** ** Cycles and requests together *)

Lemma execute_signals_requests (f : string -> option Q)
    (executed_at : string -> nat -> datetime) (sym : string)
    (signals : list dict) :
  forall j s,
  exists reqs,
    snd (execute_signals SimpleForexTradingRobot executed_at sym j signals s)
      = foldl (serve f) s reqs.
Proof.
  induction signals as [|signal signals IH]; intros j s; simpl.
  - now exists [].
  - destruct (getitem signal "signal") as [v|x]; [|now exists []].
    destruct (py_eqb v BUY || py_eqb v SELL); [|apply IH].
    destruct (execute_trade SimpleForexTradingRobot (executed_at sym j) signal s)
      as [[b|x] s1] eqn:E.
    + destruct (IH (S j) s1) as (reqs & ->).
      exists (ReqExecute (executed_at sym j) signal :: reqs). simpl.
      now rewrite E.
    + exists [ReqExecute (executed_at sym j) signal]. simpl. now rewrite E.
Qed.

Lemma cycle_requests (fmt : nat -> fnum -> string) (f : string -> option Q)
    (m : market (list Q)) (s : Robot) :
  exists reqs,
    snd (SimpleForexTradingRobot_cycle fmt m s) = foldl (serve f) s reqs.
Proof.
  unfold SimpleForexTradingRobot_cycle, run_trading_cycle.
  assert (Hloop : forall symbols s0,
            exists reqs,
              snd (cycle_loop (list Q) SimpleForexTradingRobot
                     (SimpleForexTradingRobot_strategies fmt) no_rows
                     (market_data m) (market_stamped_at m)
                     (market_executed_at m) symbols s0)
                = foldl (serve f) s0 reqs).
  { induction symbols as [|sym symbols IH]; intros s0; simpl; [now exists []|].
    destruct (analyze_market _ _ _ _ _ sym) as [signals|x]; [|now exists []].
    destruct (execute_signals_requests f (market_executed_at m) sym signals 0 s0)
      as (r1 & E1).
    destruct (execute_signals _ _ _ _ _ _) as [[u|x] s1]; simpl in E1.
    - destruct (IH s1) as (r2 & ->). exists (r1 ++ r2).
      now rewrite foldl_app, <- E1.
    - now exists r1. }
  destruct (monitor_trades (market_clock m) (market_feed m) s) as [[u|x] s1] eqn:E.
  - destruct (Hloop (currency_pairs SimpleForexTradingRobot) s1) as (reqs & ->).
    exists (ReqMonitor (market_clock m) (market_feed m) :: reqs). simpl.
    now rewrite E.
  - exists [ReqMonitor (market_clock m) (market_feed m)]. simpl. now rewrite E.
Qed.

Lemma typed_execute (e : engine) (now : datetime) (signal : dict) (s : Robot) :
  typed_heap s ->
  (forall x, dict_get signal "take_profit" PNone <> PStr x) ->
  typed_heap (snd (execute_trade e now signal s)).
Proof.
  intros Hty Htp.
  destruct (execute_trade_cases e now signal s)
    as [(x & ->)|[->|(size & t & _ & _ & _ & Hm & ->)]]; try exact Hty.
  apply make_trade_inv in Hm as (_ & _ & _ & _ & Ht & _).
  intros r t' Hr. simpl in Hr.
  apply lookup_app_Some in Hr as [Hr|(_ & Hr)]; [now apply (Hty r)|].
  apply list_lookup_singleton_Some in Hr as (_ & <-).
  intros x Hx. apply (Htp x). congruence.
Qed.

Lemma manual_signal_typed (f : string -> option Q) (data signal : dict)
    (x : string) :
  manual_signal f data = Ok signal ->
  dict_get signal "take_profit" PNone <> PStr x.
Proof.
  unfold manual_signal, mbind, result_bind.
  destruct (getitem data "symbol"); [|discriminate].
  destruct (getitem data "signal"); [|discriminate].
  destruct (getitem data "entry_price") as [v|]; [|discriminate].
  destruct (py_float f v); [|discriminate].
  destruct (getitem data "stop_loss") as [w|]; [|discriminate].
  destruct (py_float f w); [|discriminate].
  destruct (truthy _).
  - destruct (py_float f (dict_get data "take_profit" (PNum 0))); [|discriminate].
    destruct (py_float f _); [|discriminate].
    intros [= <-]. discriminate.
  - destruct (py_float f _); [|discriminate].
    intros [= <-]. discriminate.
Qed.

Lemma handle_invariant (fmt : nat -> fnum -> string) (f : string -> option Q)
    (s : Robot) (ev : event) :
  wf s -> typed_heap s ->
  (exists reqs, handle fmt f s ev = foldl (serve f) s reqs) /\
  typed_heap (handle fmt f s ev).
Proof.
  intros Hwf Hty. destruct ev as [m|now data|now price trade_id]; simpl.
  - split; [apply cycle_requests|].
    destruct (run_trading_cycle_spec SimpleForexTradingRobot
                (SimpleForexTradingRobot_strategies fmt) no_rows (market_data m)
                (market_stamped_at m) (market_executed_at m)
                (currency_pairs SimpleForexTradingRobot)
                (market_clock m) (market_feed m) s
                (simple_strategies_total fmt) Hwf Hty)
      as (s1 & s' & news & _ & E & _ & _ & _ & _ & Hty').
    unfold SimpleForexTradingRobot_cycle. now rewrite E.
  - split; [now exists [ReqManualTrade now data]|].
    unfold manual_trade.
    destruct (Nat.eqb (size data) 0); [exact Hty|].
    destruct (negb _); [exact Hty|].
    destruct (manual_signal f data) as [signal|x] eqn:E; [|exact Hty].
    pose proof (typed_execute SimpleForexTradingRobot now signal s Hty
                  (fun x => manual_signal_typed f data signal x E)) as H.
    now destruct (execute_trade _ _ _ _) as [[[]|x] s1].
  - split; [now exists [ReqCloseManual now price trade_id]|].
    unfold close_trade_manual.
    destruct (find_trade _ _ _) as [trade|]; [|exact Hty].
    destruct (Qeq_bool price 0); [exact Hty|].
    pose proof (typed_close now trade price MANUAL_CLOSE s Hty) as H.
    now destruct (close_trade _ _ _ _ _) as [[u|x] s1].
Qed.

Lemma wf_reqs (f : string -> option Q) (reqs : list request) :
  forall s, wf s -> wf (foldl (serve f) s reqs).
Proof.
  induction reqs as [|q reqs IH]; intros s Hwf; simpl; [exact Hwf|].
  apply IH. now apply wf_serve.
Qed.

(** X19. The trading loop of the web application never fails, as long as
    no request is served in the middle of a cycle.  Whatever cycles, manual
    trades and manual closes happened one after the other since the robot
    was created, with whatever prices: the state is one that a sequence of
    monitoring passes, executions and manual requests reaches (so that the
    ledger and books invariants of such sequences hold for it), it is
    consistent, no trade holds a string as take-profit, and the next call
    of [run_trading_cycle] returns without raising. *)
Theorem trading_loop_never_fails (fmt : nat -> fnum -> string)
    (float_of_string : string -> option Q) (evs : list event) :
  let s := foldl (handle fmt float_of_string) Robot_init evs in
  (exists reqs, s = foldl (serve float_of_string) Robot_init reqs) /\
  wf s /\ typed_heap s /\
  forall m, fst (SimpleForexTradingRobot_cycle fmt m s) = Ok tt.
Proof.
  assert (H : (exists reqs, foldl (handle fmt float_of_string) Robot_init evs
                            = foldl (serve float_of_string) Robot_init reqs) /\
              wf (foldl (handle fmt float_of_string) Robot_init evs) /\
              typed_heap (foldl (handle fmt float_of_string) Robot_init evs)).
  { induction evs as [|ev evs IH] using rev_ind.
    - split; [now exists []|]. split; [apply wf_init|].
      intros r t Hr. simpl in Hr. now rewrite lookup_nil in Hr.
    - destruct IH as ((reqs & Hreqs) & Hwf & Hty). rewrite foldl_app. simpl.
      destruct (handle_invariant fmt float_of_string _ ev Hwf Hty)
        as ((r1 & E1) & Hty').
      split_and!; [|rewrite E1; now apply wf_reqs|exact Hty'].
      exists (reqs ++ r1). now rewrite foldl_app, <- Hreqs. }
  destruct H as (Hreqs & Hwf & Hty). cbv zeta. split_and!; auto.
  intros m.
  destruct (run_trading_cycle_spec SimpleForexTradingRobot
              (SimpleForexTradingRobot_strategies fmt) no_rows (market_data m)
              (market_stamped_at m) (market_executed_at m)
              (currency_pairs SimpleForexTradingRobot)
              (market_clock m) (market_feed m) _
              (simple_strategies_total fmt) Hwf Hty)
    as (s1 & s' & news & _ & E & _).
  unfold SimpleForexTradingRobot_cycle. now rewrite E.
Qed.

(** ** The take-profit of the strategies *)

Lemma hold_signal_winning_side (reason : string) :
  take_on_winning_side (hold_signal reason).
Proof.
  unfold take_on_winning_side. rewrite hold_signal_direction.
  split; discriminate.
Qed.

Lemma buy_signal_winning_side (c : Q) (reason : string) (e tp : Q)
    (stop : pyval) :
  e < tp ->
  take_on_winning_side (trade_signal BUY c reason (PNum e) stop (PNum tp)).
Proof.
  intros H. split; [|discriminate]. intros _. exists e, tp. now split_and!.
Qed.

Lemma sell_signal_winning_side (c : Q) (reason : string) (e tp : Q)
    (stop : pyval) :
  tp < e ->
  take_on_winning_side (trade_signal SELL c reason (PNum e) stop (PNum tp)).
Proof.
  intros H. split; [discriminate|]. intros _. exists e, tp. now split_and!.
Qed.

Lemma fsum_fin (l : list fnum) :
  Forall (fun x => exists q, x = Fin q) l -> exists q, fsum l = Fin q.
Proof.
  unfold fsum. generalize 0. induction l as [|x l IH]; intros a H; simpl.
  - now exists a.
  - apply Forall_cons in H as ((q & ->) & H). simpl. now apply IH.
Qed.

Lemma column_fin (f : Bar -> Q) (data : list Bar) :
  Forall (fun x => exists q, x = Fin q) (column f data).
Proof.
  unfold column. apply Forall_forall. intros x Hx.
  apply list_elem_of_In, in_map_iff in Hx as (b & <- & _). eauto.
Qed.

Lemma mean_fin (win : list fnum) :
  win <> [] -> Forall (fun x => exists q, x = Fin q) win ->
  exists q, TechnicalIndicators.mean win = Fin q.
Proof.
  intros Hne H. unfold TechnicalIndicators.mean.
  destruct (fsum_fin win H) as (q & ->). simpl.
  rewrite Qnat_nonzero; [eauto|]. destruct win; [contradiction|simpl; lia].
Qed.

Section Bands.
Variable sqrt : Q -> Q.
Hypothesis sqrt_nonneg : forall q, 0 <= sqrt q.

Lemma fsqrt_cases (a : fnum) :
  TechnicalIndicators.fsqrt sqrt a = NaN \/
  TechnicalIndicators.fsqrt sqrt a = PosInf \/
  exists s, 0 <= s /\ TechnicalIndicators.fsqrt sqrt a = Fin s.
Proof.
  destruct a as [q| | |]; simpl; auto.
  destruct (Qltb q 0); [auto|]. right; right. eauto.
Qed.

(** Below the lower band is below the middle, above the upper band is above
    it. *)
Lemma bands_bracket (m p : Q) (win : list fnum) :
  let dev := fmul (TechnicalIndicators.std sqrt win) (Fin 2) in
  (fltb (Fin p) (fsub (Fin m) dev) = true -> p < m) /\
  (fgtb (Fin p) (fadd (Fin m) dev) = true -> m < p).
Proof.
  cbv zeta. unfold TechnicalIndicators.std.
  destruct (fsqrt_cases
              (fdiv (fsum (map (fun x => fmul (fsub x (TechnicalIndicators.mean win))
                                           (fsub x (TechnicalIndicators.mean win))) win))
                    (Fin (Qnat (length win) - 1))))
    as [-> | [-> | (s & Hs & ->)]]; simpl.
  - split; discriminate.
  - split; discriminate.
  - unfold fgtb. simpl. rewrite !Qltb_lt. split; intros H; lra.
Qed.
End Bands.

Lemma MeanReversion_winning_side (fmt : nat -> fnum -> string) (sqrt : Q -> Q)
    (data : list Bar) (sig : dict) :
  (forall q, 0 <= sqrt q) ->
  MeanReversionStrategy.generate_signal fmt sqrt data = Ok sig ->
  take_on_winning_side sig.
Proof.
  intros Hsqrt.
  unfold MeanReversionStrategy.generate_signal, MeanReversionStrategy.rsi_period,
    MeanReversionStrategy.bb_period.
  change (Nat.max 14 20) with 20%nat.
  destruct (Nat.ltb (length data) 20) eqn:E.
  { intros [= <-]. apply hold_signal_winning_side. }
  apply Nat.ltb_ge in E.
  unfold TechnicalIndicators.bollinger_bands. cbv zeta beta iota.
  set (close := column Close data).
  assert (Hc : length close = length data) by apply column_length.
  set (sma := TechnicalIndicators.sma close 20).
  set (dev := map (fun x => fmul x (Fin 2))
                (TechnicalIndicators.rolling 20 (TechnicalIndicators.std sqrt) close)).
  set (i := (length data - 1)%nat).
  set (win := take 20 (drop (i + 1 - 20) close)).
  assert (Hwin : exists m, TechnicalIndicators.mean win = Fin m).
  { apply mean_fin.
    - intros H. apply (f_equal length) in H. unfold win in H.
      rewrite length_take, length_drop, Hc in H. cbn [length] in H.
      unfold i in H. lia.
    - unfold win. apply Forall_take, Forall_drop, column_fin. }
  destruct Hwin as (m & Hm).
  assert (Hsma : sma !! i = Some (Fin m)).
  { unfold sma, TechnicalIndicators.sma. rewrite rolling_lookup by (unfold i; lia).
    assert (El : Nat.ltb (i + 1) 20 = false) by (apply Nat.ltb_ge; unfold i; lia).
    rewrite El. fold win. now rewrite Hm. }
  assert (Hdev : dev !! i = Some (fmul (TechnicalIndicators.std sqrt win) (Fin 2))).
  { unfold dev.
    change (map (fun x => fmul x (Fin 2)) ?l) with ((fun x => fmul x (Fin 2)) <$> l).
    rewrite list_lookup_fmap, rolling_lookup by (unfold i; lia).
    assert (El : Nat.ltb (i + 1) 20 = false) by (apply Nat.ltb_ge; unfold i; lia).
    rewrite El. reflexivity. }
  assert (Lsma : length sma = length data).
  { unfold sma, TechnicalIndicators.sma. now rewrite rolling_length. }
  assert (Ldev : length dev = length data).
  { unfold dev. now rewrite length_map, rolling_length. }
  assert (Hup : iloc_neg (zip_with fadd sma dev) 1
                = Ok (fadd (Fin m) (fmul (TechnicalIndicators.std sqrt win) (Fin 2)))).
  { apply iloc_neg_lookup; [rewrite length_zip_with; lia|].
    rewrite length_zip_with, Lsma, Ldev, Nat.min_id. fold i.
    rewrite lookup_zip_with, Hsma. simpl. now rewrite Hdev. }
  assert (Hlo : iloc_neg (zip_with fsub sma dev) 1
                = Ok (fsub (Fin m) (fmul (TechnicalIndicators.std sqrt win) (Fin 2)))).
  { apply iloc_neg_lookup; [rewrite length_zip_with; lia|].
    rewrite length_zip_with, Lsma, Ldev, Nat.min_id. fold i.
    rewrite lookup_zip_with, Hsma. simpl. now rewrite Hdev. }
  assert (Hmid : iloc_neg sma 1 = Ok (Fin m)).
  { apply iloc_neg_lookup; [lia|]. rewrite Lsma. exact Hsma. }
  destruct (iloc_neg_ok (TechnicalIndicators.rsi close 14) 1) as (r & Hr);
    [rewrite rsi_length; lia|].
  destruct (iloc_neg_ok close 1) as (price & Hp); [lia|].
  destruct (column_iloc Close data 1 price Hp) as (b & Hb & ->).
  rewrite Hr, Hp, Hup, Hlo, Hmid. run_binds.
  destruct (bands_bracket sqrt Hsqrt m (Close b) win) as (Hbelow & Habove).
  destruct (fltb r _ && fltb (Fin (Close b)) _) eqn:Eb.
  { apply andb_prop in Eb as (_ & Eb). intros [= <-].
    apply buy_signal_winning_side. now apply Hbelow. }
  destruct (fgtb r _ && fgtb (Fin (Close b)) _) eqn:Es.
  { apply andb_prop in Es as (_ & Es). intros [= <-].
    apply sell_signal_winning_side. now apply Habove. }
  intros [= <-]. apply hold_signal_winning_side.
Qed.

Lemma Breakout_winning_side (fmt : nat -> fnum -> string) (data : list Bar)
    (sig : dict) :
  positive_bars data ->
  BreakoutStrategy.generate_signal fmt data = Ok sig ->
  take_on_winning_side sig.
Proof.
  intros Hpos. unfold positive_bars in Hpos. rewrite Forall_forall in Hpos.
  unfold BreakoutStrategy.generate_signal, BreakoutStrategy.lookback_period.
  destruct (Nat.ltb (length data) 20) eqn:E.
  { intros [= <-]. apply hold_signal_winning_side. }
  apply Nat.ltb_ge in E. cbv zeta.
  assert (Hne : last_n 20 data <> []).
  { apply last_n_nonempty. intros ->. simpl in E. lia. }
  destruct (series_max_column High _ Hne) as (h & Hh & ->).
  destruct (series_min_column Low _ Hne) as (l & Hl & ->).
  apply last_n_subseteq in Hh, Hl.
  destruct (iloc_neg_ok (column Close data) 1) as (price & Hp);
    [rewrite column_length; lia|].
  destruct (column_iloc Close data 1 price Hp) as (b & Hb & ->).
  rewrite Hp. run_binds. simpl fmul. unfold fgtb, fltb.
  destruct (Hpos h Hh) as (_ & Hhigh & _). destruct (Hpos l Hl) as (_ & _ & Hlow & _).
  destruct (Qltb (High h * 1.001) (Close b)) eqn:Eb.
  { apply Qltb_lt in Eb. intros [= <-]. simpl.
    apply buy_signal_winning_side. lra. }
  destruct (Qltb (Close b) (Low l * 0.999)) eqn:Es.
  { apply Qltb_lt in Es. intros [= <-]. simpl.
    apply sell_signal_winning_side. lra. }
  intros [= <-]. apply hold_signal_winning_side.
Qed.

(** X20. The take-profit of every strategy is on the winning side.  On a
    frame whose prices are all strictly positive, for a square root that is
    never negative, a BUY of [TrendFollowingStrategy],
    [MeanReversionStrategy] or [BreakoutStrategy] carries a numeric
    take-profit above its entry price and a SELL one below it: for the mean
    reversion the middle Bollinger band, which the price has crossed by more
    than two standard deviations.  The same holds for the two strategies of
    the list engine on strictly positive prices. *)
Theorem strategies_take_profit_on_winning_side (fmt : nat -> fnum -> string)
    (sqrt : Q -> Q) :
  (forall q, 0 <= sqrt q) ->
  (forall data sig,
     positive_bars data ->
     TrendFollowingStrategy.generate_signal data = Ok sig \/
     MeanReversionStrategy.generate_signal fmt sqrt data = Ok sig \/
     BreakoutStrategy.generate_signal fmt data = Ok sig ->
     take_on_winning_side sig) /\
  (forall prices sig,
     Forall (fun p => 0 < p) prices ->
     SimpleTrendFollowingStrategy.generate_signal prices = Ok sig \/
     SimpleMeanReversionStrategy.generate_signal fmt prices = Ok sig ->
     take_on_winning_side sig).
Proof.
  intros Hsqrt. split.
  - intros data sig Hpos [H|[H|H]].
    + destruct (TrendFollowing_cases data)
        as [(_ & E)|(_ & [(b & Hb & E)|[(b & Hb & E)|E]])];
        rewrite E in H; injection H as <-.
      * apply hold_signal_winning_side.
      * apply buy_signal_winning_side. pose proof (positive_close data b Hpos Hb). lra.
      * apply sell_signal_winning_side. pose proof (positive_close data b Hpos Hb). lra.
      * apply hold_signal_winning_side.
    + now apply (MeanReversion_winning_side fmt sqrt data).
    + now apply (Breakout_winning_side fmt data).
  - intros prices sig Hpos. rewrite Forall_forall in Hpos. intros [H|H].
    + destruct (SimpleTrendFollowing_cases prices)
        as [(_ & E)|(_ & [(c & Hc & E)|[(c & Hc & E)|E]])];
        rewrite E in H; injection H as <-.
      * apply hold_signal_winning_side.
      * apply buy_signal_winning_side. pose proof (Hpos c Hc). lra.
      * apply sell_signal_winning_side. pose proof (Hpos c Hc). lra.
      * apply hold_signal_winning_side.
    + destruct (SimpleMeanReversion_cases fmt prices)
        as [(_ & E)|(_ & [(c & r & Hc & E)|[(c & r & Hc & E)|E]])];
        rewrite E in H; injection H as <-.
      * apply hold_signal_winning_side.
      * apply buy_signal_winning_side. pose proof (Hpos c Hc). lra.
      * apply sell_signal_winning_side. pose proof (Hpos c Hc). lra.
      * apply hold_signal_winning_side.
Qed.

Lemma strategies_take_profit_on_winning_side_witness :
  exists sig e tp,
    TrendFollowingStrategy.generate_signal golden_cross = Ok sig /\
    sig !! "signal"%string = Some BUY /\
    sig !! "entry_price"%string = Some (PNum e) /\
    sig !! "take_profit"%string = Some (PNum tp) /\ e < tp.
Proof.
  assert (Hg : positive_bars golden_cross).
  { apply flat_bars_positive. repeat constructor. }
  pose (buy := trade_signal BUY 0.7 "Golden cross detected" (PNum 11)
                 (PNum (11 * 0.98)) (PNum (11 * 1.04))).
  assert (Eb : TrendFollowingStrategy.generate_signal golden_cross = Ok buy)
    by (vm_compute; reflexivity).
  destruct (proj1 (strategies_take_profit_on_winning_side
                     (fun _ _ => EmptyString) (fun _ => 0)
                     (fun q => Qle_refl 0))
              golden_cross buy Hg (or_introl Eb)) as (Hbuy & _).
  destruct (Hbuy eq_refl) as (e & tp & He & Ht & Hlt).
  exists buy, e, tp. auto.
Defined.

(** ** The size of the trades of the strategies *)

Lemma capped_size (rm : RiskManager) (e sl : Q) :
  max_risk_per_trade rm == 0.02 -> 0 < account_balance rm ->
  ~ e == sl -> Qabs (e - sl) <= 0.2 ->
  exists size,
    calculate_position_size rm e sl = Ok size /\
    size == account_balance rm * 0.1.
Proof.
  intros Hr Hb Hne Hd.
  rewrite (calculate_position_size_differ rm e sl Hne).
  eexists. split; [reflexivity|]. rewrite py_min_Qmin.
  assert (Hpos : 0 < Qabs (e - sl)).
  { pose proof (Qabs_nonneg (e - sl)) as H. apply Qle_lteq in H as [H|H]; [exact H|].
    exfalso. apply Hne. apply Qabs_zero_iff. now rewrite <- H. }
  apply Q.min_r. apply Qle_shift_div_l; [exact Hpos|]. rewrite Hr.
  set (d := Qabs (e - sl)) in *. clearbody d. nra.
Qed.

Lemma signal_size_capped (rm : RiskManager) (dir : pyval) (c : Q)
    (reason : string) (e sl : Q) (take : pyval) :
  max_risk_per_trade rm == 0.02 -> 0 < account_balance rm ->
  ~ e == sl -> Qabs (e - sl) <= 0.2 ->
  exists size,
    signal_position_size rm (trade_signal dir c reason (PNum e) (PNum sl) take)
      = Ok size /\
    size == account_balance rm * 0.1.
Proof.
  intros Hr Hb Hne Hd. unfold signal_position_size, getitem.
  destruct (trade_signal_lookup dir c reason (PNum e) (PNum sl) take)
    as (_ & -> & ->).
  now apply capped_size.
Qed.

Ltac size_of_case Hpos c Hc :=
  match goal with
  | H : Ok _ = Ok _ |- _ => injection H as <-
  end;
  first
    [ exfalso;
      match goal with
      | Hd : _ !! "signal"%string = Some BUY \/ _ |- _ =>
          rewrite hold_signal_direction in Hd; destruct Hd as [Hd|Hd];
          discriminate Hd
      end
    | pose proof (Hpos c Hc);
      apply signal_size_capped; auto;
      [lra | apply Qabs_Qle_condition; split; lra] ].

(** X21. The 2% risk rule never decides the size of a trend or mean
    reversion trade on a quote of at most 20/3: with the stop 2% or 3% away
    from the entry, the risk-based size [balance * 0.02 / |entry - stop|]
    is at least the cap, so that [calculate_position_size] returns 10% of
    the balance for every BUY or SELL signal of these strategies, in both
    engines, whenever the balance is positive. *)
Theorem strategy_trades_sized_at_cap (fmt : nat -> fnum -> string)
    (sqrt : Q -> Q) (rm : RiskManager) :
  max_risk_per_trade rm == 0.02 -> 0 < account_balance rm ->
  (forall prices sig,
     Forall (fun p => 0 < p /\ p <= 20 # 3) prices ->
     SimpleTrendFollowingStrategy.generate_signal prices = Ok sig \/
     SimpleMeanReversionStrategy.generate_signal fmt prices = Ok sig ->
     sig !! "signal"%string = Some BUY \/ sig !! "signal"%string = Some SELL ->
     exists size,
       signal_position_size rm sig = Ok size /\
       size == account_balance rm * 0.1) /\
  (forall data sig,
     Forall (fun b => 0 < Close b /\ Close b <= 20 # 3) data ->
     TrendFollowingStrategy.generate_signal data = Ok sig \/
     MeanReversionStrategy.generate_signal fmt sqrt data = Ok sig ->
     sig !! "signal"%string = Some BUY \/ sig !! "signal"%string = Some SELL ->
     exists size,
       signal_position_size rm sig = Ok size /\
       size == account_balance rm * 0.1).
Proof.
  intros Hr Hb. split.
  - intros prices sig Hpos [H|H] Hd; rewrite Forall_forall in Hpos.
    + destruct (SimpleTrendFollowing_cases prices)
        as [(_ & E)|(_ & [(c & Hc & E)|[(c & Hc & E)|E]])];
        rewrite E in H; size_of_case Hpos c Hc.
    + destruct (SimpleMeanReversion_cases fmt prices)
        as [(_ & E)|(_ & [(c & r & Hc & E)|[(c & r & Hc & E)|E]])];
        rewrite E in H; size_of_case Hpos c Hc.
  - intros data sig Hpos [H|H] Hd; rewrite Forall_forall in Hpos.
    + destruct (TrendFollowing_cases data)
        as [(_ & E)|(_ & [(b & Hc & E)|[(b & Hc & E)|E]])];
        rewrite E in H; size_of_case Hpos b Hc.
    + destruct (MeanReversion_cases fmt sqrt data)
        as [(_ & E)|(_ & [(b & r & t & Hc & E)|[(b & r & t & Hc & E)|E]])];
        rewrite E in H; size_of_case Hpos b Hc.
Qed.

Lemma strategy_trades_sized_at_cap_witness :
  exists size,
    signal_position_size RiskManager_init
      (trade_signal SELL 0.8 ("Overbought: RSI=" ++ EmptyString)
         (PNum 1.0850) (PNum (1.0850 * 1.03)) (PNum (1.0850 * 0.97)))
      = Ok size /\
    size == 10000 * 0.1.
Proof.
  assert (Hr : max_risk_per_trade RiskManager_init == 0.02) by reflexivity.
  assert (Hb : 0 < account_balance RiskManager_init) by reflexivity.
  assert (Hp : Forall (fun p => 0 < p /\ p <= 20 # 3) (replicate 15 1.0850)).
  { apply Forall_forall. intros p Hp. apply elem_of_replicate in Hp as (-> & _).
    split; lra. }
  assert (E : SimpleMeanReversionStrategy.generate_signal
                (fun _ _ => EmptyString) (replicate 15 1.0850)
              = Ok (trade_signal SELL 0.8 ("Overbought: RSI=" ++ EmptyString)
                      (PNum 1.0850) (PNum (1.0850 * 1.03))
                      (PNum (1.0850 * 0.97))))
    by (vm_compute; reflexivity).
  exact (proj1 (strategy_trades_sized_at_cap (fun _ _ => EmptyString)
                  (fun q => q) RiskManager_init Hr Hb)
           (replicate 15 1.0850) _ Hp (or_intror E) (or_intror eq_refl)).
Defined.

Lemma filter_all {A : Type} (f : A -> bool) (l : list A) :
  (forall x, x ∈ l -> f x = true) -> List.filter f l = l.
Proof.
  induction l as [|x l IH]; intros H; simpl; [reflexivity|].
  rewrite (H x) by set_solver. rewrite IH; [reflexivity|].
  intros y Hy. apply H. set_solver.
Qed.

Lemma filter_none {A : Type} (f : A -> bool) (l : list A) :
  (forall x, x ∈ l -> f x = false) -> List.filter f l = [].
Proof.
  induction l as [|x l IH]; intros H; simpl; [reflexivity|].
  rewrite (H x) by set_solver. apply IH. intros y Hy. apply H. set_solver.
Qed.

Lemma last_n_le {A : Type} (n : nat) (l : list A) :
  (1 <= n)%nat -> (length (last_n n l) <= n)%nat.
Proof.
  intros Hn. unfold last_n. destruct (Nat.eqb_spec n 0) as [|_]; [lia|].
  rewrite length_drop. lia.
Qed.

(** X22. The trade list route reads [trade_history] only.  On a
    consistent ledger [total_count] is the length of the history whatever
    the filter; with status [all], or a status that lowers to the same
    string as CLOSED, the response holds the whole history, cut to its last
    [limit] trades when [limit] is positive; with any other status (such as
    [open]) it is empty; a positive [limit] bounds the length of the
    response; and no trade of the response is an open trade. *)
Theorem get_trades_spec (lower : string -> string) (limit : Z)
    (status_arg : string) (s : Robot) :
  wf s ->
  let all :=
    if (0 <? limit)%Z then last_n (Z.to_nat limit) (trade_history s)
    else trade_history s in
  snd (get_trades lower limit status_arg s) = length (trade_history s) /\
  (status_arg = "all"%string \/ lower status_arg = lower "CLOSED" ->
   fst (get_trades lower limit status_arg s) = all) /\
  (status_arg <> "all"%string -> lower status_arg <> lower "CLOSED" ->
   fst (get_trades lower limit status_arg s) = []) /\
  ((0 < limit)%Z ->
   (length (fst (get_trades lower limit status_arg s)) <= Z.to_nat limit)%nat) /\
  (forall r, r ∈ fst (get_trades lower limit status_arg s) ->
     (r ∈ trade_history s) /\ (r ∉ active_trades s)).
Proof.
  intros Hwf. cbv zeta.
  assert (Hst : forall r, r ∈ trade_history s ->
            status_of (heap s) r = "CLOSED"%string).
  { intros r Hr. destruct (wf_history s Hwf r Hr) as (t & Ht & Hc).
    unfold status_of. now rewrite Ht. }
  assert (Hsub : forall r, r ∈ fst (get_trades lower limit status_arg s) ->
            r ∈ trade_history s).
  { unfold get_trades. simpl. intros r Hr.
    assert (H1 : r ∈ (if negb (String.eqb status_arg "all")
                      then List.filter
                             (fun r => String.eqb (lower (status_of (heap s) r))
                                                  (lower status_arg))
                             (trade_history s)
                      else trade_history s)).
    { destruct (0 <? limit)%Z; [|exact Hr]. now apply last_n_subseteq in Hr. }
    destruct (negb _); [|exact H1].
    apply list_elem_of_In, filter_In in H1 as (H1 & _). now apply list_elem_of_In. }
  split_and!.
  - reflexivity.
  - intros H. unfold get_trades. simpl.
    destruct (String.eqb_spec status_arg "all") as [|Hne]; [reflexivity|]. simpl.
    destruct H as [H|H]; [contradiction|].
    rewrite filter_all; [reflexivity|]. intros r Hr. rewrite (Hst r Hr), H.
    apply String.eqb_refl.
  - intros Hne Hlow. unfold get_trades. simpl.
    destruct (String.eqb_spec status_arg "all") as [|_]; [contradiction|]. simpl.
    rewrite filter_none.
    + destruct (0 <? limit)%Z; [|reflexivity]. unfold last_n.
      destruct (Z.to_nat limit =? 0)%nat; [reflexivity|apply drop_nil].
    + intros r Hr. rewrite (Hst r Hr). apply String.eqb_neq. congruence.
  - intros Hlim. unfold get_trades. simpl. apply Z.ltb_lt in Hlim as Hb.
    rewrite Hb. apply last_n_le. lia.
  - intros r Hr. apply Hsub in Hr. split; [exact Hr|].
    intros Ha. apply (active_not_history s r Hwf Ha Hr).
Qed.

Lemma wf_small_robot_closed : wf small_robot_closed.
Proof. apply wf_close, wf_small_robot_open. Qed.

Lemma get_trades_spec_witness :
  fst (get_trades (fun x => x) 50 "open" small_robot_closed) = [] /\
  fst (get_trades (fun x => x) 50 "all" small_robot_closed) = [0%nat] /\
  snd (get_trades (fun x => x) 50 "open" small_robot_closed) = 1%nat.
Proof.
  destruct (get_trades_spec (fun x => x) 50 "open" small_robot_closed
              wf_small_robot_closed) as (Hn & _ & Hopen & _).
  destruct (get_trades_spec (fun x => x) 50 "all" small_robot_closed
              wf_small_robot_closed) as (_ & Hall & _).
  split_and!.
  - apply Hopen; discriminate.
  - rewrite Hall; [reflexivity|now left].
  - exact Hn.
Defined.

(** ** A manual close during a monitoring pass *)

(** X23. [monitor_trades] walks a copy of [active_trades] and does not
    look at the list again.  If a trade of the copy is closed in the
    meantime (the close-trade route calls [close_trade] from the thread of
    the request) and the price fetched at its turn is beyond its stop, the
    loop closes it a second time: the exit fields are overwritten with
    reason STOP_LOSS, the second P/L is added to the balance on top of the
    first, and the pass ends with ValueError before the rest of the copy is
    looked at. *)
Theorem monitor_after_manual_close (clock : nat -> datetime) (feed : nat -> Q)
    (k : nat) (rest : list ref) (s : Robot) (r : ref) (t : Trade)
    (now : datetime) (price : Q) :
  wf s -> r ∈ active_trades s -> heap s !! r = Some t ->
  stop_loss_hit t (feed k) = true -> ~ feed k == 0 ->
  exists s1 s2,
    close_trade now r price MANUAL_CLOSE s = (Ok tt, s1) /\
    monitor_loop clock feed k (r :: rest) s1 = (Raise ValueError, s2) /\
    active_trades s2 = active_trades s1 /\
    trade_history s2 = trade_history s ++ [r] /\
    heap s2 !! r
      = Some (closed (closed t price now MANUAL_CLOSE) (feed k) (clock k)
                STOP_LOSS) /\
    account_balance (risk_manager s2)
      == account_balance (risk_manager s) + trade_pnl t price
         + trade_pnl t (feed k).
Proof.
  intros Hwf Hin Ht Hstop Hnz.
  destruct (close_trade_frame s now r price MANUAL_CLOSE t Hwf Hin Ht)
    as (s1 & Hc & Hwf1 & Hh1 & Hna1 & Hhist1 & _).
  destruct (list_elem_of_split _ _ Hin) as (l1 & l2 & Hact).
  pose proof (close_trade_active s now r price MANUAL_CLOSE t Hwf Ht l1 l2 Hact)
    as Hexp.
  rewrite Hc in Hexp. injection Hexp as Hs1.
  exists s1. eexists. split; [exact Hc|].
  simpl. unfold monitor_trade. rewrite Hh1.
  apply Qeq_bool_false in Hnz. rewrite Hnz.
  change (stop_loss_hit (closed t price now MANUAL_CLOSE) (feed k))
    with (stop_loss_hit t (feed k)).
  rewrite Hstop.
  rewrite (close_trade_inactive s1 (clock k) r (feed k) STOP_LOSS _ Hwf1 Hh1 Hna1).
  split; [reflexivity|]. simpl. split_and!.
  - reflexivity.
  - exact Hhist1.
  - apply list_lookup_insert_eq. now apply lookup_lt_Some in Hh1.
  - rewrite Hs1. simpl.
    change (trade_pnl (closed t price now MANUAL_CLOSE) (feed k))
      with (trade_pnl t (feed k)).
    reflexivity.
Qed.

Lemma monitor_after_manual_close_witness :
  exists s1 s2,
    close_trade 5%Z 0%nat 1.1100 MANUAL_CLOSE (small_robot_open BUY PNone)
      = (Ok tt, s1) /\
    monitor_loop (fun _ => 6%Z) (fun _ => 1.0940) 0 [0%nat] s1
      = (Raise ValueError, s2) /\
    account_balance (risk_manager s2) == 1000 + 1 - 0.60.
Proof.
  assert (Hin : 0%nat ∈ active_trades (small_robot_open BUY PNone))
    by (apply list_elem_of_singleton; reflexivity).
  assert (Hnz : ~ 1.0940 == 0) by (intros H; discriminate H).
  destruct (monitor_after_manual_close (fun _ => 6%Z) (fun _ => 1.0940) 0 []
              (small_robot_open BUY PNone) 0%nat (sample_trade BUY PNone)
              5%Z 1.1100 (wf_small_robot_open BUY PNone) Hin eq_refl eq_refl Hnz)
    as (s1 & s2 & E1 & E2 & _ & _ & _ & Hb).
  exists s1, s2. split; [exact E1|]. split; [exact E2|].
  rewrite Hb. reflexivity.
Defined.
